(** * Python-CIMIS: the response mapper and the CSV projector

    A shallow embedding of [python_cimis/endpoints.py],
    [python_cimis/client.py], [python_cimis/models.py] and
    [python_cimis/exceptions.py], and the properties of the mapping of a
    JSON payload to [WeatherData] and of its projection to CSV files.

    Conventions of the embedding.
    - A Python value reaching this code comes from [json.loads]: [None], a
      [bool], an [int], a [str], a [list] or a [dict] with [str] keys.
      Non-integer JSON numbers are outside the model, and so is an [int] of
      more than 4300 digits, which [json.loads] does not return under the
      interpreter's default limit on conversions between [int] and [str].
    - A [str] is a [string] whose characters stand for one code point each
      (code points below 256); [sorted] on [str] is then the order of
      [String.le]. Every such text can be written to a file opened with
      [encoding='utf-8']; a text with a lone surrogate, on which the write
      raises [UnicodeEncodeError], is outside the model.
    - A [dict] coming from JSON is an association list in insertion order
      with distinct keys; the dictionaries the code builds itself
      ([data_values], a CSV row) are finite maps.
    - A raised exception is the [Raise] result; [try]/[except] is a match on
      it. *)

From Stdlib Require Import ZArith String Ascii List Bool Lia.
From stdpp Require Import base option list gmap strings sorting.

Set Warnings "-register-all".

Local Open Scope string_scope.
Local Open Scope Z_scope.

(** ** Python values *)

Inductive pyval : Type :=
| VNone
| VBool (b : bool)
| VInt (n : Z)
| VStr (s : string)
| VList (l : list pyval)
| VDict (d : list (string * pyval)).

(** [d.get(k)] on an association list: the entry of key [k]. *)
Fixpoint dict_get {V : Type} (k : string) (d : list (string * V)) : option V :=
  match d with
  | [] => None
  | (k', v) :: d' => if String.eqb k k' then Some v else dict_get k d'
  end.

(** [a == b]. [bool] is a subclass of [int]: [True == 1]. Two dicts are equal
    when they have the same keys with equal values, in any order. *)
Fixpoint py_eq (a b : pyval) : bool :=
  match a, b with
  | VNone, VNone => true
  | VBool x, VBool y => Bool.eqb x y
  | VBool x, VInt n => (n =? (if x then 1 else 0))
  | VInt n, VBool x => (n =? (if x then 1 else 0))
  | VInt n, VInt m => (n =? m)
  | VStr s, VStr t => String.eqb s t
  | VList l, VList l' =>
      (fix go (l l' : list pyval) : bool :=
         match l, l' with
         | [], [] => true
         | x :: l, y :: l' => py_eq x y && go l l'
         | _, _ => false
         end) l l'
  | VDict d, VDict d' =>
      (length d =? length d')%nat &&
      (fix go (d : list (string * pyval)) : bool :=
         match d with
         | [] => true
         | (k, v) :: d =>
             match dict_get k d' with
             | Some v' => py_eq v v'
             | None => false
             end && go d
         end) d
  | _, _ => false
  end.

(** Truth value of an object: [None], [False], [0], [''], [[]] and [{}] are
    false. *)
Definition py_truthy (v : pyval) : bool :=
  match v with
  | VNone => false
  | VBool b => b
  | VInt n => negb (n =? 0)
  | VStr s => negb (String.eqb s "")
  | VList l => match l with [] => false | _ => true end
  | VDict d => match d with [] => false | _ => true end
  end.

(** [a or b] *)
Definition py_or (a b : pyval) : pyval := if py_truthy a then a else b.

(** ** Exceptions (exceptions.py and the built-in ones this code meets) *)

Inductive exn_class : Type :=
| Exception
| TypeError
| ValueError
| KeyError
| AttributeError
| ArithmeticError
| OverflowError
| OSError
| CimisError
| CimisAPIError
| CimisDataError
| CimisConnectionError
| CimisAuthenticationError.

(** The base class written in the [class] statement. *)
Definition base_class (c : exn_class) : option exn_class :=
  match c with
  | Exception => None
  | CimisAPIError | CimisDataError | CimisConnectionError => Some CimisError
  | CimisAuthenticationError => Some CimisAPIError
  | OverflowError => Some ArithmeticError
  | _ => Some Exception
  end.

Definition exn_class_eqb (a b : exn_class) : bool :=
  match a, b with
  | Exception, Exception | TypeError, TypeError | ValueError, ValueError
  | KeyError, KeyError | AttributeError, AttributeError | OSError, OSError
  | ArithmeticError, ArithmeticError | OverflowError, OverflowError
  | CimisError, CimisError | CimisAPIError, CimisAPIError
  | CimisDataError, CimisDataError
  | CimisConnectionError, CimisConnectionError
  | CimisAuthenticationError, CimisAuthenticationError => true
  | _, _ => false
  end.

(** [issubclass(c, d)]; the hierarchy is three levels deep. *)
Fixpoint issubclass_fuel (fuel : nat) (c d : exn_class) : bool :=
  exn_class_eqb c d ||
  match fuel, base_class c with
  | S fuel', Some b => issubclass_fuel fuel' b d
  | _, _ => false
  end.

Definition issubclass : exn_class -> exn_class -> bool := issubclass_fuel 3.

(** A raised exception: its class and its message. *)
Record exn : Type := mk_exn { exn_cls : exn_class; exn_msg : string }.

(** [except d:] catches [e]. *)
Definition caught_by (d : exn_class) (e : exn) : bool := issubclass (exn_cls e) d.

Inductive result (A : Type) : Type :=
| Ok (a : A)
| Raise (e : exn).
Arguments Ok {A} a.
Arguments Raise {A} e.

Definition raise_ {A : Type} (c : exn_class) : result A := Raise (mk_exn c "").

#[global] Instance result_ret : MRet result := fun A a => Ok a.
#[global] Instance result_bind : MBind result :=
  fun A B f m => match m with Ok a => f a | Raise e => Raise e end.
#[global] Instance result_fmap : FMap result :=
  fun A B f m => match m with Ok a => Ok (f a) | Raise e => Raise e end.

(** A [for] loop whose body may raise: the first exception ends it. *)
Fixpoint for_each {A B : Type} (body : A -> result B) (l : list A) : result (list B) :=
  match l with
  | [] => Ok []
  | x :: l' => y ← body x; ys ← for_each body l'; Ok (y :: ys)
  end.

(** ** Operations on JSON-derived values *)

(** [needle in hay] for two [str]: [needle] occurs in [hay]. *)
Fixpoint str_contains (needle hay : string) : bool :=
  String.prefix needle hay ||
  match hay with
  | EmptyString => false
  | String _ hay' => str_contains needle hay'
  end.

(** [k in v] for a [str] [k]. *)
Definition py_contains (k : string) (v : pyval) : result bool :=
  match v with
  | VDict d => Ok (bool_decide (is_Some (dict_get k d)))
  | VList l => Ok (existsb (py_eq (VStr k)) l)
  | VStr s => Ok (str_contains k s)
  | _ => raise_ TypeError
  end.

(** [v[k]] for a [str] [k]. *)
Definition py_getitem (v : pyval) (k : string) : result pyval :=
  match v with
  | VDict d => match dict_get k d with Some x => Ok x | None => raise_ KeyError end
  | _ => raise_ TypeError
  end.

(** [v.get(k, default)]: only a [dict] has the method. *)
Definition py_get (v : pyval) (k : string) (default : pyval) : result pyval :=
  match v with
  | VDict d => Ok (from_option id default (dict_get k d))
  | _ => raise_ AttributeError
  end.

(** [iter(v)]: the elements a [for] loop over [v] visits. *)
Definition py_iter (v : pyval) : result (list pyval) :=
  match v with
  | VList l => Ok l
  | VDict d => Ok (map (fun kv => VStr (fst kv)) d)
  | VStr s => Ok (map (fun c => VStr (String c EmptyString)) (list_ascii_of_string s))
  | _ => raise_ TypeError
  end.

(** ** models.py *)

Module DataValue.
Record t : Type := mk { value : pyval; qc : pyval; unit : pyval }.
(** The dataclass [__eq__]: the tuples of fields are equal. *)
Definition eqb (a b : t) : bool :=
  py_eq (value a) (value b) && py_eq (qc a) (qc b) && py_eq (unit a) (unit b).
End DataValue.

Module WeatherRecord.
Record t : Type := mk {
  date : pyval;
  julian : pyval;
  station : pyval;
  standard : pyval;
  zip_codes : pyval;
  scope : pyval;
  hour : pyval;
  data_values : gmap string DataValue.t
}.
(** Equality of two [data_values] dicts. *)
Definition data_values_eqb (m m' : gmap string DataValue.t) : bool :=
  (size m =? size m')%nat &&
  forallb (fun kv => match m' !! fst kv with
                     | Some v' => DataValue.eqb (snd kv) v'
                     | None => false
                     end) (map_to_list m).
(** The dataclass [__eq__]: fields compared in declaration order. *)
Definition eqb (a b : t) : bool :=
  py_eq (date a) (date b) && py_eq (julian a) (julian b) &&
  py_eq (station a) (station b) && py_eq (standard a) (standard b) &&
  py_eq (zip_codes a) (zip_codes b) && py_eq (scope a) (scope b) &&
  py_eq (hour a) (hour b) && data_values_eqb (data_values a) (data_values b).
End WeatherRecord.

Module WeatherProvider.
Record t : Type := mk {
  name : pyval;
  type : pyval;
  owner : pyval;
  records : list WeatherRecord.t
}.
End WeatherProvider.

Module WeatherData.
Record t : Type := mk { providers : list WeatherProvider.t }.
(** [all_records.extend(provider.records)] for each provider in turn. *)
Definition get_all_records (self : t) : list WeatherRecord.t :=
  flat_map WeatherProvider.records (providers self).
End WeatherData.

(** ** endpoints.py: [CimisEndpoints.parse_data_response] *)

(** The loop over [record_data.items()] filling [record.data_values]: an
    entry is made when [isinstance(value, dict) and 'Value' in value]. *)
Definition parse_data_values (items : list (string * pyval)) : gmap string DataValue.t :=
  foldl (fun acc kv =>
           let '(key, value) := kv in
           match value with
           | VDict d =>
               if bool_decide (is_Some (dict_get "Value" d)) then
                 <[key := DataValue.mk
                            (from_option id VNone (dict_get "Value" d))
                            (from_option id (VStr " ") (dict_get "Qc" d))
                            (from_option id (VStr "") (dict_get "Unit" d))]> acc
               else acc
           | _ => acc
           end) ∅ items.

(** The body of the loop over the records of a provider. *)
Definition parse_record (record_data : pyval) : result WeatherRecord.t :=
  date ← py_get record_data "Date" (VStr "");
  julian ← py_get record_data "Julian" (VStr "");
  station ← py_get record_data "Station" VNone;
  standard ← py_get record_data "Standard" (VStr "english");
  zip_codes ← py_get record_data "ZipCodes" (VStr "");
  scope ← py_get record_data "Scope" (VStr "daily");
  hour ← py_get record_data "Hour" VNone;
  match record_data with
  | VDict items =>
      Ok (WeatherRecord.mk date julian station standard zip_codes scope hour
            (parse_data_values items))
  | _ => raise_ AttributeError
  end.

(** The body of the loop over the providers. *)
Definition parse_provider (provider_data : pyval) : result WeatherProvider.t :=
  name ← py_get provider_data "Name" (VStr "");
  type ← py_get provider_data "Type" (VStr "");
  owner ← py_get provider_data "Owner" (VStr "");
  records_data ← py_get provider_data "Records" (VList []);
  record_list ← py_iter records_data;
  records ← for_each parse_record record_list;
  Ok (WeatherProvider.mk name type owner records).

(** ['Data' not in data or 'Providers' not in data['Data']] *)
Definition lacks_providers (data : pyval) : result bool :=
  has_data ← py_contains "Data" data;
  if negb has_data then Ok true
  else
    inner ← py_getitem data "Data";
    has_providers ← py_contains "Providers" inner;
    Ok (negb has_providers).

Definition parse_data_response (data : pyval) : result WeatherData.t :=
  early ← lacks_providers data;
  if (early : bool) then Ok (WeatherData.mk [])
  else
    inner ← py_getitem data "Data";
    providers_data ← py_getitem inner "Providers";
    provider_list ← py_iter providers_data;
    providers ← for_each parse_provider provider_list;
    Ok (WeatherData.mk providers).

(** ** client.py: [CimisClient._parse_data_response], the same text as the
    class method of [CimisEndpoints]. *)
Definition _parse_data_response (data : pyval) : result WeatherData.t :=
  early ← lacks_providers data;
  if (early : bool) then Ok (WeatherData.mk [])
  else
    inner ← py_getitem data "Data";
    providers_data ← py_getitem inner "Providers";
    provider_list ← py_iter providers_data;
    providers ← for_each parse_provider provider_list;
    Ok (WeatherData.mk providers).

(** ** The input side of the mapper's properties, read off the payload *)

(** The array under [Data] / [Providers], when there is one. *)
Definition providers_array (data : pyval) : list pyval :=
  match data with
  | VDict d =>
      match dict_get "Data" d with
      | Some (VDict inner) =>
          match dict_get "Providers" inner with
          | Some (VList ps) => ps
          | _ => []
          end
      | _ => []
      end
  | _ => []
  end.

(** The [Records] array of a provider object, when there is one. *)
Definition records_array (provider : pyval) : list pyval :=
  match provider with
  | VDict d =>
      match dict_get "Records" d with
      | Some (VList rs) => rs
      | _ => []
      end
  | _ => []
  end.

Definition input_record_count (data : pyval) : nat :=
  sum_list (map (fun p => length (records_array p)) (providers_array data)).

(** The payload has the shape the API documents: every level that is present
    is of the expected kind. *)
Definition is_dict (v : pyval) : bool :=
  match v with VDict _ => true | _ => false end.

Definition provider_well_shaped (p : pyval) : bool :=
  match p with
  | VDict d =>
      match dict_get "Records" d with
      | None => true
      | Some (VList rs) => forallb is_dict rs
      | Some _ => false
      end
  | _ => false
  end.

Definition well_shaped (data : pyval) : bool :=
  match data with
  | VDict d =>
      match dict_get "Data" d with
      | None => true
      | Some (VDict inner) =>
          match dict_get "Providers" inner with
          | None => true
          | Some (VList ps) => forallb provider_well_shaped ps
          | Some _ => false
          end
      | Some _ => false
      end
  | _ => false
  end.

(** What the specification says a value of a record object becomes: a
    [DataValue] when it is an object with a [Value] key, nothing otherwise. *)
Definition expected_item (v : pyval) : option DataValue.t :=
  match v with
  | VDict o =>
      match dict_get "Value" o with
      | Some x =>
          Some (DataValue.mk x
                  (from_option id (VStr " ") (dict_get "Qc" o))
                  (from_option id (VStr "") (dict_get "Unit" o)))
      | None => None
      end
  | _ => None
  end.

(** ** [str] methods and conversions used by the projector *)

(** [s[n:]] and [s[:n]] for [n >= 0]. *)
Fixpoint str_drop (n : nat) (s : string) : string :=
  match n, s with
  | O, _ => s
  | S n', String _ s' => str_drop n' s'
  | S _, EmptyString => EmptyString
  end.

Fixpoint str_take (n : nat) (s : string) : string :=
  match n, s with
  | S n', String c s' => String c (str_take n' s')
  | _, _ => EmptyString
  end.

(** [s[-1]], when [s] is not empty. *)
Fixpoint str_last (s : string) : option ascii :=
  match s with
  | EmptyString => None
  | String c EmptyString => Some c
  | String _ s' => str_last s'
  end.

(** ['0' * n] *)
Fixpoint zeros (n : nat) : string :=
  match n with
  | O => EmptyString
  | S n' => String "0" (zeros n')
  end.

(** [s.zfill(width)]: zeros are added on the left, after a leading sign. *)
Definition zfill (width : nat) (s : string) : string :=
  if (width <=? String.length s)%nat then s
  else
    let fill := (width - String.length s)%nat in
    match s with
    | String c s' =>
        if Ascii.eqb c "+" || Ascii.eqb c "-" then String c (zeros fill ++ s')
        else zeros fill ++ s
    | EmptyString => zeros fill
    end.

Definition is_digit (c : ascii) : bool :=
  (48 <=? nat_of_ascii c)%nat && (nat_of_ascii c <=? 57)%nat.

Definition digit_value (c : ascii) : Z := Z.of_nat (nat_of_ascii c) - 48.

(** White space for [int()]: tab to carriage return and space, and among the
    other code points below 256 the two Unicode spaces U+0085 and U+00A0. *)
Definition is_int_space (c : ascii) : bool :=
  let n := nat_of_ascii c in
  ((9 <=? n)%nat && (n <=? 13)%nat) || (n =? 32)%nat || (n =? 133)%nat || (n =? 160)%nat.

Fixpoint skip_spaces (s : string) : string :=
  match s with
  | String c s' => if is_int_space c then skip_spaces s' else s
  | EmptyString => s
  end.

(** The digits of an [int()] literal after its first digit: digits, each
    possibly preceded by one underscore; the rest must be white space.
    [acc] is the value read so far. *)
Fixpoint int_digits (acc : Z) (s : string) : option Z :=
  match s with
  | EmptyString => Some acc
  | String c s' =>
      if is_digit c then int_digits (10 * acc + digit_value c) s'
      else if Ascii.eqb c "_" then
        match s' with
        | String c' s'' =>
            if is_digit c' then int_digits (10 * acc + digit_value c') s'' else None
        | EmptyString => None
        end
      else if String.eqb (skip_spaces s) "" then Some acc
      else None
  end.

Definition int_unsigned (s : string) : option Z :=
  match s with
  | String c s' => if is_digit c then int_digits (digit_value c) s' else None
  | EmptyString => None
  end.

(** The number of digits of a text. *)
Fixpoint count_digits (s : string) : nat :=
  match s with
  | EmptyString => O
  | String c s' => if is_digit c then S (count_digits s') else count_digits s'
  end.

(** The interpreter's default limit on the digits of an [int] literal. *)
Definition int_max_str_digits : nat := 4300.

(** [int(s)] for a [str] [s], base ten: a text that is no literal, or a
    literal of more digits than the interpreter's limit, is a
    [ValueError]. *)
Definition py_int (s : string) : result Z :=
  let body := skip_spaces s in
  let parsed :=
    match body with
    | String c s' =>
        if Ascii.eqb c "-" then Z.opp <$> int_unsigned s'
        else if Ascii.eqb c "+" then int_unsigned s'
        else int_unsigned body
    | EmptyString => None
    end in
  match parsed with
  | Some n => if (int_max_str_digits <? count_digits s)%nat then raise_ ValueError
              else Ok n
  | None => raise_ ValueError
  end.

(** Decimal digits of a natural number, most significant first. *)
Fixpoint nat_digits (fuel : nat) (n : nat) (acc : string) : string :=
  match fuel with
  | O => acc
  | S fuel' =>
      let acc' := String (ascii_of_nat (48 + n mod 10)) acc in
      if (n <? 10)%nat then acc' else nat_digits fuel' (n / 10) acc'
  end.

(** [str(n)] for an [int]. *)
Definition int_str (n : Z) : string :=
  let m := Z.to_nat (Z.abs n) in
  let digits := nat_digits (S m) m EmptyString in
  if n <? 0 then String "-" digits else digits.

(** ["%0<width>d" % n] for [n >= 0]. *)
Definition zero_padded (width : nat) (n : Z) : string :=
  let s := int_str n in zeros (width - String.length s) ++ s.

Definition hex_digit (n : nat) : ascii :=
  if (n <? 10)%nat then ascii_of_nat (48 + n) else ascii_of_nat (87 + n).

(** One character of [repr(s)], for the quote [q] chosen. *)
Definition repr_char (q : ascii) (c : ascii) : string :=
  let n := nat_of_ascii c in
  if Ascii.eqb c q || Ascii.eqb c "\" then String "\" (String c EmptyString)
  else if (n =? 9)%nat then "\t"
  else if (n =? 10)%nat then "\n"
  else if (n =? 13)%nat then "\r"
  else if (n <? 32)%nat || ((127 <=? n)%nat && (n <=? 160)%nat) || (n =? 173)%nat then
    String "\" (String "x" (String (hex_digit (n / 16)) (String (hex_digit (n mod 16)) EmptyString)))
  else String c EmptyString.

Fixpoint has_char (c : ascii) (s : string) : bool :=
  match s with
  | EmptyString => false
  | String c' s' => Ascii.eqb c c' || has_char c s'
  end.

Fixpoint str_concat_map (f : ascii -> string) (s : string) : string :=
  match s with
  | EmptyString => EmptyString
  | String c s' => f c ++ str_concat_map f s'
  end.

(** [repr(s)] for a [str]: single quotes unless [s] has a single quote and no
    double quote. *)
Definition str_repr (s : string) : string :=
  let dq : ascii := ascii_of_nat 34 in
  let q : ascii := if has_char "'" s && negb (has_char dq s) then dq else "'"%char in
  String q (str_concat_map (repr_char q) s ++ String q EmptyString).

(** [', '.join(l)] *)
Fixpoint join_comma (l : list string) : string :=
  match l with
  | [] => ""
  | [x] => x
  | x :: l' => x ++ ", " ++ join_comma l'
  end.

(** [repr(v)] *)
Fixpoint py_repr (v : pyval) : string :=
  match v with
  | VNone => "None"
  | VBool b => if b then "True" else "False"
  | VInt n => int_str n
  | VStr s => str_repr s
  | VList l => "[" ++ join_comma (map py_repr l) ++ "]"
  | VDict d =>
      "{" ++ join_comma (map (fun kv => str_repr (fst kv) ++ ": " ++ py_repr (snd kv)) d) ++ "}"
  end.

(** [str(v)], which is also what an f-string field [{v}] gives. *)
Definition py_str (v : pyval) : string :=
  match v with
  | VStr s => s
  | _ => py_repr v
  end.

(** ** [datetime] *)

Module datetime.
Record t : Type := mk { year : Z; month : Z; day : Z; hour : Z; minute : Z; second : Z }.

Definition is_leap (y : Z) : bool :=
  (y mod 4 =? 0) && (negb (y mod 100 =? 0) || (y mod 400 =? 0)).

Definition days_in_month (y m : Z) : Z :=
  if m =? 2 then (if is_leap y then 29 else 28)
  else if (m =? 4) || (m =? 6) || (m =? 9) || (m =? 11) then 30
  else 31.

(** The group [(?P<m>1[0-2]|0[1-9]|[1-9])] followed by ["-"]: the first
    alternative after which the hyphen matches. Gives the month and the text
    after the hyphen. *)
Definition match_month (s : string) : option (Z * string) :=
  let two :=
    match s with
    | String a (String b (String c rest)) =>
        if negb (Ascii.eqb c "-") then None
        else if Ascii.eqb a "1" && is_digit b && (digit_value b <=? 2)
        then Some (10 + digit_value b, rest)
        else if Ascii.eqb a "0" && is_digit b && (1 <=? digit_value b)
        then Some (digit_value b, rest)
        else None
    | _ => None
    end in
  match two with
  | Some r => Some r
  | None =>
      match s with
      | String a (String c rest) =>
          if Ascii.eqb c "-" && is_digit a && (1 <=? digit_value a)
          then Some (digit_value a, rest) else None
      | _ => None
      end
  end.

(** The group [(?P<d>3[0-1]|[1-2]\d|0[1-9]|[1-9]| [1-9])], the last of the
    pattern: the first alternative that matches. Gives the day and the text
    left over. *)
Definition match_day (s : string) : option (Z * string) :=
  let two :=
    match s with
    | String a (String b rest) =>
        if Ascii.eqb a "3" && is_digit b && (digit_value b <=? 1)
        then Some (30 + digit_value b, rest)
        else if (Ascii.eqb a "1" || Ascii.eqb a "2") && is_digit b
        then Some (10 * digit_value a + digit_value b, rest)
        else if Ascii.eqb a "0" && is_digit b && (1 <=? digit_value b)
        then Some (digit_value b, rest)
        else None
    | _ => None
    end in
  match two with
  | Some r => Some r
  | None =>
      match s with
      | String a rest =>
          if is_digit a && (1 <=? digit_value a) then Some (digit_value a, rest)
          else
            match rest with
            | String b rest' =>
                if Ascii.eqb a " " && is_digit b && (1 <=? digit_value b)
                then Some (digit_value b, rest') else None
            | EmptyString => None
            end
      | EmptyString => None
      end
  end.

(** The match of [(?P<Y>\d\d\d\d)-(?P<m>...)-(?P<d>...)] against the whole
    of [s]: year, month and day, when [s] matches with nothing left over. *)
Definition match_ymd (s : string) : option (Z * Z * Z) :=
  match s with
  | String y1 (String y2 (String y3 (String y4 (String c rest)))) =>
      if is_digit y1 && is_digit y2 && is_digit y3 && is_digit y4 && Ascii.eqb c "-" then
        match match_month rest with
        | Some (m, rest') =>
            match match_day rest' with
            | Some (d, left_over) =>
                if String.eqb left_over "" then
                  Some (1000 * digit_value y1 + 100 * digit_value y2
                        + 10 * digit_value y3 + digit_value y4, m, d)
                else None
            | None => None
            end
        | None => None
        end
      else None
  | _ => None
  end.

(** [datetime.strptime(s, '%Y-%m-%d')] for a [str] [s]: the text must match
    the pattern and name a day of the calendar, years 1 to 9999. *)
Definition strptime_ymd (s : string) : result t :=
  match match_ymd s with
  | Some (y, m, d) =>
      if (1 <=? y) && (d <=? days_in_month y m) then Ok (mk y m d 0 0 0)
      else raise_ ValueError
  | None => raise_ ValueError
  end.

(** [datetime.strptime(v, '%Y-%m-%d')]: the argument must be a [str]. *)
Definition strptime (v : pyval) : result t :=
  match v with
  | VStr s => strptime_ymd s
  | _ => raise_ TypeError
  end.

(** A value that fits the C type [int]. *)
Definition c_int (n : Z) : bool := (- 2147483648 <=? n) && (n <=? 2147483647).

(** [self.replace(hour=h, minute=mi)]: the arguments are first converted to
    C integers, which raises [OverflowError] for one that does not fit;
    then each must be in its range. *)
Definition replace_hour_minute (self : t) (h mi : Z) : result t :=
  if negb (c_int h && c_int mi) then raise_ OverflowError
  else if (0 <=? h) && (h <=? 23) && (0 <=? mi) && (mi <=? 59)
  then Ok (mk (year self) (month self) (day self) h mi (second self))
  else raise_ ValueError.

(** [self.isoformat()], without microseconds or time zone. *)
Definition isoformat (self : t) : string :=
  zero_padded 4 (year self) ++ "-" ++ zero_padded 2 (month self) ++ "-"
  ++ zero_padded 2 (day self) ++ "T" ++ zero_padded 2 (hour self) ++ ":"
  ++ zero_padded 2 (minute self) ++ ":" ++ zero_padded 2 (second self).
End datetime.

(** ** Files *)

(** A path as [pathlib] splits it: the directory and the final component. *)
Record Path : Type := mk_Path { parent : string; name : string }.

(** [str(path)] *)
Definition path_str (p : Path) : string :=
  if String.eqb (parent p) "." then name p
  else if String.eqb (str_drop (String.length (parent p) - 1) (parent p)) "/"
       then parent p ++ name p
       else parent p ++ "/" ++ name p.

(** [name.rfind('.')] *)
Fixpoint rfind_dot (s : string) (i : nat) : option nat :=
  match s with
  | EmptyString => None
  | String c s' =>
      match rfind_dot s' (S i) with
      | Some j => Some j
      | None => if Ascii.eqb c "." then Some i else None
      end
  end.

(** [path.suffix] and [path.stem]: the name is split at its last dot, unless
    that dot is its first or its last character. *)
Definition suffix (p : Path) : string :=
  match rfind_dot (name p) 0 with
  | Some i => if (0 <? i)%nat && (i <? String.length (name p) - 1)%nat
              then str_drop i (name p) else ""
  | None => ""
  end.

Definition stem (p : Path) : string :=
  match rfind_dot (name p) 0 with
  | Some i => if (0 <? i)%nat && (i <? String.length (name p) - 1)%nat
              then str_take i (name p) else name p
  | None => name p
  end.

(** [path.with_name(new_name)], for a [new_name] that is a valid final
    component: a path without a name has none to replace. *)
Definition with_name (p : Path) (new_name : string) : result Path :=
  if String.eqb (name p) "" then raise_ ValueError
  else Ok (mk_Path (parent p) new_name).

(** A CSV file as the writer receives it: its rows, each a list of cells. *)
Definition csv_rows : Type := list (list pyval).

(** The file system: the CSV files written, by path, and the paths that
    cannot be created or opened for writing. *)
Record fs : Type := mk_fs { files : gmap string csv_rows; denied : gset string }.

(** A computation that reads and writes files and may raise. *)
Definition io (A : Type) : Type := fs -> fs * result A.

#[global] Instance io_ret : MRet io := fun A a s => (s, Ok a).
#[global] Instance io_bind : MBind io :=
  fun A B f m s =>
    match m s with
    | (s', Ok a) => f a s'
    | (s', Raise e) => (s', Raise e)
    end.

Definition io_raise {A : Type} (e : exn) : io A := fun s => (s, Raise e).

Definition io_lift {A : Type} (r : result A) : io A := fun s => (s, r).

(** [dir.mkdir(parents=True, exist_ok=True)] *)
Definition mkdir (dir : string) : io () :=
  fun s => if bool_decide (dir ∈ denied s) then (s, raise_ OSError) else (s, Ok ()).

(** [open(path, 'w', ...)]: the file is created or emptied. *)
Definition open_w (path : string) : io () :=
  fun s =>
    if bool_decide (path ∈ denied s) then (s, raise_ OSError)
    else (mk_fs (<[path := []]> (files s)) (denied s), Ok ()).

(** The writer appends one row to the open file. *)
Definition write_row (path : string) (row : list pyval) : io () :=
  fun s =>
    (mk_fs (<[path := (from_option id [] (files s !! path) ++ [row])%list]> (files s)) (denied s),
     Ok ()).

(** A [for] loop whose body writes and may raise. *)
Fixpoint io_for {A : Type} (body : A -> io ()) (l : list A) : io () :=
  match l with
  | [] => mret ()
  | x :: l' => _ ← body x; io_for body l'
  end.

(** ** [csv.DictWriter] *)

(** [writer.writeheader()]: the field names are the first row. *)
Definition writeheader (path : string) (fieldnames : list string) : io () :=
  write_row path (map VStr fieldnames).

(** [writer.writerow(row)]: a key of [row] that is no field name is an error;
    a field name without a value in [row] gives an empty cell. *)
Definition writerow (path : string) (fieldnames : list string)
    (row : gmap string pyval) : io () :=
  if bool_decide (dom row ⊆ list_to_set fieldnames) then
    write_row path (map (fun key => from_option id (VStr "") (row !! key)) fieldnames)
  else io_raise (mk_exn ValueError "dict contains fields not in fieldnames").

(** ** client.py: [CimisClient._export_records_to_csv] *)

(** [all_data_items.update(record.data_values.keys())] for each record. *)
Definition all_data_items (records : list WeatherRecord.t) : gset string :=
  foldl (fun acc record => acc ∪ dom (WeatherRecord.data_values record)) ∅ records.

(** [item.startswith('Day')], [item.startswith(('Day', 'Hly'))] *)
Definition startswith (item prefix : string) : bool := String.prefix prefix item.

Definition keep_daily (item : string) : bool :=
  startswith item "Day" || negb (startswith item "Day" || startswith item "Hly").

Definition keep_hourly (item : string) : bool :=
  startswith item "Hly" || negb (startswith item "Day" || startswith item "Hly").

Definition filtered_data_items (scope_type : string) (records : list WeatherRecord.t)
    : gset string :=
  if String.eqb scope_type "daily" then
    filter (fun item => keep_daily item = true) (all_data_items records)
  else if String.eqb scope_type "hourly" then
    filter (fun item => keep_hourly item = true) (all_data_items records)
  else all_data_items records.

(** [sorted(filtered_data_items)] *)
Definition sorted_data_items (scope_type : string) (records : list WeatherRecord.t)
    : list string :=
  merge_sort String.le (elements (filtered_data_items scope_type records)).

Definition base_columns (scope_type : string) : list string :=
  (["Provider_Name"; "Provider_Type"; "Date"; "Julian"; "Station";
    "Standard"; "ZipCodes"; "Scope"; "DateTime_Object"]
   ++ (if String.eqb scope_type "hourly" || String.eqb scope_type "mixed"
       then ["Hour"; "DateTime_Full"] else []))%list.

(** The [Hly] prefix is removed from a column name. *)
Definition clean_item_name (item : string) : string :=
  if startswith item "Hly" then str_drop 3 item else item.

Definition item_columns (item : string) : list string :=
  [clean_item_name item ++ "_Value"; clean_item_name item ++ "_QC";
   clean_item_name item ++ "_Unit"].

Definition data_columns (scope_type : string) (records : list WeatherRecord.t)
    : list string :=
  flat_map item_columns (sorted_data_items scope_type records).

Definition all_columns (scope_type : string) (records : list WeatherRecord.t)
    : list string :=
  (base_columns scope_type ++ data_columns scope_type records)%list.

(** [record not in records] is the negation of this: some element of the
    list is equal to the record. *)
Definition record_in (record : WeatherRecord.t) (records : list WeatherRecord.t) : bool :=
  existsb (fun item => WeatherRecord.eqb item record) records.

(** The first [try]: [DateTime_Object]. Only [ValueError] is handled. *)
Definition datetime_object (record_date : pyval) : result pyval :=
  let attempt :=
    if py_truthy record_date then
      date_obj ← datetime.strptime record_date;
      Ok (VStr (datetime.isoformat date_obj))
    else Ok (VStr "") in
  match attempt with
  | Ok v => Ok v
  | Raise e =>
      if caught_by ValueError e then Ok (py_or record_date (VStr "")) else Raise e
  end.

(** The second [try]: [DateTime_Full]. [ValueError] and [TypeError] are
    handled. *)
Definition datetime_full (record_date record_hour : pyval) : result pyval :=
  let attempt :=
    if py_truthy record_date && py_truthy record_hour then
      date_obj ← datetime.strptime record_date;
      let hour_str := zfill 4 (py_str record_hour) in
      hour ← py_int (str_take 2 hour_str);
      minute ← (if (2 <? String.length hour_str)%nat
                then py_int (str_drop 2 hour_str) else Ok 0);
      full_datetime ← datetime.replace_hour_minute date_obj hour minute;
      Ok (VStr (datetime.isoformat full_datetime))
    else Ok (VStr "") in
  match attempt with
  | Ok v => Ok v
  | Raise e =>
      if caught_by ValueError e || caught_by TypeError e then
        Ok (VStr (py_str (py_or record_date (VStr "")) ++ " "
                  ++ py_str (py_or record_hour (VStr ""))))
      else Raise e
  end.

(** The three cells of one data item, set in the row. *)
Definition set_item_cells (record : WeatherRecord.t) (row : gmap string pyval)
    (item : string) : gmap string pyval :=
  let clean := clean_item_name item in
  match WeatherRecord.data_values record !! item with
  | Some data_value =>
      <[clean ++ "_Unit" := DataValue.unit data_value]>
        (<[clean ++ "_QC" := DataValue.qc data_value]>
           (<[clean ++ "_Value" := py_or (DataValue.value data_value) (VStr "")]> row))
  | None =>
      <[clean ++ "_Unit" := VStr ""]>
        (<[clean ++ "_QC" := VStr ""]> (<[clean ++ "_Value" := VStr ""]> row))
  end.

(** The row of one record, built in the order of the code. *)
Definition build_row (columns sorted_items : list string)
    (provider : WeatherProvider.t) (record : WeatherRecord.t)
    : result (gmap string pyval) :=
  let record_date := WeatherRecord.date record in
  let record_station := py_or (WeatherRecord.station record) (VStr "") in
  let record_hour := py_or (WeatherRecord.hour record) (VStr "") in
  let row : gmap string pyval :=
    <["Scope" := WeatherRecord.scope record]>
      (<["ZipCodes" := WeatherRecord.zip_codes record]>
         (<["Standard" := WeatherRecord.standard record]>
            (<["Station" := record_station]>
               (<["Julian" := WeatherRecord.julian record]>
                  (<["Date" := record_date]>
                     (<["Provider_Type" := WeatherProvider.type provider]>
                        (<["Provider_Name" := WeatherProvider.name provider]> ∅))))))) in
  dt ← datetime_object record_date;
  let row := <["DateTime_Object" := dt]> row in
  row ← (if bool_decide ("Hour" ∈ columns) then
           let row := <["Hour" := record_hour]> row in
           if bool_decide ("DateTime_Full" ∈ columns) then
             full ← datetime_full record_date record_hour;
             Ok (<["DateTime_Full" := full]> row)
           else Ok row
         else Ok row);
  Ok (foldl (set_item_cells record) row sorted_items).

Definition _export_records_to_csv (weather_data : WeatherData.t)
    (records : list WeatherRecord.t) (filename : Path) (scope_type : string)
    : io string :=
  let sorted_items := sorted_data_items scope_type records in
  let columns := all_columns scope_type records in
  let path := path_str filename in
  _ ← mkdir (parent filename);
  _ ← open_w path;
  _ ← writeheader path columns;
  _ ← io_for (fun provider =>
         io_for (fun record =>
           if negb (record_in record records) then mret ()
           else
             row ← io_lift (build_row columns sorted_items provider record);
             writerow path columns row)
           (WeatherProvider.records provider))
       (WeatherData.providers weather_data);
  mret path.

(** ** client.py: [CimisClient.export_to_csv] *)

Section export_to_csv.
(** [self.filename_generator.generate_for_weather_data]: it reads the clock
    and the working directory and writes nothing. *)
Variable generate_for_weather_data : WeatherData.t -> result Path.

(** The records appended to [daily_records] and to [hourly_records]. *)
Definition daily_records (all_records : list WeatherRecord.t) : list WeatherRecord.t :=
  List.filter (fun record => py_eq (WeatherRecord.scope record) (VStr "daily")) all_records.

Definition hourly_records (all_records : list WeatherRecord.t) : list WeatherRecord.t :=
  List.filter (fun record =>
                 negb (py_eq (WeatherRecord.scope record) (VStr "daily"))
                 && py_eq (WeatherRecord.scope record) (VStr "hourly")) all_records.

Definition export_to_csv (weather_data : WeatherData.t) (filename : option Path)
    (include_all_columns separate_daily_hourly : bool) : io string :=
  filename ← io_lift (match filename with
                      | None => generate_for_weather_data weather_data
                      | Some f => Ok f
                      end);
  let all_records := WeatherData.get_all_records weather_data in
  match all_records with
  | [] => io_raise (mk_exn CimisDataError "No data records to export")
  | _ :: _ =>
      if separate_daily_hourly then
        match daily_records all_records, hourly_records all_records with
        | _ :: _, _ :: _ =>
            daily_filename ← io_lift
              (with_name filename (stem filename ++ "_daily" ++ suffix filename));
            hourly_filename ← io_lift
              (with_name filename (stem filename ++ "_hourly" ++ suffix filename));
            _ ← _export_records_to_csv weather_data (daily_records all_records)
                  daily_filename "daily";
            _ ← _export_records_to_csv weather_data (hourly_records all_records)
                  hourly_filename "hourly";
            mret ("Daily: " ++ path_str daily_filename
                  ++ ", Hourly: " ++ path_str hourly_filename)
        | _ :: _, [] =>
            _export_records_to_csv weather_data (daily_records all_records)
              filename "daily"
        | [], _ :: _ =>
            _export_records_to_csv weather_data (hourly_records all_records)
              filename "hourly"
        | [], [] =>
            _export_records_to_csv weather_data all_records filename "mixed"
        end
      else _export_records_to_csv weather_data all_records filename "mixed"
  end.
End export_to_csv.

(** ** Sample payloads and the statements examined below *)

Definition sample_record : list (string * pyval) :=
  [("Date", VStr "2023-01-01"); ("Julian", VStr "1"); ("Station", VStr "2");
   ("Scope", VStr "daily");
   ("day-eto", VDict [("Value", VStr "0.12"); ("Qc", VStr " "); ("Unit", VStr "in")]);
   ("Note", VDict [("Text", VStr "metadata")])].

Definition sample_payload : pyval :=
  VDict [("Data", VDict [("Providers", VList [
    VDict [("Name", VStr "N"); ("Type", VStr "station"); ("Owner", VStr "O");
           ("Records", VList [VDict sample_record; VDict sample_record])];
    VDict [("Name", VStr "M")]])])].

(** The invariant as the data model words it: in every record the mapper
    produces, [hour] is present exactly when [scope] is ['hourly']. *)
Definition hour_iff_hourly : Prop :=
  forall (data : pyval) (wd : WeatherData.t) (r : WeatherRecord.t),
    parse_data_response data = Ok wd ->
    In r (WeatherData.get_all_records wd) ->
    (WeatherRecord.hour r <> VNone <-> WeatherRecord.scope r = VStr "hourly").

(** A payload with one record, of scope ['hourly'] and without [Hour]. *)
Definition hourly_without_hour : pyval :=
  VDict [("Data", VDict [("Providers", VList [
    VDict [("Name", VStr "N");
           ("Records", VList [
              VDict [("Date", VStr "2023-01-01"); ("Scope", VStr "hourly")]])]])])].


(** One daily and one hourly record of a station, as the API names their
    items. *)
Definition daily_record : WeatherRecord.t :=
  WeatherRecord.mk (VStr "2023-01-01") (VStr "1") (VStr "2") (VStr "english")
    (VStr "") (VStr "daily") VNone
    {[ "DayAirTmpAvg" := DataValue.mk (VStr "50.1") (VStr " ") (VStr "(F)") ]}.

Definition hourly_record : WeatherRecord.t :=
  WeatherRecord.mk (VStr "2023-01-01") (VStr "1") (VStr "2") (VStr "english")
    (VStr "") (VStr "hourly") (VStr "0130")
    {[ "HlyAirTmp" := DataValue.mk (VStr "47.3") (VStr " ") (VStr "(F)") ]}.

(** The order the specification words: the triples of the cleaned keys, the
    cleaned keys sorted. *)
Definition columns_of_sorted_cleaned_keys (scope_type : string)
    (records : list WeatherRecord.t) : list string :=
  flat_map (fun c => [c ++ "_Value"; c ++ "_QC"; c ++ "_Unit"])
    (merge_sort String.le
       (map clean_item_name (elements (filtered_data_items scope_type records)))).

Definition columns_follow_cleaned_keys : Prop :=
  forall (scope_type : string) (records : list WeatherRecord.t),
    data_columns scope_type records = columns_of_sorted_cleaned_keys scope_type records.




Definition sample_provider : WeatherProvider.t :=
  WeatherProvider.mk (VStr "N") (VStr "station") (VStr "O") [].

(** The text of a date, as [isoformat] writes it. *)
Definition iso_date (d : datetime.t) : string :=
  zero_padded 4 (datetime.year d) ++ "-" ++ zero_padded 2 (datetime.month d) ++ "-"
  ++ zero_padded 2 (datetime.day d).

(** A record with the items [AirTmp] and [HlyAirTmp], and its row in mixed
    mode. *)
Definition colliding_record : WeatherRecord.t :=
  WeatherRecord.mk (VStr "2023-01-01") (VStr "1") (VStr "2") (VStr "english")
    (VStr "") (VStr "hourly") (VStr "0130")
    {[ "AirTmp" := DataValue.mk (VStr "50.1") (VStr "A") (VStr "(C)");
       "HlyAirTmp" := DataValue.mk (VStr "47.3") (VStr "B") (VStr "(F)") ]}.

Definition colliding_row : gmap string pyval :=
  match build_row (all_columns "mixed" [colliding_record])
          (sorted_data_items "mixed" [colliding_record])
          sample_provider colliding_record with
  | Ok row => row
  | Raise _ => ∅
  end.

(** The body of the second [try], for a [str] date and a [str] hour. *)
Definition full_timestamp (date hour : string) : result string :=
  date_obj ← datetime.strptime_ymd date;
  hour_n ← py_int (str_take 2 (zfill 4 hour));
  minute_n ← (if (2 <? String.length (zfill 4 hour))%nat
              then py_int (str_drop 2 (zfill 4 hour)) else Ok 0);
  full_datetime ← datetime.replace_hour_minute date_obj hour_n minute_n;
  Ok (datetime.isoformat full_datetime).


(** [scope == 'daily'] or [scope == 'hourly'] *)
Definition daily_or_hourly (record : WeatherRecord.t) : bool :=
  py_eq (WeatherRecord.scope record) (VStr "daily")
  || py_eq (WeatherRecord.scope record) (VStr "hourly").

(** The same providers, without the records of another scope. *)
Definition without_other_scopes (weather_data : WeatherData.t) : WeatherData.t :=
  WeatherData.mk
    (map (fun provider =>
            WeatherProvider.mk (WeatherProvider.name provider)
              (WeatherProvider.type provider) (WeatherProvider.owner provider)
              (List.filter daily_or_hourly (WeatherProvider.records provider)))
       (WeatherData.providers weather_data)).

(** A daily record, an hourly record and a record of scope ['monthly']. *)
Definition monthly_record : WeatherRecord.t :=
  WeatherRecord.mk (VStr "2023-01-01") (VStr "1") (VStr "2") (VStr "english")
    (VStr "") (VStr "monthly") VNone
    {[ "DayAirTmpAvg" := DataValue.mk (VStr "51.0") (VStr " ") (VStr "(F)") ]}.

Definition three_scopes : WeatherData.t :=
  WeatherData.mk
    [WeatherProvider.mk (VStr "N") (VStr "station") (VStr "O")
       [daily_record; monthly_record; hourly_record]].

Definition no_generator (weather_data : WeatherData.t) : result Path :=
  raise_ ValueError.

Definition empty_fs : fs := mk_fs ∅ ∅.

(** A generator whose file name depends on every record of the data, as
    the name built from the stations and dates of all the records does. *)
Definition counting_generator (weather_data : WeatherData.t) : result Path :=
  Ok (mk_Path "."
        (zero_padded 2 (Z.of_nat (length (WeatherData.get_all_records weather_data)))
         ++ ".csv")).

(** C1 as stated: a payload in which [Data] is missing, or is present and
    has no key [Providers], is mapped to a [WeatherData] without provider.
    Only an object has keys. *)
Definition lacks_key (k : string) (v : pyval) : Prop :=
  match v with
  | VDict inner => dict_get k inner = None
  | _ => True
  end.

Definition missing_keys_never_raise : Prop :=
  forall d : list (string * pyval),
    dict_get "Data" d = None
    \/ (exists v, dict_get "Data" d = Some v /\ lacks_key "Providers" v) ->
    parse_data_response (VDict d) = Ok (WeatherData.mk []).

(** ** client.py: [CimisClient._filter_daily_only], [_filter_hourly_only]

    The argument is a [WeatherData]: it has [providers] and is no test mock,
    so the early [return weather_data] is not taken. *)

(** One pass of the loop over the providers: a provider with a record of the
    scope is appended with those records only. *)
Definition append_filtered (keep : WeatherRecord.t -> bool)
    (filtered : list WeatherProvider.t) (provider : WeatherProvider.t)
    : list WeatherProvider.t :=
  match List.filter keep (WeatherProvider.records provider) with
  | [] => filtered
  | kept =>
      (filtered ++ [WeatherProvider.mk (WeatherProvider.name provider)
                      (WeatherProvider.type provider)
                      (WeatherProvider.owner provider) kept])%list
  end.

Definition _filter_daily_only (weather_data : WeatherData.t) : WeatherData.t :=
  WeatherData.mk
    (foldl (append_filtered
              (fun record => py_eq (WeatherRecord.scope record) (VStr "daily")))
       [] (WeatherData.providers weather_data)).

Definition _filter_hourly_only (weather_data : WeatherData.t) : WeatherData.t :=
  WeatherData.mk
    (foldl (append_filtered
              (fun record => py_eq (WeatherRecord.scope record) (VStr "hourly")))
       [] (WeatherData.providers weather_data)).

(** ** models.py: [WeatherData.get_records_by_station], [get_records_by_date] *)

Definition get_records_by_station (self : WeatherData.t) (station_number : pyval)
    : list WeatherRecord.t :=
  List.filter (fun record => py_eq (WeatherRecord.station record) station_number)
    (WeatherData.get_all_records self).

Definition get_records_by_date (self : WeatherData.t) (date : pyval)
    : list WeatherRecord.t :=
  List.filter (fun record => py_eq (WeatherRecord.date record) date)
    (WeatherData.get_all_records self).

(** ** Notions used to describe what an export leaves behind *)

(** A value that is a [str], or is false ([None], [0], ...). *)
Definition text_or_false (v : pyval) : bool :=
  match v with
  | VStr _ => true
  | _ => negb (py_truthy v)
  end.

(** The date of a record is a [str] or a false value: the cases in which
    the first [try] of the row loop raises nothing. *)
Definition date_is_text (record : WeatherRecord.t) : bool :=
  text_or_false (WeatherRecord.date record).

(** The records of a list that pass the test [record in records] of the row
    loop. *)
Definition included (records l : list WeatherRecord.t) : list WeatherRecord.t :=
  List.filter (fun record => record_in record records) l.

(** The one failure that the second [try] of the row loop does not handle:
    the date is read, the two parts of the zero-filled hour are integers,
    and one of them does not fit a C [int], so that [replace] raises
    [OverflowError]. *)
Definition hour_overflows (record_date record_hour : pyval) : bool :=
  py_truthy record_date && py_truthy record_hour &&
  match datetime.strptime record_date with
  | Ok _ =>
      let hour_str := zfill 4 (py_str record_hour) in
      match py_int (str_take 2 hour_str),
            (if (2 <? String.length hour_str)%nat
             then py_int (str_drop 2 hour_str) else Ok 0) with
      | Ok hour, Ok minute => negb (datetime.c_int hour && datetime.c_int minute)
      | _, _ => false
      end
  | Raise _ => false
  end.

(** An hourly record whose [Hour] has a minute part beyond a C [int]. *)
Definition overflow_hour_record : WeatherRecord.t :=
  WeatherRecord.mk (VStr "2023-01-01") (VStr "1") (VStr "2") (VStr "english")
    (VStr "") (VStr "hourly") (VStr "002147483648")
    {[ "HlyAirTmp" := DataValue.mk (VStr "47.3") (VStr " ") (VStr "(F)") ]}.

(** The exception that building the row of a record raises, if any:
    [TypeError] from the first [try] when the date is true and not a
    [str]; [OverflowError] from the second one, reached when [Hour] and
    [DateTime_Full] are columns. *)
Definition row_failure (columns : list string) (record : WeatherRecord.t)
    : option exn_class :=
  if negb (date_is_text record) then Some TypeError
  else if bool_decide ("Hour" ∈ columns) && bool_decide ("DateTime_Full" ∈ columns)
          && hour_overflows (WeatherRecord.date record)
               (py_or (WeatherRecord.hour record) (VStr ""))
       then Some OverflowError
       else None.

(** The failure of the first record of a list that has one. *)
Fixpoint first_failure (columns : list string) (l : list WeatherRecord.t)
    : option exn_class :=
  match l with
  | [] => None
  | record :: l' =>
      match row_failure columns record with
      | Some cls => Some cls
      | None => first_failure columns l'
      end
  end.

(** ** endpoints.py: [CimisEndpoints.validate_date_format] *)

Definition validate_date_format (date_str : pyval) : result bool :=
  match datetime.strptime date_str with
  | Ok _ => Ok true
  | Raise e => if caught_by ValueError e then Ok false else Raise e
  end.

(** The body of the row loop of [_export_records_to_csv], and the loop. *)
Definition write_record (scope_type : string) (records : list WeatherRecord.t)
    (path : string) (provider : WeatherProvider.t) (record : WeatherRecord.t) : io () :=
  if negb (record_in record records) then mret ()
  else
    row ← io_lift (build_row (all_columns scope_type records)
                     (sorted_data_items scope_type records) provider record);
    writerow path (all_columns scope_type records) row.

Definition write_rows (scope_type : string) (records : list WeatherRecord.t)
    (path : string) (weather_data : WeatherData.t) : io () :=
  io_for (fun provider =>
            io_for (write_record scope_type records path provider)
              (WeatherProvider.records provider))
    (WeatherData.providers weather_data).

(** [s'] is [s] with [rows] appended to the file [path], which held
    [content]. *)
Definition appended (path : string) (content rows : csv_rows) (s s' : fs) : Prop :=
  denied s' = denied s
  /\ files s' !! path = Some (content ++ rows)%list
  /\ forall q, q <> path -> files s' !! q = files s !! q.

(** The columns that are set before the data items. *)
Definition fixed_names : list string :=
  ["Provider_Name"; "Provider_Type"; "Date"; "Julian"; "Station"; "Standard";
   "ZipCodes"; "Scope"; "DateTime_Object"; "Hour"].

(** The three cells of [item], as its data value gives them. *)
Definition item_cell (record : WeatherRecord.t) (item sfx : string) : pyval :=
  match WeatherRecord.data_values record !! item with
  | Some data_value =>
      if String.eqb sfx "_Value" then py_or (DataValue.value data_value) (VStr "")
      else if String.eqb sfx "_QC" then DataValue.qc data_value
      else DataValue.unit data_value
  | None => VStr ""
  end.

(** ** models.py: [Station], [ZipCode], [SpatialZipCode] *)

Module Station.
Record t : Type := mk {
  station_nbr : pyval;
  name : pyval;
  city : pyval;
  regional_office : pyval;
  county : pyval;
  connect_date : pyval;
  disconnect_date : pyval;
  is_active : bool;
  is_eto_station : bool;
  elevation : pyval;
  ground_cover : pyval;
  hms_latitude : pyval;
  hms_longitude : pyval;
  zip_codes : pyval;
  siting_desc : pyval
}.
End Station.

Module ZipCode.
Record t : Type := mk {
  zip_code : pyval;
  station_nbr : pyval;
  connect_date : pyval;
  disconnect_date : pyval;
  is_active : bool
}.
End ZipCode.

Module SpatialZipCode.
Record t : Type := mk {
  zip_code : pyval;
  city : pyval;
  county : pyval;
  connect_date : pyval;
  disconnect_date : pyval;
  is_active : bool
}.
End SpatialZipCode.

(** ** [str.lower] *)

(** The lower-case form of a code point below 256: the letters [A] to [Z]
    and the capital letters of Latin-1 (U+00C0 to U+00DE without the
    multiplication sign) are 32 code points below their small forms. *)
Definition lower_char (c : ascii) : ascii :=
  let n := nat_of_ascii c in
  if ((65 <=? n)%nat && (n <=? 90)%nat)
     || ((192 <=? n)%nat && (n <=? 222)%nat && negb (n =? 215)%nat)
  then ascii_of_nat (n + 32) else c.

Fixpoint str_lower (s : string) : string :=
  match s with
  | EmptyString => EmptyString
  | String c s' => String (lower_char c) (str_lower s')
  end.

(** [v.lower()]: only a [str] has the method. *)
Definition py_lower (v : pyval) : result string :=
  match v with
  | VStr s => Ok (str_lower s)
  | _ => raise_ AttributeError
  end.

(** [d.get(key, 'True').lower() == 'true'] *)
Definition flag (d : pyval) (key : string) : result bool :=
  v ← py_get d key (VStr "True");
  lowered ← py_lower v;
  Ok (String.eqb lowered "true").

(** ** endpoints.py: [CimisEndpoints.parse_stations_response]; the method
    [CimisClient._parse_stations_response] of client.py has the same body. *)

Definition parse_station (station_data : pyval) : result Station.t :=
  station_nbr ← py_get station_data "StationNbr" (VStr "");
  name ← py_get station_data "Name" (VStr "");
  city ← py_get station_data "City" (VStr "");
  regional_office ← py_get station_data "RegionalOffice" VNone;
  county ← py_get station_data "County" VNone;
  connect_date ← py_get station_data "ConnectDate" (VStr "");
  disconnect_date ← py_get station_data "DisconnectDate" (VStr "");
  is_active ← flag station_data "IsActive";
  is_eto_station ← flag station_data "IsEtoStation";
  elevation ← py_get station_data "Elevation" (VStr "");
  ground_cover ← py_get station_data "GroundCover" (VStr "");
  hms_latitude ← py_get station_data "HmsLatitude" (VStr "");
  hms_longitude ← py_get station_data "HmsLongitude" (VStr "");
  zip_codes ← py_get station_data "ZipCodes" (VList []);
  siting_desc ← py_get station_data "SitingDesc" (VStr "");
  Ok (Station.mk station_nbr name city regional_office county connect_date
        disconnect_date is_active is_eto_station elevation ground_cover
        hms_latitude hms_longitude zip_codes siting_desc).

Definition parse_stations_response (data : pyval) : result (list Station.t) :=
  stations ← py_get data "Stations" (VList []);
  items ← py_iter stations;
  for_each parse_station items.

(** ** endpoints.py: [CimisEndpoints.parse_zip_codes_response] *)

Definition parse_zip_code (zip_data : pyval) : result ZipCode.t :=
  zip_code ← py_get zip_data "ZipCode" (VStr "");
  station_nbr ← py_get zip_data "StationNbr" (VStr "");
  connect_date ← py_get zip_data "ConnectDate" (VStr "");
  disconnect_date ← py_get zip_data "DisconnectDate" (VStr "");
  is_active ← flag zip_data "IsActive";
  Ok (ZipCode.mk zip_code (VStr (py_str station_nbr)) connect_date disconnect_date
        is_active).

Definition parse_zip_codes_response (data : pyval) : result (list ZipCode.t) :=
  zip_codes ← py_get data "ZipCodes" (VList []);
  items ← py_iter zip_codes;
  for_each parse_zip_code items.

(** ** endpoints.py: [CimisEndpoints.parse_spatial_zip_codes_response] *)

Definition parse_spatial_zip_code (zip_data : pyval) : result SpatialZipCode.t :=
  zip_code ← py_get zip_data "ZipCode" (VStr "");
  city ← py_get zip_data "City" (VStr "");
  county ← py_get zip_data "County" (VStr "");
  connect_date ← py_get zip_data "ConnectDate" (VStr "");
  disconnect_date ← py_get zip_data "DisconnectDate" (VStr "");
  is_active ← flag zip_data "IsActive";
  Ok (SpatialZipCode.mk zip_code city county connect_date disconnect_date is_active).

Definition parse_spatial_zip_codes_response (data : pyval)
    : result (list SpatialZipCode.t) :=
  zip_codes ← py_get data "ZipCodes" (VList []);
  items ← py_iter zip_codes;
  for_each parse_spatial_zip_code items.

(** An object of a response whose flags under [keys], where present, are
    [str]. *)
Definition text_flags (keys : list string) (item : pyval) : bool :=
  match item with
  | VDict d =>
      forallb (fun key => match dict_get key d with
                          | Some (VStr _) | None => true
                          | Some _ => false
                          end) keys
  | _ => false
  end.

(** The flag of an object: absent, or a text reading [true] in any case. *)
Definition flag_of (d : list (string * pyval)) (key : string) : bool :=
  match dict_get key d with
  | None => true
  | Some (VStr s) => String.eqb (str_lower s) "true"
  | Some _ => false
  end.

(** The station of an object of the array. *)
Definition station_of (item : pyval) : Station.t :=
  match item with
  | VDict d =>
      Station.mk (from_option id (VStr "") (dict_get "StationNbr" d))
        (from_option id (VStr "") (dict_get "Name" d))
        (from_option id (VStr "") (dict_get "City" d))
        (from_option id VNone (dict_get "RegionalOffice" d))
        (from_option id VNone (dict_get "County" d))
        (from_option id (VStr "") (dict_get "ConnectDate" d))
        (from_option id (VStr "") (dict_get "DisconnectDate" d))
        (flag_of d "IsActive") (flag_of d "IsEtoStation")
        (from_option id (VStr "") (dict_get "Elevation" d))
        (from_option id (VStr "") (dict_get "GroundCover" d))
        (from_option id (VStr "") (dict_get "HmsLatitude" d))
        (from_option id (VStr "") (dict_get "HmsLongitude" d))
        (from_option id (VList []) (dict_get "ZipCodes" d))
        (from_option id (VStr "") (dict_get "SitingDesc" d))
  | _ => Station.mk VNone VNone VNone VNone VNone VNone VNone false false
           VNone VNone VNone VNone VNone VNone
  end.

(** The [ZipCode] and the [SpatialZipCode] of an object of the array. *)
Definition zip_code_of (item : pyval) : ZipCode.t :=
  match item with
  | VDict d =>
      ZipCode.mk (from_option id (VStr "") (dict_get "ZipCode" d))
        (VStr (py_str (from_option id (VStr "") (dict_get "StationNbr" d))))
        (from_option id (VStr "") (dict_get "ConnectDate" d))
        (from_option id (VStr "") (dict_get "DisconnectDate" d))
        (flag_of d "IsActive")
  | _ => ZipCode.mk VNone VNone VNone VNone false
  end.

Definition spatial_zip_code_of (item : pyval) : SpatialZipCode.t :=
  match item with
  | VDict d =>
      SpatialZipCode.mk (from_option id (VStr "") (dict_get "ZipCode" d))
        (from_option id (VStr "") (dict_get "City" d))
        (from_option id (VStr "") (dict_get "County" d))
        (from_option id (VStr "") (dict_get "ConnectDate" d))
        (from_option id (VStr "") (dict_get "DisconnectDate" d))
        (flag_of d "IsActive")
  | _ => SpatialZipCode.mk VNone VNone VNone VNone VNone false
  end.

(** A sample response of the ZIP-code endpoint. *)
Definition sample_zip_codes : pyval :=
  VDict [("ZipCodes",
          VList [VDict [("ZipCode", VStr "93624"); ("StationNbr", VInt 2);
                        ("IsActive", VStr "True")];
                 VDict [("ZipCode", VStr "95616"); ("IsActive", VStr "False")]])].

(** ** endpoints.py: [CimisEndpoints.get_url] *)

Definition BASE_URL : string := "https://et.water.ca.gov/api".

Definition ENDPOINTS : list (string * string) :=
  [("data", "data");
   ("station", "station/{station_id}");
   ("stations", "station");
   ("zip_code", "stationzipcode/{zip_code}");
   ("zip_codes", "stationzipcode");
   ("spatial_zip_code", "spatialzipcode/{zip_code}");
   ("spatial_zip_codes", "spatialzipcode")].

(** [ENDPOINTS.get(endpoint)]: a [list] or a [dict] cannot be a key. *)
Definition endpoints_get (endpoint : pyval) : result (option string) :=
  match endpoint with
  | VStr key => Ok (dict_get key ENDPOINTS)
  | VList _ | VDict _ => raise_ TypeError
  | _ => Ok None
  end.

(** [template.format] with keyword arguments [kwargs], for a template whose replacement fields are
    plain names, as those of [ENDPOINTS] are: the text is copied, a field
    [{name}] is replaced by the [str] of the argument [name]; a name that is no key is a
    [KeyError], a brace without its partner a [ValueError]. [field] is the
    name being read, when inside a field. *)
Fixpoint format_fields (kwargs : gmap string pyval) (field : option string)
    (template : string) : result string :=
  match template, field with
  | EmptyString, None => Ok ""
  | EmptyString, Some _ => raise_ ValueError
  | String c t, None =>
      if Ascii.eqb c "{" then format_fields kwargs (Some "") t
      else if Ascii.eqb c "}" then raise_ ValueError
      else rest ← format_fields kwargs None t; Ok (String c rest)
  | String c t, Some name =>
      if Ascii.eqb c "}" then
        match kwargs !! name with
        | Some v => rest ← format_fields kwargs None t; Ok (py_str v ++ rest)
        | None => raise_ KeyError
        end
      else format_fields kwargs (Some (name ++ String c "")) t
  end.

Definition get_url (endpoint : pyval) (kwargs : gmap string pyval) : result string :=
  endpoint_template ← endpoints_get endpoint;
  match endpoint_template with
  | Some template =>
      if String.eqb template "" then
        Raise (mk_exn ValueError ("Unknown endpoint: " ++ py_str endpoint))
      else
        formatted_endpoint ← format_fields kwargs None template;
        Ok (BASE_URL ++ "/" ++ formatted_endpoint)
  | None => Raise (mk_exn ValueError ("Unknown endpoint: " ++ py_str endpoint))
  end.

(** ** endpoints.py: the module-level functions *)

Definition get_data_endpoint : result string := get_url (VStr "data") ∅.

Definition get_station_endpoint (station_id : pyval) : result string :=
  if py_truthy station_id
  then get_url (VStr "station_by_id") {[ "station_id" := station_id ]}
  else get_url (VStr "station") ∅.

Definition get_station_zipcode_endpoint (zipcode : pyval) : result string :=
  if py_truthy zipcode
  then get_url (VStr "station_zipcode_by_id") {[ "zipcode" := zipcode ]}
  else get_url (VStr "station_zipcode") ∅.

Definition get_spatial_zipcode_endpoint (zipcode : pyval) : result string :=
  if py_truthy zipcode
  then get_url (VStr "spatial_zipcode_by_id") {[ "zipcode" := zipcode ]}
  else get_url (VStr "spatial_zipcode") ∅.

(** ** exceptions.py: [CimisAPIError.__str__]

    The text of an exception is what [str] gives for it. For [CimisAPIError]
    and its subclass the error code and the HTTP status are shown when both
    are true values. *)
Definition CimisAPIError_str (message error_code http_code : pyval) : string :=
  if py_truthy error_code && py_truthy http_code
  then "[" ++ py_str error_code ++ "] HTTP " ++ py_str http_code ++ ": " ++ py_str message
  else py_str message.

(** ** The HTTP session *)

(** A response: its status code, its reason phrase, and what
    [response.json()] returns or raises. *)
Module Response.
Record t : Type := mk { status_code : Z; reason : pyval; json : result pyval }.
End Response.

(** An exception of [requests] raised by [session.get], by the [except]
    clause that handles it, with its text. *)
Inductive request_failure : Type :=
| Timeout
| ConnectionError (text : string)
| RequestException (text : string).

Inductive session_result : Type :=
| Responds (response : Response.t)
| Fails (failure : request_failure).

(** The session: what [session.get(url, params=params, timeout=...)] gives. *)
Definition session : Type := string -> gmap string pyval -> session_result.

(** ** client.py: [CimisClient._make_request] *)

(** The part of [_make_request] that follows the call of [session.get]. *)
Definition handle_response (got : session_result) : result pyval :=
  response ← match got with
             | Responds response => Ok response
             | Fails Timeout => Raise (mk_exn CimisConnectionError "Request timeout")
             | Fails (ConnectionError text) =>
                 Raise (mk_exn CimisConnectionError ("Connection error: " ++ text))
             | Fails (RequestException text) =>
                 Raise (mk_exn CimisConnectionError ("Request error: " ++ text))
             end;
  if Response.status_code response =? 403 then
    Raise (mk_exn CimisAuthenticationError
             (CimisAPIError_str (VStr "Invalid API key") (VStr "ERR1006") (VInt 403)))
  else if Response.status_code response =? 404 then
    let attempt : result pyval :=
      error_data ← Response.json response;
      error_msg ← py_get error_data "Message" (VStr "Resource not found");
      Raise (mk_exn CimisAPIError (CimisAPIError_str error_msg VNone (VInt 404))) in
    match attempt with
    | Ok v => Ok v
    | Raise e =>
        if caught_by ValueError e then
          Raise (mk_exn CimisAPIError
                   (CimisAPIError_str (VStr "Resource not found") VNone (VInt 404)))
        else Raise e
    end
  else if negb (Response.status_code response =? 200) then
    Raise (mk_exn CimisAPIError
             (CimisAPIError_str
                (VStr ("HTTP " ++ int_str (Response.status_code response) ++ ": "
                       ++ py_str (Response.reason response)))
                VNone (VInt (Response.status_code response))))
  else
    match Response.json response with
    | Ok v => Ok v
    | Raise e =>
        if caught_by ValueError e then
          Raise (mk_exn CimisDataError ("Invalid JSON response: " ++ exn_msg e))
        else Raise e
    end.

Definition _make_request (session_get : session) (app_key : pyval)
    (endpoint_key : pyval) (params endpoint_kwargs : gmap string pyval)
    : result pyval :=
  let params := <["appKey" := app_key]> params in
  url ← get_url endpoint_key endpoint_kwargs;
  handle_response (session_get url params).

(** ** client.py: [get_stations], [get_station_zip_codes],
    [get_spatial_zip_codes] *)

Definition get_stations (session_get : session) (app_key : pyval)
    (station_number : pyval) : result (list Station.t) :=
  response_data ←
    (if py_truthy station_number then
       _make_request session_get app_key (VStr "station") ∅
         {[ "station_id" := station_number ]}
     else _make_request session_get app_key (VStr "stations") ∅ ∅);
  parse_stations_response response_data.

Definition get_station_zip_codes (session_get : session) (app_key : pyval)
    (zip_code : pyval) : result (list ZipCode.t) :=
  response_data ←
    (if py_truthy zip_code then
       _make_request session_get app_key (VStr "zip_code") ∅ {[ "zip_code" := zip_code ]}
     else _make_request session_get app_key (VStr "zip_codes") ∅ ∅);
  parse_zip_codes_response response_data.

Definition get_spatial_zip_codes (session_get : session) (app_key : pyval)
    (zip_code : pyval) : result (list SpatialZipCode.t) :=
  response_data ←
    (if py_truthy zip_code then
       _make_request session_get app_key (VStr "spatial_zip_code") ∅
         {[ "zip_code" := zip_code ]}
     else _make_request session_get app_key (VStr "spatial_zip_codes") ∅ ∅);
  parse_spatial_zip_codes_response response_data.

(** ** endpoints.py: the parameters of a data request *)

Definition DEFAULT_DAILY_DATA_ITEMS : list string :=
  ["day-air-tmp-avg"; "day-air-tmp-max"; "day-air-tmp-min";
   "day-dew-pnt"; "day-eto"; "day-asce-eto"; "day-asce-etr";
   "day-precip"; "day-rel-hum-avg"; "day-rel-hum-max"; "day-rel-hum-min";
   "day-soil-tmp-avg"; "day-soil-tmp-max"; "day-soil-tmp-min";
   "day-sol-rad-avg"; "day-sol-rad-net"; "day-vap-pres-max";
   "day-vap-pres-avg"; "day-wind-ene"; "day-wind-ese"; "day-wind-nne";
   "day-wind-nnw"; "day-wind-run"; "day-wind-spd-avg"; "day-wind-ssw";
   "day-wind-wnw"; "day-wind-wsw"].

Definition DEFAULT_HOURLY_DATA_ITEMS : list string :=
  ["hly-air-tmp"; "hly-dew-pnt"; "hly-eto"; "hly-net-rad";
   "hly-asce-eto"; "hly-asce-etr"; "hly-precip"; "hly-rel-hum";
   "hly-res-wind"; "hly-soil-tmp"; "hly-sol-rad"; "hly-vap-pres";
   "hly-wind-dir"; "hly-wind-spd"].

Definition get_daily_data_items : list string := DEFAULT_DAILY_DATA_ITEMS.

Definition get_all_data_items : list string :=
  (DEFAULT_DAILY_DATA_ITEMS ++ DEFAULT_HOURLY_DATA_ITEMS)%list.

(** [sep.join(l)] for a list of [str]. *)
Fixpoint str_join (sep : string) (l : list string) : string :=
  match l with
  | [] => ""
  | [x] => x
  | x :: l' => x ++ sep ++ str_join sep l'
  end.

(** [sep.join(v)]: [v] is iterated and every element must be a [str]. *)
Definition py_join (sep : string) (v : pyval) : result string :=
  elements ← py_iter v;
  texts ← for_each (fun element => match element with
                                   | VStr s => Ok s
                                   | _ => raise_ TypeError
                                   end) elements;
  Ok (str_join sep texts).

(** [len(v)] *)
Definition py_len (v : pyval) : result nat :=
  match v with
  | VStr s => Ok (String.length s)
  | VList l => Ok (length l)
  | VDict d => Ok (length d)
  | _ => raise_ TypeError
  end.

Definition _is_coordinate_list (targets : list pyval) : bool :=
  existsb (fun target => str_contains "lat=" (py_str target)
                         && str_contains "lng=" (py_str target)) targets.

Definition _is_address_list (targets : list pyval) : bool :=
  existsb (fun target => str_contains "addr-name=" (py_str target)
                         && str_contains "addr=" (py_str target)) targets.

(** [prepare_data_params]; the dates are [str] here ([date] and [datetime]
    objects are outside the model), so they are passed on as they are. *)
Definition prepare_data_params (targets start_date end_date items measure_unit
    prioritize_sri prioritize_scs : pyval) (kwargs : gmap string pyval)
    : result (gmap string pyval) :=
  targets_str ←
    match targets with
    | VList l =>
        if _is_coordinate_list l then py_join ";" targets
        else if _is_address_list l then py_join ";" targets
        else Ok (str_join "," (map py_str l))
    | _ => Ok (py_str targets)
    end;
  items ←
    match items with
    | VNone => Ok (VList (map VStr get_all_data_items))
    | _ => n ← py_len items;
           Ok (if (n =? 0)%nat then VList (map VStr get_all_data_items) else items)
    end;
  data_items ← py_join "," items;
  let params : gmap string pyval :=
    <["prioritizeSCS" := VStr (if py_truthy prioritize_scs then "Y" else "N")]>
      (<["prioritizeSri" := VStr (if py_truthy prioritize_sri then "true" else "false")]>
         (<["unitOfMeasure" := measure_unit]>
            (<["dataItems" := VStr data_items]>
               (<["endDate" := end_date]>
                  (<["startDate" := start_date]>
                     (<["targets" := VStr targets_str]> ∅)))))) in
  Ok (kwargs ∪ params).

(** ** client.py: [CimisClient.get_data] *)

Definition get_data (session_get : session) (app_key : pyval)
    (targets start_date end_date data_items unit_of_measure prioritize_scs : pyval)
    : result WeatherData.t :=
  let data_items := match data_items with VNone => VList [] | _ => data_items end in
  params ← prepare_data_params targets start_date end_date data_items unit_of_measure
             (VBool (py_eq unit_of_measure (VStr "M"))) prioritize_scs ∅;
  response_data ← _make_request session_get app_key (VStr "data") params ∅;
  parse_data_response response_data.

(** [unit_code = 'E' if unit_of_measure.lower() == 'english' else 'M'] *)
Definition unit_code (unit_of_measure : pyval) : result pyval :=
  lowered ← py_lower unit_of_measure;
  Ok (VStr (if String.eqb lowered "english" then "E" else "M")).

(** ** client.py: [get_daily_data] and [get_hourly_data], for [csv=False] *)

Definition get_daily_data (session_get : session) (app_key : pyval)
    (targets start_date end_date data_items unit_of_measure prioritize_scs : pyval)
    : result WeatherData.t :=
  let data_items := match data_items with
                    | VNone => VList (map VStr get_daily_data_items)
                    | _ => data_items
                    end in
  unit ← unit_code unit_of_measure;
  weather_data ← get_data session_get app_key targets start_date end_date data_items
                   unit prioritize_scs;
  Ok (_filter_daily_only weather_data).

Definition get_hourly_data (session_get : session) (app_key : pyval)
    (targets start_date end_date data_items unit_of_measure : pyval)
    : result WeatherData.t :=
  let data_items := match data_items with VNone => VList [] | _ => data_items end in
  unit ← unit_code unit_of_measure;
  weather_data ← get_data session_get app_key targets start_date end_date data_items
                   unit (VBool false);
  Ok (_filter_hourly_only weather_data).

(** The parameters that [get_data] sends: those of [prepare_data_params]
    with [appKey] added by [_make_request]. *)
Definition sent_params (app_key : pyval) (targets_str : string)
    (start_date end_date : pyval) (data_items : list string)
    (unit_of_measure prioritize_scs : pyval) : gmap string pyval :=
  <["appKey" := app_key]>
    (<["prioritizeSCS" := VStr (if py_truthy prioritize_scs then "Y" else "N")]>
       (<["prioritizeSri" := VStr (if py_eq unit_of_measure (VStr "M")
                                   then "true" else "false")]>
          (<["unitOfMeasure" := unit_of_measure]>
             (<["dataItems" := VStr (str_join "," data_items)]>
                (<["endDate" := end_date]>
                   (<["startDate" := start_date]>
                      (<["targets" := VStr targets_str]> ∅))))))).

(** The items asked for: all the default items when none is named. *)
Definition chosen_items (items : list string) : list string :=
  match items with
  | [] => get_all_data_items
  | _ => items
  end.

(** A session that answers every request with the sample payload. *)
Definition sample_session : session :=
  fun url params => Responds (Response.mk 200 (VStr "OK") (Ok sample_payload)).

(** ** utils.py: [FilenameGenerator] *)

Definition in_range (lo hi n : nat) : bool := (lo <=? n)%nat && (n <=? hi)%nat.

(** The classes [\w] and [\s] of [re], on the code points below 256. *)
Definition is_word (c : ascii) : bool :=
  let n := nat_of_ascii c in
  in_range 48 57 n || in_range 65 90 n || (n =? 95)%nat || in_range 97 122 n
  || (n =? 170)%nat || in_range 178 179 n || (n =? 181)%nat || in_range 185 186 n
  || in_range 188 190 n || in_range 192 214 n || in_range 216 246 n
  || in_range 248 255 n.

Definition is_space (c : ascii) : bool :=
  let n := nat_of_ascii c in
  in_range 9 13 n || in_range 28 32 n || (n =? 133)%nat || (n =? 160)%nat.

(** The characters of [s] that [keep] accepts: [re.sub] with the empty
    replacement for a pattern that matches single characters, or runs of
    them. *)
Fixpoint str_filter (keep : ascii -> bool) (s : string) : string :=
  match s with
  | EmptyString => EmptyString
  | String c s' => if keep c then String c (str_filter keep s') else str_filter keep s'
  end.

Definition _sanitize_name (name : string) : string :=
  if String.eqb name "" then "unnamed"
  else
    let sanitized :=
      str_filter (fun c => is_word c || is_space c || Ascii.eqb c "-") name in
    let sanitized :=
      str_filter (fun c => negb (Ascii.eqb c "-" || is_space c)) sanitized in
    str_take 50 sanitized.

Definition _format_station_names (stations : list string) : string :=
  match stations with
  | [] => "unknown"
  | _ =>
      let clean_stations := map _sanitize_name (firstn 5 stations) in
      if (length stations =? 1)%nat then nth 0 clean_stations ""
      else if (length stations <=? 3)%nat then str_join "_" clean_stations
      else nth 0 clean_stations "" ++ "_plus"
           ++ int_str (Z.of_nat (length stations) - 1) ++ "more"
  end.

(** [s.replace(old, new)] for single characters. *)
Fixpoint replace_char (old new : ascii) (s : string) : string :=
  match s with
  | EmptyString => EmptyString
  | String c s' =>
      String (if Ascii.eqb c old then new else c) (replace_char old new s')
  end.

(** [re.sub(r'_+', '_', s)]: a run of underscores becomes one. *)
Fixpoint collapse_underscores (s : string) : string :=
  match s with
  | EmptyString => EmptyString
  | String c s' =>
      if Ascii.eqb c "_" then
        match s' with
        | String c' _ =>
            if Ascii.eqb c' "_" then collapse_underscores s'
            else String c (collapse_underscores s')
        | EmptyString => String c EmptyString
        end
      else String c (collapse_underscores s')
  end.

(** [s.rsplit('.', 1)] when it gives two parts. *)
Definition rsplit_dot (s : string) : option (string * string) :=
  match rfind_dot s 0 with
  | Some i => Some (str_take i s, str_drop (S i) s)
  | None => None
  end.

(** The seven characters of [invalid_chars]: the angle brackets, the colon,
    the double quote, the bar, the question mark and the star. *)
Definition invalid_chars : list ascii :=
  ["<"; ">"; ":"; ascii_of_nat 34; "|"; "?"; "*"]%char.

(** The two replacements of [_sanitize_filename]: every invalid character
    becomes an underscore, then runs of underscores become one. *)
Definition clean_filename (filename : string) : string :=
  collapse_underscores
    (fold_left (fun name char => replace_char char "_" name) invalid_chars filename).

(** [_sanitize_filename]; [now_stamp] and [now_time] are what the clock
    gives for the formats [%Y%m%d_%H%M%S] and [%H%M%S]. Unpacking the
    result of [rsplit] raises [ValueError] when the name has no dot. *)
Definition _sanitize_filename (now_stamp now_time : string) (filename : string)
    : result string :=
  if String.eqb filename "" then Ok ("cimis_export_" ++ now_stamp ++ ".csv")
  else
    let filename := clean_filename filename in
    if (200 <? String.length filename)%nat then
      match rsplit_dot filename with
      | Some (base, ext) => Ok (str_take 190 base ++ "_" ++ now_time ++ "." ++ ext)
      | None => raise_ ValueError
      end
    else Ok filename.

(** No character of [chars] occurs in [s]. *)
Definition free_of (chars : list ascii) (s : string) : bool :=
  forallb (fun c => negb (has_char c s)) chars.

(** A long name. *)
Definition long_name : string :=
  "cimis_weather_data_" ++ zeros 200 ++ ".csv".

(** * Properties of the mapper *)

Lemma bind_Ok {A B : Type} (m : result A) (f : A -> result B) (b : B) :
  m ≫= f = Ok b -> exists a, m = Ok a /\ f a = Ok b.
Proof. destruct m as [a|e]; simpl; [eauto | discriminate]. Qed.

Section for_each_facts.
Context {A B : Type}.

Lemma for_each_Forall2 (f : A -> result B) (l : list A) (ys : list B) :
  for_each f l = Ok ys -> Forall2 (fun x y => f x = Ok y) l ys.
Proof.
  revert ys; induction l as [|x l IH]; simpl; intros ys H.
  - injection H as <-. constructor.
  - apply bind_Ok in H as (y & Hy & H).
    apply bind_Ok in H as (ys' & Hys & H).
    injection H as <-. constructor; auto.
Qed.

Lemma for_each_total (f : A -> result B) (l : list A) :
  Forall (fun x => exists y, f x = Ok y) l -> exists ys, for_each f l = Ok ys.
Proof.
  induction 1 as [|x l [y Hy] _ [ys Hys]]; simpl; [eauto|].
  rewrite Hy; simpl. rewrite Hys; simpl. eauto.
Qed.
End for_each_facts.

Lemma dict_get_None {V : Type} (k : string) (d : list (string * V)) :
  dict_get k d = None <-> ~ In k (map fst d).
Proof.
  induction d as [|[k' v] d IH]; simpl; [tauto|].
  destruct (String.eqb_spec k k') as [->|Hne].
  - split; [discriminate | intros H; exfalso; apply H; auto].
  - rewrite IH. split; [intros H [E|I]; [congruence | tauto] | tauto].
Qed.

(** Only a [str] equals a [str]. *)
Lemma py_eq_VStr_r (a : pyval) (s : string) : py_eq a (VStr s) = true <-> a = VStr s.
Proof.
  destruct a; simpl; try (split; [discriminate | intros H; discriminate H]).
  destruct (String.eqb_spec s0 s); split; congruence.
Qed.

(** ** The records of the output against the arrays of the input *)

Lemma parse_record_dict (rd : pyval) (r : WeatherRecord.t) :
  parse_record rd = Ok r ->
  exists d, rd = VDict d /\
    r = WeatherRecord.mk
          (from_option id (VStr "") (dict_get "Date" d))
          (from_option id (VStr "") (dict_get "Julian" d))
          (from_option id VNone (dict_get "Station" d))
          (from_option id (VStr "english") (dict_get "Standard" d))
          (from_option id (VStr "") (dict_get "ZipCodes" d))
          (from_option id (VStr "daily") (dict_get "Scope" d))
          (from_option id VNone (dict_get "Hour" d))
          (parse_data_values d).
Proof.
  destruct rd; try discriminate. cbn. intros [= <-]. eauto.
Qed.

Lemma parse_record_total (d : list (string * pyval)) :
  exists r, parse_record (VDict d) = Ok r.
Proof. cbn. eauto. Qed.

(** A loop over a [str] or over the keys of a [dict] meets only [str]
    elements, on which [.get] raises: it ends well only when empty. *)
Lemma for_each_parse_record_strs {K : Type} (g : K -> string) (l : list K) rs :
  for_each parse_record (map (fun k => VStr (g k)) l) = Ok rs -> l = [] /\ rs = [].
Proof. destruct l; cbn; [intros [= <-]; auto | discriminate]. Qed.

Lemma parse_provider_records (p : pyval) (pr : WeatherProvider.t) :
  parse_provider p = Ok pr ->
  Forall2 (fun rd r => parse_record rd = Ok r) (records_array p) (WeatherProvider.records pr).
Proof.
  destruct p as [| | | | |d]; try discriminate.
  unfold parse_provider, records_array. cbn.
  destruct (dict_get "Records" d) as [v|]; cbn.
  - destruct v as [| | |s|rs|d']; cbn; try discriminate.
    + intros H. apply bind_Ok in H as (rs & Hrs & [= <-]).
      apply (for_each_parse_record_strs (fun c => String c EmptyString)) in Hrs as [_ ->].
      constructor.
    + intros H. apply bind_Ok in H as (rs' & Hrs & [= <-]).
      now apply for_each_Forall2.
    + intros H. apply bind_Ok in H as (rs & Hrs & [= <-]).
      apply (for_each_parse_record_strs fst) in Hrs as [_ ->].
      constructor.
  - intros [= <-]. constructor.
Qed.

Lemma for_each_parse_provider_strs {K : Type} (g : K -> string) (l : list K) ps :
  for_each parse_provider (map (fun k => VStr (g k)) l) = Ok ps -> l = [] /\ ps = [].
Proof. destruct l; cbn; [intros [= <-]; auto | discriminate]. Qed.

Lemma parse_data_response_providers (data : pyval) (wd : WeatherData.t) :
  parse_data_response data = Ok wd ->
  Forall2 (fun p pr => parse_provider p = Ok pr)
    (providers_array data) (WeatherData.providers wd).
Proof.
  unfold parse_data_response, lacks_providers, providers_array.
  destruct data as [| | |s|l|d]; cbn; try discriminate.
  - destruct (str_contains "Data" s); cbn; [discriminate | intros [= <-]; constructor].
  - destruct (existsb _ l); cbn; [discriminate | intros [= <-]; constructor].
  - destruct (dict_get "Data" d) as [inner|]; cbn; [|intros [= <-]; constructor].
    destruct inner as [| | |s|l|inner]; cbn; try discriminate.
    + destruct (str_contains "Providers" s); cbn; [discriminate | intros [= <-]; constructor].
    + destruct (existsb _ l); cbn; [discriminate | intros [= <-]; constructor].
    + destruct (dict_get "Providers" inner) as [ps|]; cbn; [|intros [= <-]; constructor].
      destruct ps as [| | |s|ps|d']; cbn; try discriminate.
      * intros H. apply bind_Ok in H as (prs & Hprs & [= <-]).
        apply (for_each_parse_provider_strs (fun c => String c EmptyString)) in Hprs as [_ ->].
        constructor.
      * intros H. apply bind_Ok in H as (prs & Hprs & [= <-]).
        now apply for_each_Forall2.
      * intros H. apply bind_Ok in H as (prs & Hprs & [= <-]).
        apply (for_each_parse_provider_strs fst) in Hprs as [_ ->].
        constructor.
Qed.

(** The records of the output are the record objects of the payload, each
    mapped by [parse_record], in the order of the payload. *)
Lemma mapper_records (data : pyval) (wd : WeatherData.t) :
  parse_data_response data = Ok wd ->
  Forall2 (fun rd r => parse_record rd = Ok r)
    (flat_map records_array (providers_array data)) (WeatherData.get_all_records wd).
Proof.
  intros H. apply parse_data_response_providers in H.
  unfold WeatherData.get_all_records.
  induction H as [|p pr ps prs Hp _ IH]; cbn [flat_map]; [constructor|].
  apply Forall2_app; [now apply parse_provider_records | exact IH].
Qed.

(** ** Missing [Data] or [Providers] *)

(** C1, as stated, fails: [Data] may hold [null], which has no key
    [Providers]; the guard tests membership in whatever [Data] holds, and
    on [null] the test itself raises [TypeError]. *)
Lemma missing_keys_never_raise_fails : ~ missing_keys_never_raise.
Proof.
  intros H.
  specialize (H [("Data", VNone)] (or_intror (ex_intro _ VNone (conj eq_refl I)))).
  discriminate H.
Qed.

(** C1, amended. The two copies of the mapper,
    [CimisEndpoints.parse_data_response] and
    [CimisClient._parse_data_response], do the same on a parsed JSON
    object. They return a [WeatherData] with no provider and raise nothing
    when the key [Data] is missing, when [Data] is an object without the
    key [Providers], when it is a string in which ['Providers'] does not
    occur, and when it is an array with no element equal to ['Providers'].
    They raise [TypeError] when [Data] is [null], a boolean or an integer
    (the membership test raises), and when it is a string in which
    ['Providers'] occurs or an array with an element equal to it (the
    lookup that follows raises). *)
Theorem parse_data_response_missing_keys (d : list (string * pyval)) :
  _parse_data_response (VDict d) = parse_data_response (VDict d)
  /\ match dict_get "Data" d with
     | None => parse_data_response (VDict d) = Ok (WeatherData.mk [])
     | Some (VDict inner) =>
         dict_get "Providers" inner = None ->
         parse_data_response (VDict d) = Ok (WeatherData.mk [])
     | Some (VStr s) =>
         parse_data_response (VDict d)
         = if str_contains "Providers" s then raise_ TypeError
           else Ok (WeatherData.mk [])
     | Some (VList l) =>
         parse_data_response (VDict d)
         = if existsb (py_eq (VStr "Providers")) l then raise_ TypeError
           else Ok (WeatherData.mk [])
     | Some VNone | Some (VBool _) | Some (VInt _) =>
         parse_data_response (VDict d) = raise_ TypeError
     end.
Proof.
  split; [reflexivity|].
  unfold parse_data_response, lacks_providers.
  cbn [py_contains py_getitem mbind result_bind].
  destruct (dict_get "Data" d) as [[| b | n | s | l | inner]|] eqn:E;
    cbn [bool_decide decide_rel negb mbind result_bind py_contains py_getitem];
    try reflexivity.
  - destruct (str_contains "Providers" s); reflexivity.
  - destruct (existsb (py_eq (VStr "Providers")) l); reflexivity.
  - intros ->. reflexivity.
Qed.

(** A payload whose [Data] is an object with a status only, and three
    payloads whose [Data] is no object. *)
Example data_without_providers :
  parse_data_response (VDict [("Data", VDict [("Status", VStr "ok")])])
  = Ok (WeatherData.mk [])
  /\ parse_data_response (VDict [("Data", VNone)]) = raise_ TypeError
  /\ parse_data_response (VDict [("Data", VInt 0)]) = raise_ TypeError
  /\ parse_data_response (VDict [("Data", VBool false)]) = raise_ TypeError
  /\ parse_data_response (VDict [("Data", VStr "no Providers")]) = raise_ TypeError
  /\ parse_data_response (VDict [("Data", VList [])]) = Ok (WeatherData.mk []).
Proof. repeat split; reflexivity. Qed.

(** ** Data items of a record *)

Lemma parse_data_values_lookup (items : list (string * pyval)) (K : string) :
  NoDup (map fst items) ->
  parse_data_values items !! K = dict_get K items ≫= expected_item.
Proof.
  unfold parse_data_values.
  enough (Hgen : forall acc : gmap string DataValue.t,
             NoDup (map fst items) ->
             foldl (fun acc kv =>
                      let '(key, value) := kv in
                      match value with
                      | VDict d =>
                          if bool_decide (is_Some (dict_get "Value" d)) then
                            <[key := DataValue.mk
                                       (from_option id VNone (dict_get "Value" d))
                                       (from_option id (VStr " ") (dict_get "Qc" d))
                                       (from_option id (VStr "") (dict_get "Unit" d))]> acc
                          else acc
                      | _ => acc
                      end) acc items !! K
             = match dict_get K items with
               | Some v => match expected_item v with
                           | Some dv => Some dv
                           | None => acc !! K
                           end
               | None => acc !! K
               end).
  { intros Hnd. rewrite Hgen by assumption.
    destruct (dict_get K items) as [v|]; cbn; [|apply lookup_empty].
    destruct (expected_item v); [reflexivity | apply lookup_empty]. }
  induction items as [|[k v] items IH]; intros acc Hnd; [reflexivity|].
  cbn [foldl map fst dict_get] in *.
  apply NoDup_cons in Hnd as [Hk Hnd].
  rewrite IH by assumption.
  destruct (String.eqb_spec K k) as [->|Hne].
  - assert (Hnone : dict_get k items = None).
    { apply dict_get_None. intros HI. apply Hk. now apply list_elem_of_In. }
    rewrite Hnone.
    destruct v as [| | | | |o]; cbn; try reflexivity.
    destruct (dict_get "Value" o) as [x|] eqn:Hv; cbn;
      [now rewrite lookup_insert_eq | reflexivity].
  - destruct (dict_get K items) as [w|]; [destruct (expected_item w); [reflexivity|]|];
      (destruct v as [| | | | |o]; try reflexivity;
       destruct (bool_decide (is_Some (dict_get "Value" o))); [|reflexivity];
       now rewrite lookup_insert_ne by congruence).
Qed.

(** C2. For a record object with distinct keys, the mapper builds a record
    whose [data_values] has an entry under [K] exactly when the value under
    [K] is an object with a [Value] key; the entry then holds that [Value],
    the object's [Qc] (a single space when absent) and its [Unit] (the empty
    string when absent). A value that is not such an object gives no entry. *)
Theorem parse_record_data_values (d : list (string * pyval)) :
  NoDup (map fst d) ->
  exists r, parse_record (VDict d) = Ok r /\
    forall K, WeatherRecord.data_values r !! K = dict_get K d ≫= expected_item.
Proof.
  intros Hnd. destruct (parse_record_total d) as [r Hr]. exists r. split; [assumption|].
  apply parse_record_dict in Hr as (d' & [= <-] & ->). cbn.
  intros K. now apply parse_data_values_lookup.
Qed.

Lemma parse_record_data_values_witness :
  exists r, parse_record (VDict sample_record) = Ok r /\
    forall K, WeatherRecord.data_values r !! K = dict_get K sample_record ≫= expected_item.
Proof.
  apply (parse_record_data_values sample_record).
  apply (bool_decide_unpack _). vm_compute. exact I.
Defined.

(** ** Counting the records *)

Lemma get_all_records_count (data : pyval) (wd : WeatherData.t) :
  parse_data_response data = Ok wd ->
  length (WeatherData.get_all_records wd) = input_record_count data.
Proof.
  intros H. apply parse_data_response_providers in H.
  unfold WeatherData.get_all_records, input_record_count.
  induction H as [|p pr ps prs Hp _ IH]; [reflexivity|].
  cbn [flat_map map sum_list]. rewrite length_app, IH. f_equal.
  apply parse_provider_records in Hp. symmetry. exact (Forall2_length _ _ _ Hp).
Qed.

Lemma parse_provider_total (p : pyval) :
  provider_well_shaped p = true -> exists pr, parse_provider p = Ok pr.
Proof.
  destruct p as [| | | | |d]; try discriminate.
  unfold provider_well_shaped, parse_provider. cbn.
  destruct (dict_get "Records" d) as [v|]; cbn; [|eauto].
  destruct v as [| | | |rs|]; try discriminate. cbn. intros Hrs.
  destruct (for_each_total parse_record rs) as [rs' Hrs'].
  - apply Forall_forall. intros rd Hin%list_elem_of_In.
    rewrite forallb_forall in Hrs. specialize (Hrs rd Hin).
    destruct rd; try discriminate Hrs. apply parse_record_total.
  - rewrite Hrs'. cbn. eauto.
Qed.

Lemma parse_data_response_total (data : pyval) :
  well_shaped data = true -> exists wd, parse_data_response data = Ok wd.
Proof.
  destruct data as [| | | | |d]; try discriminate.
  unfold well_shaped, parse_data_response, lacks_providers. cbn.
  destruct (dict_get "Data" d) as [inner|]; cbn; [|eauto].
  destruct inner as [| | | | |inner]; try discriminate. cbn.
  destruct (dict_get "Providers" inner) as [ps|]; cbn; [|eauto].
  destruct ps as [| | | |ps|]; try discriminate. cbn. intros Hps.
  destruct (for_each_total parse_provider ps) as [prs Hprs].
  - apply Forall_forall. intros p Hin%list_elem_of_In. apply parse_provider_total.
    rewrite forallb_forall in Hps. now apply Hps.
  - rewrite Hprs. cbn. eauto.
Qed.

(** C7. Whenever the mapper returns a [WeatherData], the number of records
    obtained by flattening the records of all its providers
    ([get_all_records]) is the sum of the lengths of the [Records] arrays of
    the provider objects of the payload; and on a payload of the documented
    shape the mapper does return one. *)
Theorem get_all_records_length (data : pyval) :
  (forall wd, parse_data_response data = Ok wd ->
     length (WeatherData.get_all_records wd) = input_record_count data)
  /\ (well_shaped data = true ->
      exists wd, parse_data_response data = Ok wd /\
        length (WeatherData.get_all_records wd) = input_record_count data).
Proof.
  split; [intros wd; apply get_all_records_count|].
  intros Hws. destruct (parse_data_response_total data Hws) as [wd Hwd].
  exists wd. split; [assumption|]. now apply get_all_records_count.
Qed.

Lemma get_all_records_length_witness :
  exists wd, parse_data_response sample_payload = Ok wd /\
    length (WeatherData.get_all_records wd) = input_record_count sample_payload.
Proof. apply (get_all_records_length sample_payload). reflexivity. Defined.

(** ** [hour] and [scope] *)

(** C8, as stated, fails: the record of [hourly_without_hour] has scope
    ['hourly'] and no hour. *)
Lemma hour_iff_hourly_fails : ~ hour_iff_hourly.
Proof.
  intros H.
  specialize (H hourly_without_hour _
    (WeatherRecord.mk (VStr "2023-01-01") (VStr "") VNone (VStr "english")
       (VStr "") (VStr "hourly") VNone ∅) eq_refl).
  cbn in H. destruct H as [_ H]; [auto|]. now apply H.
Qed.

(** C8, amended. Every record the mapper produces comes from a record object
    of the payload; its [hour] is that object's [Hour] ([None] when the key
    is missing) and its [scope] is that object's [Scope] (['daily'] when the
    key is missing). The two fields are copied independently. *)
Theorem hour_and_scope_copied (data : pyval) (wd : WeatherData.t) (r : WeatherRecord.t) :
  parse_data_response data = Ok wd ->
  In r (WeatherData.get_all_records wd) ->
  exists d, In (VDict d) (flat_map records_array (providers_array data)) /\
    WeatherRecord.hour r = from_option id VNone (dict_get "Hour" d) /\
    WeatherRecord.scope r = from_option id (VStr "daily") (dict_get "Scope" d).
Proof.
  intros H. apply parse_data_response_providers in H.
  unfold WeatherData.get_all_records.
  induction H as [|p pr ps prs Hp _ IH]; cbn [flat_map]; [intros []|].
  rewrite !in_app_iff. intros [Hin | Hin].
  - apply parse_provider_records in Hp.
    induction Hp as [|rd r' rds rs Hrd _ IHr]; [destruct Hin|].
    destruct Hin as [<- | Hin].
    + apply parse_record_dict in Hrd as (d & -> & ->).
      exists d. cbn. auto.
    + destruct (IHr Hin) as (d & Hd & ?). exists d. split; [|assumption].
      rewrite in_app_iff in *. cbn. tauto.
  - destruct (IH Hin) as (d & Hd & ?). exists d. split; [|assumption].
    rewrite in_app_iff. tauto.
Qed.

Lemma hour_and_scope_copied_witness :
  exists d, In (VDict d) (flat_map records_array (providers_array hourly_without_hour)) /\
    VNone = from_option id VNone (dict_get "Hour" d) /\
    VStr "hourly" = from_option id (VStr "daily") (dict_get "Scope" d).
Proof.
  apply (hour_and_scope_copied hourly_without_hour
           (WeatherData.mk [WeatherProvider.mk (VStr "N") (VStr "") (VStr "")
              [WeatherRecord.mk (VStr "2023-01-01") (VStr "") VNone (VStr "english")
                 (VStr "") (VStr "hourly") VNone ∅]])
           (WeatherRecord.mk (VStr "2023-01-01") (VStr "") VNone (VStr "english")
              (VStr "") (VStr "hourly") VNone ∅)).
  - reflexivity.
  - cbn. auto.
Defined.

(** * Properties of the projector: the columns *)

Lemma elem_of_all_data_items (records : list WeatherRecord.t) (item : string) :
  item ∈ all_data_items records <->
  exists record, In record records /\ item ∈ dom (WeatherRecord.data_values record).
Proof.
  unfold all_data_items.
  enough (Hgen : forall acc : gset string,
             item ∈ foldl (fun acc record => acc ∪ dom (WeatherRecord.data_values record))
                      acc records
             <-> item ∈ acc \/
                 exists record, In record records
                                /\ item ∈ dom (WeatherRecord.data_values record)).
  { rewrite Hgen. split; [intros [H|H]; [now apply not_elem_of_empty in H | exact H] | auto]. }
  induction records as [|r records IH]; intros acc; cbn [foldl].
  - split; [auto | intros [H | (r & [] & _)]; exact H].
  - rewrite IH, elem_of_union. split.
    + intros [[H|H] | (r' & Hin & H)]; [auto | right; exists r; cbn; auto |].
      right. exists r'. cbn. auto.
    + intros [H | (r' & [<- | Hin] & H)]; [auto | auto |]. right. eauto.
Qed.

(** The set of items does not depend on the order in which the records are
    met. *)
Lemma all_data_items_Permutation (records records' : list WeatherRecord.t) :
  records ≡ₚ records' -> all_data_items records = all_data_items records'.
Proof.
  intros HP. apply set_eq. intros item. rewrite !elem_of_all_data_items.
  split; intros (r & Hin & H); exists r; (split; [|exact H]).
  - apply list_elem_of_In. rewrite <- HP. now apply list_elem_of_In.
  - apply list_elem_of_In. rewrite HP. now apply list_elem_of_In.
Qed.

Lemma elem_of_filtered_data_items (scope_type : string)
    (records : list WeatherRecord.t) (item : string) :
  item ∈ filtered_data_items scope_type records <->
  item ∈ all_data_items records /\
  (if String.eqb scope_type "daily" then keep_daily item = true
   else if String.eqb scope_type "hourly" then keep_hourly item = true
   else True).
Proof.
  unfold filtered_data_items.
  destruct (String.eqb scope_type "daily"); [rewrite elem_of_filter; tauto|].
  destruct (String.eqb scope_type "hourly"); [rewrite elem_of_filter; tauto|].
  tauto.
Qed.

Lemma elem_of_sorted_data_items (scope_type : string)
    (records : list WeatherRecord.t) (item : string) :
  item ∈ sorted_data_items scope_type records <->
  item ∈ filtered_data_items scope_type records.
Proof.
  unfold sorted_data_items. rewrite merge_sort_Permutation. apply elem_of_elements.
Qed.

Lemma sorted_data_items_Sorted (scope_type : string) (records : list WeatherRecord.t) :
  Sorted String.le (sorted_data_items scope_type records).
Proof. apply (Sorted_merge_sort String.le). Qed.

Lemma sorted_data_items_NoDup (scope_type : string) (records : list WeatherRecord.t) :
  NoDup (sorted_data_items scope_type records).
Proof.
  unfold sorted_data_items. rewrite merge_sort_Permutation. apply NoDup_elements.
Qed.

(** A sorted list of keys is the sorted list of the set of its elements. *)
Lemma sorted_elements_unique (X : gset string) (keys : list string) :
  Sorted String.le keys -> NoDup keys -> (forall k, k ∈ keys <-> k ∈ X) ->
  merge_sort String.le (elements X) = keys.
Proof.
  intros Hs Hnd Hel.
  apply (Sorted_unique String.le); [apply (Sorted_merge_sort String.le) | exact Hs |].
  rewrite merge_sort_Permutation.
  apply NoDup_Permutation; [apply NoDup_elements | exact Hnd |].
  intros k. rewrite elem_of_elements. symmetry. apply Hel.
Qed.

Lemma elem_of_data_columns (scope_type : string) (records : list WeatherRecord.t)
    (column : string) :
  column ∈ data_columns scope_type records <->
  exists item, item ∈ filtered_data_items scope_type records /\ column ∈ item_columns item.
Proof.
  unfold data_columns. rewrite list_elem_of_In, in_flat_map. split.
  - intros (item & Hin & Hc). exists item.
    rewrite <- elem_of_sorted_data_items, !list_elem_of_In. auto.
  - intros (item & Hin & Hc). exists item.
    rewrite <- elem_of_sorted_data_items, !list_elem_of_In in *. auto.
Qed.

(** ** The three modes *)

(** C6. For every set of records: a data-item key, and a data-item column,
    retained in mixed mode is retained in daily mode or in hourly mode; and a
    key that starts with neither [Day] nor [Hly] is retained in daily mode
    and in hourly mode. *)
Theorem mode_filtering_partition (records : list WeatherRecord.t) :
  filtered_data_items "mixed" records
    ⊆ filtered_data_items "daily" records ∪ filtered_data_items "hourly" records
  /\ (forall column, column ∈ data_columns "mixed" records ->
        column ∈ data_columns "daily" records \/ column ∈ data_columns "hourly" records)
  /\ (forall item, item ∈ all_data_items records ->
        startswith item "Day" = false -> startswith item "Hly" = false ->
        item ∈ filtered_data_items "daily" records
        /\ item ∈ filtered_data_items "hourly" records).
Proof.
  assert (Hsub : forall item, item ∈ filtered_data_items "mixed" records ->
            item ∈ filtered_data_items "daily" records
            \/ item ∈ filtered_data_items "hourly" records).
  { intros item. rewrite !elem_of_filtered_data_items. cbn. intros [Hin _].
    unfold keep_daily, keep_hourly.
    destruct (startswith item "Day"), (startswith item "Hly"); cbn; auto. }
  split; [|split].
  - intros item Hin. apply elem_of_union. auto.
  - intros column. rewrite !elem_of_data_columns. intros (item & Hin & Hc).
    destruct (Hsub item Hin); [left | right]; eauto.
  - intros item Hin Hd Hh. rewrite !elem_of_filtered_data_items. cbn.
    unfold keep_daily, keep_hourly. rewrite Hd, Hh. auto.
Qed.

(** ** The order of the data columns *)

(** C3, as stated, fails: in mixed mode the records [daily_record] and
    [hourly_record] give the columns of [DayAirTmpAvg] before those of
    [HlyAirTmp], named [AirTmp_...]; the sorted cleaned keys are [AirTmp],
    [DayAirTmpAvg]. *)
Lemma columns_follow_cleaned_keys_fails : ~ columns_follow_cleaned_keys.
Proof.
  intros H. specialize (H "mixed" [daily_record; hourly_record]).
  vm_compute in H. discriminate H.
Qed.

Lemma startswith_cons (c a : ascii) (item p : string) :
  startswith (String c item) (String a p)
  = if ascii_dec a c then startswith item p else false.
Proof. reflexivity. Qed.

Lemma startswith_Day_not_Hly (item : string) :
  startswith item "Day" = true -> startswith item "Hly" = false.
Proof.
  destruct item as [|c item]; [discriminate|].
  rewrite !startswith_cons.
  destruct (ascii_dec "D" c) as [<-|]; [intros _ | discriminate].
  destruct (ascii_dec "H" "D") as [E|]; [discriminate E | reflexivity].
Qed.

Lemma keep_daily_clean (item : string) :
  keep_daily item = true -> clean_item_name item = item.
Proof.
  unfold keep_daily, clean_item_name.
  destruct (startswith item "Day") eqn:Hd.
  - now rewrite (startswith_Day_not_Hly item Hd).
  - destruct (startswith item "Hly"); [discriminate | reflexivity].
Qed.

Lemma flat_map_ext_Forall {A B : Type} (f g : A -> list B) (l : list A) :
  Forall (fun x => f x = g x) l -> flat_map f l = flat_map g l.
Proof. induction 1 as [|x l Hx _ IH]; cbn; [reflexivity | now rewrite Hx, IH]. Qed.

Lemma map_id_Forall {A : Type} (f : A -> A) (l : list A) :
  Forall (fun x => f x = x) l -> map f l = l.
Proof. induction 1 as [|x l Hx _ IH]; cbn; [reflexivity | now rewrite Hx, IH]. Qed.

Lemma daily_columns_cleaned_order (records : list WeatherRecord.t) :
  data_columns "daily" records = columns_of_sorted_cleaned_keys "daily" records.
Proof.
  unfold data_columns, columns_of_sorted_cleaned_keys.
  assert (Hclean : forall item, item ∈ filtered_data_items "daily" records ->
            clean_item_name item = item).
  { intros item [_ Hk]%elem_of_filtered_data_items. now apply keep_daily_clean. }
  rewrite (map_id_Forall clean_item_name).
  - apply flat_map_ext_Forall. apply Forall_forall. intros item Hin.
    unfold item_columns. rewrite Hclean; [reflexivity|].
    now apply elem_of_sorted_data_items.
  - apply Forall_forall. intros item Hin%elem_of_elements. auto.
Qed.

(** C3, amended. In every mode the data columns are the triples
    [<clean>_Value], [<clean>_QC], [<clean>_Unit] of the retained item keys
    taken in the lexicographic order of the original keys, each key once;
    the order in which the records are met does not matter. In daily mode,
    where no retained key has the [Hly] prefix, this is the order of the
    sorted cleaned keys. *)
Theorem data_columns_follow_original_keys (scope_type : string)
    (records : list WeatherRecord.t) :
  data_columns scope_type records
    = flat_map item_columns (sorted_data_items scope_type records)
  /\ Sorted String.le (sorted_data_items scope_type records)
  /\ NoDup (sorted_data_items scope_type records)
  /\ (forall item, item ∈ sorted_data_items scope_type records
                   <-> item ∈ filtered_data_items scope_type records)
  /\ (forall records', records' ≡ₚ records ->
        data_columns scope_type records' = data_columns scope_type records)
  /\ data_columns "daily" records = columns_of_sorted_cleaned_keys "daily" records.
Proof.
  repeat split.
  - apply sorted_data_items_Sorted.
  - apply sorted_data_items_NoDup.
  - now apply elem_of_sorted_data_items.
  - now apply elem_of_sorted_data_items.
  - intros records' HP.
    unfold data_columns, sorted_data_items, filtered_data_items.
    now rewrite (all_data_items_Permutation records' records HP).
  - apply daily_columns_cleaned_order.
Qed.

(** ** Two keys with one cleaned name *)

Lemma startswith_Hly (K : string) : startswith ("Hly" ++ K) "Hly" = true.
Proof. unfold startswith. destruct K; reflexivity. Qed.

Lemma clean_item_name_Hly (K : string) : clean_item_name ("Hly" ++ K) = K.
Proof. unfold clean_item_name. now rewrite startswith_Hly. Qed.

Lemma clean_item_name_plain (K : string) :
  startswith K "Hly" = false -> clean_item_name K = K.
Proof. unfold clean_item_name. now intros ->. Qed.

Lemma Hly_neq (K : string) : K <> "Hly" ++ K.
Proof.
  intros E. apply (f_equal String.length) in E.
  change (String.length K = S (S (S (String.length K)))) in E. lia.
Qed.

Lemma sorted_pair (X : gset string) (a b : string) :
  a <> b -> (forall k, k ∈ X <-> k = a \/ k = b) ->
  merge_sort String.le (elements X) = if String.leb a b then [a; b] else [b; a].
Proof.
  intros Hne HX. apply sorted_elements_unique.
  - destruct (String.leb a b) eqn:Hle.
    + repeat constructor. unfold String.le. now rewrite Hle.
    + repeat constructor. destruct (String.le_total b a) as [H|H]; [exact H|].
      unfold String.le in H. rewrite Hle in H. destruct H.
  - destruct (String.leb a b); repeat constructor;
      rewrite ?elem_of_cons, ?elem_of_nil; intuition congruence.
  - intros k. rewrite HX.
    destruct (String.leb a b); rewrite !elem_of_cons, elem_of_nil; tauto.
Qed.

Lemma build_row_cells (columns items : list string) (provider : WeatherProvider.t)
    (record : WeatherRecord.t) (row : gmap string pyval) :
  build_row columns items provider record = Ok row ->
  exists row0, row = foldl (set_item_cells record) row0 items.
Proof.
  unfold build_row. intros H.
  apply bind_Ok in H as (dt & _ & H). apply bind_Ok in H as (row0 & _ & [= <-]).
  eauto.
Qed.

Lemma column_names_distinct (c : string) :
  c ++ "_Value" <> c ++ "_QC" /\ c ++ "_Value" <> c ++ "_Unit"
  /\ c ++ "_QC" <> c ++ "_Unit".
Proof. repeat split; intros E; apply (inj (String.app c)) in E; discriminate E. Qed.

(** What the cells of a cleaned name hold after the cells of [item] are set. *)
Lemma set_item_cells_lookup (record : WeatherRecord.t) (row : gmap string pyval)
    (item : string) (data_value : DataValue.t) :
  WeatherRecord.data_values record !! item = Some data_value ->
  set_item_cells record row item !! (clean_item_name item ++ "_Value")
    = Some (py_or (DataValue.value data_value) (VStr ""))
  /\ set_item_cells record row item !! (clean_item_name item ++ "_QC")
    = Some (DataValue.qc data_value)
  /\ set_item_cells record row item !! (clean_item_name item ++ "_Unit")
    = Some (DataValue.unit data_value).
Proof.
  intros H. unfold set_item_cells. rewrite H.
  destruct (column_names_distinct (clean_item_name item)) as (H1 & H2 & H3).
  repeat split.
  - rewrite lookup_insert_ne, lookup_insert_ne, lookup_insert_eq by congruence. reflexivity.
  - rewrite lookup_insert_ne, lookup_insert_eq by congruence. reflexivity.
  - now rewrite lookup_insert_eq.
Qed.

(** C9. Take a key [K] without the [Hly] prefix and a record whose items are
    [K] and ['Hly' + K], projected in mixed mode, or in hourly mode when [K]
    has no [Day] prefix. Both keys are retained and have the cleaned name
    [K]; the data columns are the triple [K_Value], [K_QC], [K_Unit] twice;
    and in the row of the record these cells hold the values of the key that
    comes later in the order of the original keys. *)
Theorem hly_prefix_collision (scope_type K : string) (record : WeatherRecord.t)
    (v_plain v_hly : DataValue.t) (provider : WeatherProvider.t)
    (row : gmap string pyval) :
  startswith K "Hly" = false ->
  String.eqb scope_type "daily" = false ->
  (String.eqb scope_type "hourly" = true -> startswith K "Day" = false) ->
  WeatherRecord.data_values record = {[ K := v_plain; "Hly" ++ K := v_hly ]} ->
  build_row (all_columns scope_type [record]) (sorted_data_items scope_type [record])
    provider record = Ok row ->
  clean_item_name ("Hly" ++ K) = clean_item_name K
  /\ (K ∈ filtered_data_items scope_type [record]
      /\ "Hly" ++ K ∈ filtered_data_items scope_type [record])
  /\ data_columns scope_type [record] = (item_columns K ++ item_columns K)%list
  /\ row !! (K ++ "_Value")
     = Some (py_or (DataValue.value (if String.leb K ("Hly" ++ K) then v_hly else v_plain))
               (VStr ""))
  /\ row !! (K ++ "_QC")
     = Some (DataValue.qc (if String.leb K ("Hly" ++ K) then v_hly else v_plain))
  /\ row !! (K ++ "_Unit")
     = Some (DataValue.unit (if String.leb K ("Hly" ++ K) then v_hly else v_plain)).
Proof.
  intros HK Hnd Hh Hdv Hrow.
  pose proof (Hly_neq K) as Hne.
  assert (Hclean : clean_item_name K = K) by now apply clean_item_name_plain.
  assert (Hall : forall k, k ∈ all_data_items [record] <-> k = K \/ k = "Hly" ++ K).
  { intros k. unfold all_data_items. cbn [foldl]. rewrite Hdv.
    rewrite elem_of_union, dom_insert, elem_of_union, dom_singleton, !elem_of_singleton.
    split; [intros [H|H]; [now apply not_elem_of_empty in H | exact H] | auto]. }
  assert (Hfil : forall k, k ∈ filtered_data_items scope_type [record]
                           <-> k = K \/ k = "Hly" ++ K).
  { intros k. rewrite elem_of_filtered_data_items, Hall, Hnd.
    destruct (String.eqb scope_type "hourly"); [|tauto].
    split; [tauto|]. intros Hk. split; [exact Hk|].
    unfold keep_hourly. destruct Hk as [-> | ->]; [|now rewrite startswith_Hly].
    now rewrite HK, (Hh eq_refl). }
  assert (Hsorted : sorted_data_items scope_type [record]
                    = if String.leb K ("Hly" ++ K) then [K; "Hly" ++ K] else ["Hly" ++ K; K]).
  { unfold sorted_data_items. now apply sorted_pair. }
  assert (HgetK : WeatherRecord.data_values record !! K = Some v_plain).
  { rewrite Hdv. apply lookup_insert_eq. }
  assert (HgetH : WeatherRecord.data_values record !! ("Hly" ++ K) = Some v_hly).
  { rewrite Hdv. rewrite lookup_insert_ne by exact Hne. apply lookup_singleton_eq. }
  split; [now rewrite clean_item_name_Hly|].
  split; [split; apply Hfil; auto|].
  split.
  { unfold data_columns. rewrite Hsorted.
    assert (HiH : item_columns ("Hly" ++ K) = item_columns K).
    { unfold item_columns. now rewrite clean_item_name_Hly, Hclean. }
    destruct (String.leb K ("Hly" ++ K)); cbn [flat_map]; rewrite HiH, app_nil_r; reflexivity. }
  apply build_row_cells in Hrow as [row0 ->]. rewrite Hsorted.
  destruct (String.leb K ("Hly" ++ K)); cbn [foldl].
  - pose proof (set_item_cells_lookup record (set_item_cells record row0 K)
                  ("Hly" ++ K) v_hly HgetH) as H.
    now rewrite clean_item_name_Hly in H.
  - pose proof (set_item_cells_lookup record (set_item_cells record row0 ("Hly" ++ K))
                  K v_plain HgetK) as H.
    now rewrite Hclean in H.
Qed.

Lemma hly_prefix_collision_witness :
  clean_item_name ("Hly" ++ "AirTmp") = clean_item_name "AirTmp"
  /\ ("AirTmp" ∈ filtered_data_items "mixed" [colliding_record]
      /\ "Hly" ++ "AirTmp" ∈ filtered_data_items "mixed" [colliding_record])
  /\ data_columns "mixed" [colliding_record]
     = (item_columns "AirTmp" ++ item_columns "AirTmp")%list
  /\ colliding_row !! ("AirTmp" ++ "_Value") = Some (py_or (VStr "47.3") (VStr ""))
  /\ colliding_row !! ("AirTmp" ++ "_QC") = Some (VStr "B")
  /\ colliding_row !! ("AirTmp" ++ "_Unit") = Some (VStr "(F)").
Proof.
  apply (hly_prefix_collision "mixed" "AirTmp" colliding_record
           (DataValue.mk (VStr "50.1") (VStr "A") (VStr "(C)"))
           (DataValue.mk (VStr "47.3") (VStr "B") (VStr "(F)"))
           sample_provider colliding_row).
  - reflexivity.
  - reflexivity.
  - intros H. discriminate H.
  - reflexivity.
  - vm_compute. reflexivity.
Defined.

(** * Properties of the projector: every row is accepted by the writer *)

Lemma dom_set_item_cells (record : WeatherRecord.t) (row : gmap string pyval)
    (item : string) :
  dom (set_item_cells record row item) = list_to_set (item_columns item) ∪ dom row.
Proof.
  unfold set_item_cells, item_columns.
  destruct (WeatherRecord.data_values record !! item);
    rewrite !dom_insert_L; cbn [list_to_set]; apply set_eq; intros c;
    rewrite !elem_of_union, !elem_of_singleton, elem_of_empty; tauto.
Qed.

Lemma dom_foldl_set_item_cells (record : WeatherRecord.t) (items : list string)
    (row : gmap string pyval) :
  dom (foldl (set_item_cells record) row items)
  = list_to_set (flat_map item_columns items) ∪ dom row.
Proof.
  revert row. induction items as [|item items IH]; intros row; cbn [foldl flat_map].
  - cbn [list_to_set]. apply set_eq. intros c. rewrite elem_of_union, elem_of_empty. tauto.
  - rewrite IH, dom_set_item_cells, list_to_set_app_L. apply set_eq. intros c.
    rewrite !elem_of_union. tauto.
Qed.

(** The keys of a row are column names. *)
Lemma build_row_dom (scope_type : string) (records : list WeatherRecord.t)
    (provider : WeatherProvider.t) (record : WeatherRecord.t)
    (row : gmap string pyval) :
  build_row (all_columns scope_type records) (sorted_data_items scope_type records)
    provider record = Ok row ->
  dom row ⊆ list_to_set (all_columns scope_type records).
Proof.
  unfold build_row. intros H.
  apply bind_Ok in H as (dt & _ & H). apply bind_Ok in H as (row1 & Hrow1 & [= <-]).
  rewrite dom_foldl_set_item_cells.
  assert (Hbase : forall c, c ∈ ["Provider_Name"; "Provider_Type"; "Date"; "Julian";
                                "Station"; "Standard"; "ZipCodes"; "Scope";
                                "DateTime_Object"] ->
            c ∈ all_columns scope_type records).
  { intros c Hc. unfold all_columns, base_columns.
    rewrite <- app_assoc. apply elem_of_app. now left. }
  assert (Hrow1' : dom row1 ⊆ list_to_set (all_columns scope_type records)).
  { intros c Hc. apply elem_of_list_to_set.
    destruct (bool_decide ("Hour" ∈ all_columns scope_type records)) eqn:EH.
    - apply bool_decide_eq_true_1 in EH.
      destruct (bool_decide ("DateTime_Full" ∈ all_columns scope_type records)) eqn:EF.
      + apply bool_decide_eq_true_1 in EF.
        apply bind_Ok in Hrow1 as (full & _ & [= <-]).
        rewrite !dom_insert_L, dom_empty_L in Hc.
        rewrite !elem_of_union, !elem_of_singleton, elem_of_empty in Hc.
        destruct Hc as [-> | [-> | Hc]]; [exact EF | exact EH |].
        apply Hbase. rewrite !elem_of_cons, elem_of_nil. tauto.
      + injection Hrow1 as <-.
        rewrite !dom_insert_L, dom_empty_L in Hc.
        rewrite !elem_of_union, !elem_of_singleton, elem_of_empty in Hc.
        destruct Hc as [-> | Hc]; [exact EH |].
        apply Hbase. rewrite !elem_of_cons, elem_of_nil. tauto.
    - injection Hrow1 as <-.
      rewrite !dom_insert_L, dom_empty_L in Hc.
      rewrite !elem_of_union, !elem_of_singleton, elem_of_empty in Hc.
      apply Hbase. rewrite !elem_of_cons, elem_of_nil. tauto. }
  intros c [Hc | Hc]%elem_of_union; [|now apply Hrow1'].
  apply elem_of_list_to_set. unfold all_columns. apply elem_of_app. right.
  now apply elem_of_list_to_set in Hc.
Qed.


(** * Properties of the projector: [DateTime_Full] *)

Lemma str_app_assoc (a b c : string) : (a ++ b) ++ c = a ++ (b ++ c).
Proof.
  induction a as [|x a IH]; [reflexivity|].
  change (String x ((a ++ b) ++ c) = String x (a ++ (b ++ c))). now rewrite IH.
Qed.


Lemma str_last_app (a b : string) : b <> "" -> str_last (a ++ b) = str_last b.
Proof.
  intros Hb. induction a as [|x a IH]; [reflexivity|].
  change (String x a ++ b) with (String x (a ++ b)). cbn [str_last].
  destruct (a ++ b) eqn:E; [|exact IH].
  destruct a as [|y a]; [change (b = "") in E; congruence|].
  change (String y (a ++ b) = "") in E. discriminate E.
Qed.

(** No data column is called [DateTime_Full]. *)
Lemma item_column_not_DateTime_Full (c sfx : string) :
  sfx = "_Value" \/ sfx = "_QC" \/ sfx = "_Unit" -> c ++ sfx <> "DateTime_Full".
Proof.
  intros Hs E. apply (f_equal str_last) in E.
  rewrite str_last_app in E by (destruct Hs as [->|[->| ->]]; discriminate).
  destruct Hs as [->|[->| ->]]; discriminate E.
Qed.



(** ** What the built-ins raise *)

Lemma strptime_ymd_raises (s : string) (e : exn) :
  datetime.strptime_ymd s = Raise e -> caught_by ValueError e = true.
Proof.
  unfold datetime.strptime_ymd.
  destruct (datetime.match_ymd s) as [[[y m] d]|]; [|now intros [= <-]].
  destruct (_ && _); [discriminate | now intros [= <-]].
Qed.

Lemma py_int_raises (s : string) (e : exn) :
  py_int s = Raise e -> caught_by ValueError e = true.
Proof.
  unfold py_int. destruct (match skip_spaces s with EmptyString => _ | _ => _ end);
    [|now intros [= <-]].
  destruct (int_max_str_digits <? count_digits s)%nat; [now intros [= <-] | discriminate].
Qed.

Lemma replace_hour_minute_raises (d : datetime.t) (h m : Z) (e : exn) :
  datetime.replace_hour_minute d h m = Raise e ->
  (datetime.c_int h && datetime.c_int m = false /\ e = mk_exn OverflowError "")
  \/ (datetime.c_int h && datetime.c_int m = true /\ caught_by ValueError e = true).
Proof.
  unfold datetime.replace_hour_minute.
  destruct (datetime.c_int h && datetime.c_int m); cbn [negb].
  - destruct (_ && _); [discriminate | intros [= <-]; now right].
  - intros [= <-]. now left.
Qed.

Lemma bind_Raise {A B : Type} (m : result A) (f : A -> result B) (e : exn) :
  m ≫= f = Raise e -> m = Raise e \/ exists a, m = Ok a /\ f a = Raise e.
Proof. destruct m as [a|e']; [eauto | intros [= <-]; auto]. Qed.

Lemma full_timestamp_raises (date hour : string) (e : exn) :
  full_timestamp date hour = Raise e ->
  caught_by ValueError e = true \/ e = mk_exn OverflowError "".
Proof.
  unfold full_timestamp. intros H.
  apply bind_Raise in H as [H | (d & _ & H)]; [left; eapply strptime_ymd_raises; eauto|].
  apply bind_Raise in H as [H | (h & _ & H)]; [left; eapply py_int_raises; eauto|].
  apply bind_Raise in H as [H | (m & _ & H)].
  { destruct (2 <? String.length (zfill 4 hour))%nat;
      [left; eapply py_int_raises; eauto | discriminate H]. }
  apply bind_Raise in H as [H | (f & _ & H)]; [|discriminate H].
  apply replace_hour_minute_raises in H as [[_ ->] | [_ H]]; auto.
Qed.

(** ** The two derived cells, for a [str] date *)

Lemma datetime_object_str (date : string) :
  exists cell, datetime_object (VStr date) = Ok (VStr cell).
Proof.
  unfold datetime_object. cbn [py_truthy datetime.strptime].
  destruct (negb (String.eqb date "")); [|eauto].
  destruct (datetime.strptime_ymd date) as [d|e] eqn:E;
    cbn [mbind result_bind]; [eauto|].
  rewrite (strptime_ymd_raises date e E). unfold py_or. cbn [py_truthy].
  destruct (negb (String.eqb date "")); eauto.
Qed.


Lemma str_length_app (a b : string) :
  String.length (a ++ b) = (String.length a + String.length b)%nat.
Proof.
  induction a as [|x a IH]; [reflexivity|].
  change (S (String.length (a ++ b)) = S (String.length a + String.length b)).
  now rewrite IH.
Qed.







Lemma is_digit_range (c : ascii) :
  is_digit c = true -> 0 <= digit_value c <= 9.
Proof.
  unfold is_digit, digit_value. intros H. apply andb_true_iff in H as [H1 H2].
  apply Nat.leb_le in H1, H2. lia.
Qed.

Lemma str_take_length (n : nat) (s : string) :
  (String.length (str_take n s) <= n)%nat.
Proof.
  revert n. induction s as [|x s IH]; intros [|n]; cbn [str_take String.length]; try lia.
  specialize (IH n). lia.
Qed.






(** A two-character hour is zero-filled on the left before it is split, so
    its digits are read as minutes. *)
Example two_digit_hour :
  datetime_full (VStr "2023-01-01") (VStr "13") = Ok (VStr "2023-01-01T00:13:00").
Proof. vm_compute. reflexivity. Qed.


(** The row of [overflow_hour_record], whose [Hour] is ["002147483648"],
    is not built: [OverflowError] is raised. The same hour with a minute
    part one smaller is handled, and gives the date, a space and the
    hour. *)
Example overflow_hour_raises :
  build_row (all_columns "hourly" [overflow_hour_record])
    (sorted_data_items "hourly" [overflow_hour_record]) sample_provider
    overflow_hour_record = raise_ OverflowError
  /\ datetime_full (VStr "2023-01-01") (VStr "002147483647")
     = Ok (VStr "2023-01-01 002147483647").
Proof. split; vm_compute; reflexivity. Qed.

(** * Properties of [export_to_csv] *)


(** An I/O failure is an [OSError]. *)
Lemma open_w_raises (path : string) (s s' : fs) (e : exn) :
  open_w path s = (s', Raise e) -> s' = s /\ exn_cls e = OSError.
Proof.
  unfold open_w. destruct (bool_decide (path ∈ denied s)); [|discriminate].
  intros [= <- <-]. auto.
Qed.

Lemma mkdir_raises (dir : string) (s s' : fs) (e : exn) :
  mkdir dir s = (s', Raise e) -> s' = s /\ exn_cls e = OSError.
Proof.
  unfold mkdir. destruct (bool_decide (dir ∈ denied s)); [|discriminate].
  intros [= <- <-]. auto.
Qed.

Section export_to_csv_facts.
Variable generate_for_weather_data : WeatherData.t -> result Path.

(** C4. When the flattened record list of a [WeatherData] is empty,
    [export_to_csv] raises [CimisDataError] and leaves the file system as it
    was: no file is created. An I/O failure of the destination is an
    [OSError]; [CimisDataError] and [OSError] are not subclasses of one
    another, so an [except] clause for one does not catch the other. *)
Theorem export_to_csv_no_records (weather_data : WeatherData.t)
    (filename : option Path) (path : Path)
    (include_all_columns separate_daily_hourly : bool) (s : fs) :
  WeatherData.get_all_records weather_data = [] ->
  match filename with
  | None => generate_for_weather_data weather_data
  | Some f => Ok f
  end = Ok path ->
  export_to_csv generate_for_weather_data weather_data filename
    include_all_columns separate_daily_hourly s
  = (s, Raise (mk_exn CimisDataError "No data records to export"))
  /\ caught_by OSError (mk_exn CimisDataError "No data records to export") = false
  /\ (forall p s1 s2 e, open_w p s1 = (s2, Raise e) \/ mkdir p s1 = (s2, Raise e) ->
        exn_cls e = OSError /\ caught_by CimisDataError e = false
        /\ caught_by CimisError e = false).
Proof.
  intros Hempty Hname. split; [|split].
  - unfold export_to_csv. rewrite Hname, Hempty. reflexivity.
  - reflexivity.
  - intros p s1 s2 e [H | H];
      [apply open_w_raises in H as [_ H] | apply mkdir_raises in H as [_ H]];
      unfold caught_by; rewrite H; auto.
Qed.
End export_to_csv_facts.

Lemma export_to_csv_no_records_witness :
  export_to_csv no_generator (WeatherData.mk [sample_provider]) (Some (mk_Path "." "out.csv")) true true empty_fs
  = (empty_fs, Raise (mk_exn CimisDataError "No data records to export"))
  /\ caught_by OSError (mk_exn CimisDataError "No data records to export") = false
  /\ (forall p s1 s2 e, open_w p s1 = (s2, Raise e) \/ mkdir p s1 = (s2, Raise e) ->
        exn_cls e = OSError /\ caught_by CimisDataError e = false
        /\ caught_by CimisError e = false).
Proof.
  apply (export_to_csv_no_records no_generator (WeatherData.mk [sample_provider])
           (Some (mk_Path "." "out.csv")) (mk_Path "." "out.csv") true true empty_fs).
  - reflexivity.
  - reflexivity.
Defined.

(** ** Records of another scope *)














Section other_scopes.
Variable generate_for_weather_data : WeatherData.t -> result Path.

End other_scopes.


(** The default name of [three_scopes] counts its three records, the one
    of scope ['monthly'] included: the two files are written under that
    name, which is not the name generated for the data without that
    record. *)
Example three_scopes_default_name :
  snd (export_to_csv counting_generator three_scopes None true true empty_fs)
  = Ok "Daily: 03_daily.csv, Hourly: 03_hourly.csv"
  /\ snd (export_to_csv counting_generator (without_other_scopes three_scopes) None
            true true empty_fs)
     = Ok "Daily: 02_daily.csv, Hourly: 02_hourly.csv".
Proof. split; vm_compute; reflexivity. Qed.

(** The files written for [three_scopes]: one row for the daily record, one
    for the hourly record, none for the record of scope ['monthly']. *)
Example three_scopes_files :
  let out := export_to_csv no_generator three_scopes (Some (mk_Path "." "out.csv"))
               true true empty_fs in
  snd out = Ok "Daily: out_daily.csv, Hourly: out_hourly.csv"
  /\ size (files (fst out)) = 2%nat
  /\ files (fst out) !! "out_daily.csv"
     = Some [map VStr ["Provider_Name"; "Provider_Type"; "Date"; "Julian"; "Station";
                       "Standard"; "ZipCodes"; "Scope"; "DateTime_Object";
                       "DayAirTmpAvg_Value"; "DayAirTmpAvg_QC"; "DayAirTmpAvg_Unit"];
             map VStr ["N"; "station"; "2023-01-01"; "1"; "2"; "english"; ""; "daily";
                       "2023-01-01T00:00:00"; "50.1"; " "; "(F)"]]
  /\ files (fst out) !! "out_hourly.csv"
     = Some [map VStr ["Provider_Name"; "Provider_Type"; "Date"; "Julian"; "Station";
                       "Standard"; "ZipCodes"; "Scope"; "DateTime_Object"; "Hour";
                       "DateTime_Full"; "AirTmp_Value"; "AirTmp_QC"; "AirTmp_Unit"];
             map VStr ["N"; "station"; "2023-01-01"; "1"; "2"; "english"; ""; "hourly";
                       "2023-01-01T00:00:00"; "0130"; "2023-01-01T01:30:00";
                       "47.3"; " "; "(F)"]].
Proof. vm_compute. repeat split; reflexivity. Qed.

(** * Properties of the scope filters of the client *)

Lemma foldl_append_filtered (keep : WeatherRecord.t -> bool)
    (acc : list WeatherProvider.t) (providers : list WeatherProvider.t) :
  foldl (append_filtered keep) acc providers
  = (acc ++ foldl (append_filtered keep) [] providers)%list.
Proof.
  revert acc. induction providers as [|p ps IH]; intros acc; cbn [foldl].
  - now rewrite app_nil_r.
  - rewrite IH. rewrite (IH (append_filtered keep [] p)). unfold append_filtered.
    destruct (List.filter keep (WeatherProvider.records p)); cbn [app];
      [reflexivity | now rewrite <- app_assoc].
Qed.

Lemma filtered_cons (keep : WeatherRecord.t -> bool) (p : WeatherProvider.t)
    (ps : list WeatherProvider.t) :
  foldl (append_filtered keep) [] (p :: ps)
  = (append_filtered keep [] p ++ foldl (append_filtered keep) [] ps)%list.
Proof. cbn [foldl]. apply foldl_append_filtered. Qed.

Lemma flat_map_records_filtered (keep : WeatherRecord.t -> bool)
    (providers : list WeatherProvider.t) :
  flat_map WeatherProvider.records (foldl (append_filtered keep) [] providers)
  = List.filter keep (flat_map WeatherProvider.records providers).
Proof.
  induction providers as [|p ps IH]; [reflexivity|].
  rewrite filtered_cons, flat_map_app, IH. cbn [flat_map].
  rewrite List.filter_app. f_equal. unfold append_filtered.
  destruct (List.filter keep (WeatherProvider.records p)) as [|r rs];
    cbn; [reflexivity | now rewrite app_nil_r].
Qed.

Lemma filtered_no_empty_provider (keep : WeatherRecord.t -> bool)
    (providers : list WeatherProvider.t) :
  Forall (fun p => WeatherProvider.records p <> [])
    (foldl (append_filtered keep) [] providers).
Proof.
  induction providers as [|p ps IH]; [constructor|].
  rewrite filtered_cons. apply Forall_app. split; [|exact IH].
  unfold append_filtered.
  destruct (List.filter keep (WeatherProvider.records p)) as [|r rs];
    repeat constructor. discriminate.
Qed.

Lemma hourly_records_filter (all_records : list WeatherRecord.t) :
  hourly_records all_records
  = List.filter (fun record => py_eq (WeatherRecord.scope record) (VStr "hourly"))
      all_records.
Proof.
  unfold hourly_records. apply List.filter_ext. intros record.
  destruct (py_eq (WeatherRecord.scope record) (VStr "daily")) eqn:Ed; [|reflexivity].
  apply py_eq_VStr_r in Ed. rewrite Ed. reflexivity.
Qed.

(** X1. [_filter_daily_only] keeps exactly the daily records, in their
    order: flattened, its result is the list [daily_records] that
    [export_to_csv] computes from the unfiltered data; every record left has
    scope ['daily'], and no provider is left without a record. *)
Theorem filter_daily_only_records (weather_data : WeatherData.t) :
  WeatherData.get_all_records (_filter_daily_only weather_data)
    = daily_records (WeatherData.get_all_records weather_data)
  /\ Forall (fun record => WeatherRecord.scope record = VStr "daily")
       (WeatherData.get_all_records (_filter_daily_only weather_data))
  /\ Forall (fun provider => WeatherProvider.records provider <> [])
       (WeatherData.providers (_filter_daily_only weather_data)).
Proof.
  assert (H : WeatherData.get_all_records (_filter_daily_only weather_data)
              = daily_records (WeatherData.get_all_records weather_data))
    by apply flat_map_records_filtered.
  split; [exact H|]. split; [|apply filtered_no_empty_provider].
  rewrite H. apply Forall_forall. intros record Hin%list_elem_of_In.
  apply filter_In in Hin as [_ Hs]. now apply py_eq_VStr_r.
Qed.

(** X2. [_filter_hourly_only] keeps exactly the hourly records, in their
    order: flattened, its result is the list [hourly_records] of
    [export_to_csv]; every record left has scope ['hourly'], and no provider
    is left without a record. *)
Theorem filter_hourly_only_records (weather_data : WeatherData.t) :
  WeatherData.get_all_records (_filter_hourly_only weather_data)
    = hourly_records (WeatherData.get_all_records weather_data)
  /\ Forall (fun record => WeatherRecord.scope record = VStr "hourly")
       (WeatherData.get_all_records (_filter_hourly_only weather_data))
  /\ Forall (fun provider => WeatherProvider.records provider <> [])
       (WeatherData.providers (_filter_hourly_only weather_data)).
Proof.
  assert (H : WeatherData.get_all_records (_filter_hourly_only weather_data)
              = hourly_records (WeatherData.get_all_records weather_data)).
  { rewrite hourly_records_filter. apply flat_map_records_filtered. }
  split; [exact H|]. split; [|apply filtered_no_empty_provider].
  rewrite H, hourly_records_filter. apply Forall_forall.
  intros record Hin%list_elem_of_In.
  apply filter_In in Hin as [_ Hs]. now apply py_eq_VStr_r.
Qed.

Lemma filter_all_true {A : Type} (p : A -> bool) (l : list A) :
  Forall (fun x => p x = true) l -> List.filter p l = l.
Proof. induction 1 as [|x l Hx _ IH]; cbn; [reflexivity | now rewrite Hx, IH]. Qed.

Lemma filter_all_false {A : Type} (p : A -> bool) (l : list A) :
  Forall (fun x => p x = false) l -> List.filter p l = [].
Proof. induction 1 as [|x l Hx _ IH]; cbn; [reflexivity | now rewrite Hx, IH]. Qed.

(** Filtering providers whose records all pass, and none of which is empty,
    changes nothing. *)
Lemma filtered_id (keep : WeatherRecord.t -> bool) (providers : list WeatherProvider.t) :
  Forall (fun p => WeatherProvider.records p <> []
                   /\ Forall (fun r => keep r = true) (WeatherProvider.records p))
    providers ->
  foldl (append_filtered keep) [] providers = providers.
Proof.
  induction 1 as [|p ps [Hne Hall] _ IH]; [reflexivity|].
  rewrite filtered_cons, IH. unfold append_filtered.
  rewrite (filter_all_true keep _ Hall).
  destruct p as [n t o rs]. cbn in *. destruct rs; [contradiction | reflexivity].
Qed.

Lemma filtered_none (keep : WeatherRecord.t -> bool) (providers : list WeatherProvider.t) :
  Forall (fun p => Forall (fun r => keep r = false) (WeatherProvider.records p))
    providers ->
  foldl (append_filtered keep) [] providers = [].
Proof.
  induction 1 as [|p ps Hall _ IH]; [reflexivity|].
  rewrite filtered_cons, IH. unfold append_filtered.
  now rewrite (filter_all_false keep _ Hall).
Qed.

(** The providers a filter leaves: none empty, all records passing. *)
Lemma filtered_providers (keep : WeatherRecord.t -> bool)
    (providers : list WeatherProvider.t) :
  Forall (fun p => WeatherProvider.records p <> []
                   /\ Forall (fun r => keep r = true) (WeatherProvider.records p))
    (foldl (append_filtered keep) [] providers).
Proof.
  induction providers as [|p ps IH]; [constructor|].
  rewrite filtered_cons. apply Forall_app. split; [|exact IH].
  unfold append_filtered.
  destruct (List.filter keep (WeatherProvider.records p)) as [|r rs] eqn:E;
    [constructor|].
  constructor; [|constructor]. cbn [WeatherProvider.records]. split; [discriminate|].
  rewrite <- E. apply Forall_forall. intros x Hin%list_elem_of_In.
  now apply filter_In in Hin as [_ Hx].
Qed.

(** X3. The two filters are idempotent and exclude each other: filtering
    the daily data again for daily records changes nothing, and filtering it
    for hourly records leaves no provider; likewise with the roles
    exchanged. *)
Theorem filters_idempotent_exclusive (weather_data : WeatherData.t) :
  _filter_daily_only (_filter_daily_only weather_data) = _filter_daily_only weather_data
  /\ _filter_hourly_only (_filter_hourly_only weather_data)
     = _filter_hourly_only weather_data
  /\ _filter_hourly_only (_filter_daily_only weather_data) = WeatherData.mk []
  /\ _filter_daily_only (_filter_hourly_only weather_data) = WeatherData.mk [].
Proof.
  unfold _filter_daily_only, _filter_hourly_only. cbn [WeatherData.providers].
  repeat split; f_equal.
  - apply filtered_id, filtered_providers.
  - apply filtered_id, filtered_providers.
  - apply filtered_none. eapply Forall_impl; [apply filtered_providers|].
    intros p [_ Hall]. eapply Forall_impl; [exact Hall|].
    intros r Hr. cbn in Hr. apply py_eq_VStr_r in Hr. now rewrite Hr.
  - apply filtered_none. eapply Forall_impl; [apply filtered_providers|].
    intros p [_ Hall]. eapply Forall_impl; [exact Hall|].
    intros r Hr. cbn in Hr. apply py_eq_VStr_r in Hr. now rewrite Hr.
Qed.

Lemma daily_records_idem (l : list WeatherRecord.t) :
  daily_records (daily_records l) = daily_records l.
Proof.
  unfold daily_records. apply filter_all_true, Forall_forall.
  intros r Hin%list_elem_of_In. now apply filter_In in Hin as [_ H].
Qed.

Lemma hourly_of_daily_records (l : list WeatherRecord.t) :
  hourly_records (daily_records l) = [].
Proof.
  unfold hourly_records, daily_records. apply filter_all_false, Forall_forall.
  intros r Hin%list_elem_of_In. apply filter_In in Hin as [_ H]. now rewrite H.
Qed.

Section export_of_filtered_data.
Variable generate_for_weather_data : WeatherData.t -> result Path.

(** X4. What [get_daily_data] and [get_hourly_data] export when [csv] is
    true. The daily data, exported with the default separation, raises
    [CimisDataError] without touching the file system when the response had
    no daily record, and otherwise writes the one file of the given name in
    daily mode: never a pair of files, never mixed mode. The hourly data,
    exported there with [separate_daily_hourly=False], is written in mixed
    mode, or raises [CimisDataError] when there is no hourly record. *)
Theorem export_of_filtered (weather_data : WeatherData.t) (filename : Path)
    (include_all_columns : bool) (s : fs) :
  export_to_csv generate_for_weather_data (_filter_daily_only weather_data)
    (Some filename) include_all_columns true s
  = match daily_records (WeatherData.get_all_records weather_data) with
    | [] => (s, Raise (mk_exn CimisDataError "No data records to export"))
    | _ :: _ =>
        _export_records_to_csv (_filter_daily_only weather_data)
          (daily_records (WeatherData.get_all_records weather_data)) filename "daily" s
    end
  /\ export_to_csv generate_for_weather_data (_filter_hourly_only weather_data)
       (Some filename) include_all_columns false s
     = match hourly_records (WeatherData.get_all_records weather_data) with
       | [] => (s, Raise (mk_exn CimisDataError "No data records to export"))
       | _ :: _ =>
           _export_records_to_csv (_filter_hourly_only weather_data)
             (hourly_records (WeatherData.get_all_records weather_data)) filename "mixed" s
       end.
Proof.
  assert (Hd : WeatherData.get_all_records (_filter_daily_only weather_data)
               = daily_records (WeatherData.get_all_records weather_data))
    by apply flat_map_records_filtered.
  assert (Hh : WeatherData.get_all_records (_filter_hourly_only weather_data)
               = hourly_records (WeatherData.get_all_records weather_data))
    by (rewrite hourly_records_filter; apply flat_map_records_filtered).
  unfold export_to_csv. rewrite Hd, Hh.
  split.
  - rewrite daily_records_idem, hourly_of_daily_records.
    destruct (daily_records (WeatherData.get_all_records weather_data)); reflexivity.
  - destruct (hourly_records (WeatherData.get_all_records weather_data)); reflexivity.
Qed.
End export_of_filtered_data.

(** * Properties of the projector: the columns and the outcome of an export *)

Lemma item_column_not_Hour (c sfx : string) :
  sfx = "_Value" \/ sfx = "_QC" \/ sfx = "_Unit" -> c ++ sfx <> "Hour".
Proof.
  intros Hs E. apply (f_equal str_last) in E.
  rewrite str_last_app in E by (destruct Hs as [->|[->| ->]]; discriminate).
  destruct Hs as [->|[->| ->]]; discriminate E.
Qed.

Lemma flat_map_item_columns_length (items : list string) :
  length (flat_map item_columns items) = (3 * length items)%nat.
Proof. induction items as [|i items IH]; cbn [flat_map]; [reflexivity|]. rewrite length_app, IH. cbn. lia. Qed.

Lemma data_columns_suffix (scope_type : string) (records : list WeatherRecord.t)
    (column : string) :
  column ∈ data_columns scope_type records ->
  exists c sfx, column = c ++ sfx /\ (sfx = "_Value" \/ sfx = "_QC" \/ sfx = "_Unit").
Proof.
  intros (item & _ & Hc)%elem_of_data_columns. unfold item_columns in Hc.
  rewrite !elem_of_cons, elem_of_nil in Hc.
  destruct Hc as [-> | [-> | [-> | []]]]; eauto 6.
Qed.


(** X5. The header. The nine base columns come first, in their fixed order;
    [Hour] and [DateTime_Full] are columns exactly in hourly and mixed mode
    (no data column can bear these names), so a daily file has neither; and
    there are three data columns for each retained item key. *)
Theorem header_shape (scope_type : string) (records : list WeatherRecord.t) :
  firstn 9 (all_columns scope_type records)
    = ["Provider_Name"; "Provider_Type"; "Date"; "Julian"; "Station";
       "Standard"; "ZipCodes"; "Scope"; "DateTime_Object"]
  /\ ("Hour" ∈ all_columns scope_type records
      <-> scope_type = "hourly" \/ scope_type = "mixed")
  /\ ("DateTime_Full" ∈ all_columns scope_type records
      <-> scope_type = "hourly" \/ scope_type = "mixed")
  /\ length (all_columns scope_type records)
     = ((if String.eqb scope_type "hourly" || String.eqb scope_type "mixed"
         then 11 else 9)
        + 3 * size (filtered_data_items scope_type records))%nat.
Proof.
  assert (Hmode : String.eqb scope_type "hourly" || String.eqb scope_type "mixed" = true
                  <-> scope_type = "hourly" \/ scope_type = "mixed").
  { rewrite orb_true_iff, !String.eqb_eq. tauto. }
  assert (Hin : forall column, column = "Hour" \/ column = "DateTime_Full" ->
            (column ∈ all_columns scope_type records
             <-> scope_type = "hourly" \/ scope_type = "mixed")).
  { intros column Hc. rewrite <- Hmode. unfold all_columns, base_columns.
    rewrite !elem_of_app.
    destruct (String.eqb scope_type "hourly" || String.eqb scope_type "mixed").
    - split; [reflexivity|]. intros _. left. right.
      rewrite !elem_of_cons. tauto.
    - split; [|discriminate]. intros [[H | H] | H].
      + rewrite !elem_of_cons, elem_of_nil in H.
        destruct Hc as [-> | ->]; repeat (destruct H as [H | H]; [discriminate H|]);
          destruct H.
      + now apply elem_of_nil in H.
      + apply data_columns_suffix in H as (c & sfx & -> & Hs). exfalso.
        destruct Hc as [Hc | Hc];
          [now apply (item_column_not_Hour c sfx)
          | now apply (item_column_not_DateTime_Full c sfx)]. }
  split; [reflexivity|]. split; [apply Hin; auto|]. split; [apply Hin; auto|].
  unfold all_columns, base_columns, data_columns.
  rewrite !length_app, flat_map_item_columns_length.
  unfold sorted_data_items. rewrite merge_sort_Permutation.
  change (length (elements (filtered_data_items scope_type records)))
    with (size (filtered_data_items scope_type records)).
  destruct (String.eqb scope_type "hourly" || String.eqb scope_type "mixed"); cbn; lia.
Qed.

(** ** When a row can be built *)

Lemma strptime_raises (v : pyval) (e : exn) :
  datetime.strptime v = Raise e ->
  caught_by ValueError e || caught_by TypeError e = true.
Proof.
  destruct v; cbn [datetime.strptime]; try (intros [= <-]; reflexivity).
  intros H. now rewrite (strptime_ymd_raises _ _ H).
Qed.

(** The second [try] handles everything its body can raise, except the
    [OverflowError] of [replace]. *)
Lemma datetime_full_outcome (record_date record_hour : pyval) :
  if hour_overflows record_date record_hour
  then datetime_full record_date record_hour = raise_ OverflowError
  else exists cell, datetime_full record_date record_hour = Ok (VStr cell).
Proof.
  unfold datetime_full, hour_overflows.
  destruct (py_truthy record_date && py_truthy record_hour); cbn [andb]; [|eauto].
  destruct (datetime.strptime record_date) as [d|e1] eqn:E1; cbn [mbind result_bind].
  2:{ rewrite (strptime_raises _ _ E1). eauto. }
  destruct (py_int (str_take 2 _)) as [h|e2] eqn:E2; cbn [mbind result_bind].
  2:{ rewrite (py_int_raises _ _ E2). eauto. }
  destruct (if (2 <? _)%nat then _ else _) as [m|e3] eqn:E3; cbn [mbind result_bind].
  2:{ destruct (2 <? _)%nat; [|discriminate E3].
      rewrite (py_int_raises _ _ E3). eauto. }
  unfold datetime.replace_hour_minute.
  destruct (datetime.c_int h && datetime.c_int m); cbn [negb mbind result_bind];
    [|reflexivity].
  destruct ((0 <=? h) && (h <=? 23) && (0 <=? m) && (m <=? 59));
    cbn [mbind result_bind]; eauto.
Qed.

(** The first [try] handles [ValueError] only: a date that is true and not
    a [str] makes [strptime] raise [TypeError], which escapes. *)
Lemma datetime_object_outcome (record_date : pyval) :
  text_or_false record_date = true
  /\ (exists cell, datetime_object record_date = Ok (VStr cell))
  \/ text_or_false record_date = false
     /\ datetime_object record_date = raise_ TypeError.
Proof.
  destruct record_date as [|b|n|s|l|d].
  - left. split; [reflexivity|]. cbn. eauto.
  - destruct b; [right | left]; split; try reflexivity. cbn. eauto.
  - unfold datetime_object, text_or_false. cbn [py_truthy].
    destruct (n =? 0); cbn; [left | right]; split; eauto.
  - left. split; [reflexivity | apply datetime_object_str].
  - destruct l; [left | right]; split; try reflexivity. cbn. eauto.
  - destruct d; [left | right]; split; try reflexivity. cbn. eauto.
Qed.

Lemma build_row_outcome (columns items : list string) (provider : WeatherProvider.t)
    (record : WeatherRecord.t) :
  match row_failure columns record with
  | None => exists row, build_row columns items provider record = Ok row
  | Some cls => build_row columns items provider record = raise_ cls
  end.
Proof.
  unfold row_failure, date_is_text, build_row.
  destruct (datetime_object_outcome (WeatherRecord.date record))
    as [[Ht [c Hc]] | [Ht Hc]]; rewrite Ht, Hc; cbn [negb mbind result_bind];
    [|reflexivity].
  destruct (bool_decide ("Hour" ∈ columns)); cbn [andb];
    [|cbn [mbind result_bind]; eauto].
  destruct (bool_decide ("DateTime_Full" ∈ columns)); cbn [andb];
    [|cbn [mbind result_bind]; eauto].
  pose proof (datetime_full_outcome (WeatherRecord.date record)
                (py_or (WeatherRecord.hour record) (VStr ""))) as Hfull.
  destruct (hour_overflows _ _); [now rewrite Hfull|].
  destruct Hfull as [f ->]. cbn [mbind result_bind]. eauto.
Qed.

Lemma first_failure_app (columns : list string) (l1 l2 : list WeatherRecord.t) :
  first_failure columns (l1 ++ l2)
  = match first_failure columns l1 with
    | Some cls => Some cls
    | None => first_failure columns l2
    end.
Proof.
  induction l1 as [|record l1 IH]; [reflexivity|]. cbn [app first_failure].
  now destruct (row_failure columns record).
Qed.



(** ** The row loop *)

Lemma _export_records_to_csv_unfold (weather_data : WeatherData.t)
    (records : list WeatherRecord.t) (filename : Path) (scope_type : string) :
  _export_records_to_csv weather_data records filename scope_type
  = (_ ← mkdir (parent filename);
     _ ← open_w (path_str filename);
     _ ← writeheader (path_str filename) (all_columns scope_type records);
     _ ← write_rows scope_type records (path_str filename) weather_data;
     mret (path_str filename)).
Proof. reflexivity. Qed.

Lemma appended_refl (path : string) (content : csv_rows) (s : fs) :
  files s !! path = Some content -> appended path content [] s s.
Proof. intros H. unfold appended. rewrite app_nil_r. auto. Qed.

Lemma appended_trans (path : string) (content rows1 rows2 : csv_rows) (s s1 s2 : fs) :
  appended path content rows1 s s1 ->
  appended path (content ++ rows1)%list rows2 s1 s2 ->
  appended path content (rows1 ++ rows2)%list s s2.
Proof.
  intros (Hd1 & Hf1 & Ho1) (Hd2 & Hf2 & Ho2). unfold appended.
  rewrite app_assoc. repeat split; [congruence | exact Hf2 |].
  intros q Hq. rewrite Ho2, Ho1; auto.
Qed.

Lemma write_row_appended (path : string) (row : list pyval) (content : csv_rows) (s : fs) :
  files s !! path = Some content ->
  exists s', write_row path row s = (s', Ok ()) /\ appended path content [row] s s'.
Proof.
  intros H.
  assert (Hc : from_option id [] (files s !! path) = content)
    by exact (f_equal (from_option id []) H).
  eexists. split; [reflexivity|].
  unfold appended. cbn [files denied]. repeat split.
  - rewrite lookup_insert_eq. f_equal. f_equal. exact Hc.
  - intros q Hq. now apply lookup_insert_ne.
Qed.

(** One pass of the loop: a record that is not in the list is skipped; one
    whose row is built gets a row as wide as the header; any other ends the
    loop with the exception of its row. *)
Lemma write_record_spec (scope_type : string) (records : list WeatherRecord.t)
    (path : string) (provider : WeatherProvider.t) (record : WeatherRecord.t)
    (content : csv_rows) (s : fs) :
  files s !! path = Some content ->
  (record_in record records = false
   /\ write_record scope_type records path provider record s = (s, Ok ()))
  \/ (record_in record records = true
      /\ row_failure (all_columns scope_type records) record = None
      /\ exists s' row,
           write_record scope_type records path provider record s = (s', Ok ())
           /\ appended path content [row] s s'
           /\ length row = length (all_columns scope_type records))
  \/ (record_in record records = true
      /\ exists cls,
           row_failure (all_columns scope_type records) record = Some cls
           /\ write_record scope_type records path provider record s
              = (s, raise_ cls)).
Proof.
  intros Hfile. unfold write_record.
  destruct (record_in record records); [right | left; auto].
  cbn [negb].
  pose proof (build_row_outcome (all_columns scope_type records)
                (sorted_data_items scope_type records) provider record) as Hbuild.
  destruct (row_failure (all_columns scope_type records) record) as [cls|];
    [right | left].
  - split; [reflexivity|]. exists cls. split; [reflexivity|].
    unfold mbind, io_bind, io_lift. now rewrite Hbuild.
  - destruct Hbuild as [row Hrow].
    split; [reflexivity|]. split; [reflexivity|].
    unfold mbind, io_bind, io_lift. rewrite Hrow. unfold writerow.
    rewrite bool_decide_eq_true_2
      by now apply (build_row_dom scope_type records provider record).
    destruct (write_row_appended path
                (map (fun key => from_option id (VStr "") (row !! key))
                   (all_columns scope_type records)) content s Hfile)
      as (s' & Hw & Happ).
    exists s', (map (fun key => from_option id (VStr "") (row !! key))
                  (all_columns scope_type records)).
    split; [exact Hw|]. split; [exact Happ | apply length_map].
Qed.

(** The loop over a list of records of one provider. *)
Lemma write_records_spec (scope_type : string) (records : list WeatherRecord.t)
    (path : string) (provider : WeatherProvider.t) (l : list WeatherRecord.t) :
  forall (content : csv_rows) (s : fs),
    files s !! path = Some content ->
    exists s' res rows,
      io_for (write_record scope_type records path provider) l s = (s', res)
      /\ appended path content rows s s'
      /\ Forall (fun row => length row = length (all_columns scope_type records)) rows
      /\ match res with
         | Ok _ => length rows = length (included records l)
                   /\ first_failure (all_columns scope_type records)
                        (included records l) = None
         | Raise e => exists cls,
                        e = mk_exn cls ""
                        /\ first_failure (all_columns scope_type records)
                             (included records l) = Some cls
         end.
Proof.
  induction l as [|record l IH]; intros content s Hfile.
  - exists s, (Ok ()), []. split; [reflexivity|].
    split; [now apply appended_refl|]. split; [constructor | split; reflexivity].
  - cbn [io_for]. unfold included in *. cbn [List.filter].
    destruct (write_record_spec scope_type records path provider record content s Hfile)
      as [[Hin Hw] | [(Hin & Ht & s1 & row & Hw & Happ & Hlen)
                     | (Hin & cls & Ht & Hw)]];
      rewrite Hin.
    + destruct (IH content s Hfile) as (s' & res & rows & Hl & Happ & Hwd & Hres).
      exists s', res, rows. split; [|auto].
      unfold mbind, io_bind. now rewrite Hw.
    + destruct (IH (content ++ [row])%list s1 (proj1 (proj2 Happ)))
        as (s' & res & rows & Hl & Happ' & Hwd & Hres).
      exists s', res, (row :: rows). split.
      { unfold mbind, io_bind. now rewrite Hw. }
      split; [exact (appended_trans _ _ _ _ _ _ _ Happ Happ')|].
      split; [now constructor|].
      cbn [first_failure length]. rewrite Ht.
      destruct res; [destruct Hres; split; [lia | assumption] | exact Hres].
    + exists s, (raise_ cls), []. split.
      { unfold mbind, io_bind. now rewrite Hw. }
      split; [now apply appended_refl|]. split; [constructor|].
      cbn [first_failure]. rewrite Ht. exists cls. split; reflexivity.
Qed.

(** The loop over the providers. *)
Lemma write_rows_spec (scope_type : string) (records : list WeatherRecord.t)
    (path : string) (providers : list WeatherProvider.t) :
  forall (content : csv_rows) (s : fs),
    files s !! path = Some content ->
    exists s' res rows,
      write_rows scope_type records path (WeatherData.mk providers) s = (s', res)
      /\ appended path content rows s s'
      /\ Forall (fun row => length row = length (all_columns scope_type records)) rows
      /\ match res with
         | Ok _ =>
             length rows
             = length (included records (flat_map WeatherProvider.records providers))
             /\ first_failure (all_columns scope_type records)
                  (included records (flat_map WeatherProvider.records providers)) = None
         | Raise e =>
             exists cls,
               e = mk_exn cls ""
               /\ first_failure (all_columns scope_type records)
                    (included records (flat_map WeatherProvider.records providers))
                  = Some cls
         end.
Proof.
  unfold write_rows. cbn [WeatherData.providers].
  induction providers as [|p ps IH]; intros content s Hfile.
  - exists s, (Ok ()), []. split; [reflexivity|].
    split; [now apply appended_refl|]. split; [constructor | split; reflexivity].
  - cbn [io_for flat_map]. unfold included in *.
    rewrite List.filter_app, first_failure_app, length_app.
    destruct (write_records_spec scope_type records path p (WeatherProvider.records p)
                content s Hfile) as (s1 & res1 & rows1 & Hl1 & Happ1 & Hw1 & Hres1).
    unfold included in Hres1.
    unfold mbind, io_bind. rewrite Hl1. destruct res1 as [[]|e].
    + destruct Hres1 as [Hn1 Hd1].
      destruct (IH (content ++ rows1)%list s1 (proj1 (proj2 Happ1)))
        as (s' & res & rows & Hl & Happ & Hw & Hres).
      exists s', res, (rows1 ++ rows)%list. split; [exact Hl|].
      split; [exact (appended_trans _ _ _ _ _ _ _ Happ1 Happ)|].
      split; [now apply Forall_app|].
      rewrite Hd1. rewrite length_app.
      destruct res; [destruct Hres; split; [lia | assumption] | exact Hres].
    + destruct Hres1 as (cls & -> & Hd1). exists s1, (Raise (mk_exn cls "")), rows1.
      split; [reflexivity|]. split; [exact Happ1|]. split; [exact Hw1|].
      rewrite Hd1. exists cls. split; reflexivity.
Qed.

(** ** What an export leaves behind *)

Lemma export_denied (weather_data : WeatherData.t) (records : list WeatherRecord.t)
    (filename : Path) (scope_type : string) (s : fs) :
  parent filename ∈ denied s \/ path_str filename ∈ denied s ->
  _export_records_to_csv weather_data records filename scope_type s
  = (s, raise_ OSError).
Proof.
  intros H. rewrite _export_records_to_csv_unfold.
  unfold mbind, io_bind, mkdir, open_w.
  destruct (decide (parent filename ∈ denied s)) as [Hp | Hp].
  - now rewrite bool_decide_eq_true_2.
  - rewrite (bool_decide_eq_false_2 _ Hp).
    destruct H as [H | H]; [contradiction|].
    now rewrite bool_decide_eq_true_2.
Qed.

Lemma export_run (weather_data : WeatherData.t) (records : list WeatherRecord.t)
    (filename : Path) (scope_type : string) (s : fs) :
  parent filename ∉ denied s -> path_str filename ∉ denied s ->
  exists s' res rows,
    _export_records_to_csv weather_data records filename scope_type s = (s', res)
    /\ denied s' = denied s
    /\ files s' !! path_str filename
       = Some (map VStr (all_columns scope_type records) :: rows)
    /\ (forall q, q <> path_str filename -> files s' !! q = files s !! q)
    /\ Forall (fun row => length row = length (all_columns scope_type records)) rows
    /\ match res with
       | Ok r =>
           r = path_str filename
           /\ length rows
              = length (included records (WeatherData.get_all_records weather_data))
           /\ first_failure (all_columns scope_type records)
                (included records (WeatherData.get_all_records weather_data)) = None
       | Raise e =>
           exists cls,
             e = mk_exn cls ""
             /\ first_failure (all_columns scope_type records)
                  (included records (WeatherData.get_all_records weather_data))
                = Some cls
       end.
Proof.
  intros Hp Hf. rewrite _export_records_to_csv_unfold.
  destruct weather_data as [providers].
  set (s0 := mk_fs (<[path_str filename := [map VStr (all_columns scope_type records)]]>
                      (files s)) (denied s)).
  assert (H0 : files s0 !! path_str filename
               = Some [map VStr (all_columns scope_type records)])
    by apply lookup_insert_eq.
  destruct (write_rows_spec scope_type records (path_str filename) providers _ s0 H0)
    as (s' & res & rows & Hrun & (Hd & Hfile & Hother) & Hwide & Hres).
  assert (Hstart : (_ ← mkdir (parent filename);
                    _ ← open_w (path_str filename);
                    writeheader (path_str filename) (all_columns scope_type records)) s
                   = (s0, Ok ())).
  { unfold mbind, io_bind, mkdir, open_w, writeheader, write_row.
    rewrite (bool_decide_eq_false_2 _ Hp), (bool_decide_eq_false_2 _ Hf).
    cbn [files denied]. rewrite lookup_insert_eq. cbn [from_option id app].
    unfold s0. f_equal. f_equal. apply insert_insert_eq. }
  assert (Hothers : forall q, q <> path_str filename -> files s' !! q = files s !! q).
  { intros q Hq. rewrite (Hother q Hq). unfold s0. cbn [files].
    now apply lookup_insert_ne. }
  unfold mbind, io_bind in Hstart |- *.
  destruct (mkdir (parent filename) s) as [s1 [[]|e1]]; [|discriminate].
  destruct (open_w (path_str filename) s1) as [s2 [[]|e2]]; [|discriminate].
  rewrite Hstart, Hrun. unfold WeatherData.get_all_records. cbn [WeatherData.providers].
  destruct res as [[]|e].
  - exists s', (Ok (path_str filename)), rows. destruct Hres as [Hn Hall].
    repeat split; auto.
  - exists s', (Raise e), rows. repeat split; auto.
Qed.

(** X6. A successful export returns the path of the file, which then holds
    the header followed by one row for every record of the data that is in
    the list of records, each row as wide as the header; no other file and
    no permission is touched. *)
Theorem export_success_file (weather_data : WeatherData.t)
    (records : list WeatherRecord.t) (filename : Path) (scope_type : string)
    (s s' : fs) (r : string) :
  _export_records_to_csv weather_data records filename scope_type s = (s', Ok r) ->
  r = path_str filename
  /\ denied s' = denied s
  /\ (forall q, q <> path_str filename -> files s' !! q = files s !! q)
  /\ exists rows,
       files s' !! path_str filename
       = Some (map VStr (all_columns scope_type records) :: rows)
       /\ length rows
          = length (included records (WeatherData.get_all_records weather_data))
       /\ Forall (fun row => length row = length (all_columns scope_type records)) rows.
Proof.
  intros Hrun.
  destruct (decide (parent filename ∈ denied s)) as [Hp | Hp].
  { rewrite export_denied in Hrun by now left. discriminate. }
  destruct (decide (path_str filename ∈ denied s)) as [Hf | Hf].
  { rewrite export_denied in Hrun by now right. discriminate. }
  destruct (export_run weather_data records filename scope_type s Hp Hf)
    as (s1 & res & rows & Hrun1 & Hd & Hfile & Hother & Hwide & Hres).
  rewrite Hrun in Hrun1. injection Hrun1 as <- <-.
  destruct Hres as (-> & Hn & _).
  repeat split; auto. exists rows. auto.
Qed.

Lemma export_success_file_witness :
  "out.csv" = path_str (mk_Path "." "out.csv")
  /\ denied (fst (_export_records_to_csv three_scopes
                    (daily_records (WeatherData.get_all_records three_scopes))
                    (mk_Path "." "out.csv") "daily" empty_fs)) = denied empty_fs
  /\ (forall q, q <> path_str (mk_Path "." "out.csv") ->
        files (fst (_export_records_to_csv three_scopes
                      (daily_records (WeatherData.get_all_records three_scopes))
                      (mk_Path "." "out.csv") "daily" empty_fs)) !! q
        = files empty_fs !! q)
  /\ exists rows,
       files (fst (_export_records_to_csv three_scopes
                     (daily_records (WeatherData.get_all_records three_scopes))
                     (mk_Path "." "out.csv") "daily" empty_fs))
         !! path_str (mk_Path "." "out.csv")
       = Some (map VStr (all_columns "daily"
                           (daily_records (WeatherData.get_all_records three_scopes)))
               :: rows)
       /\ length rows
          = length (included (daily_records (WeatherData.get_all_records three_scopes))
                      (WeatherData.get_all_records three_scopes))
       /\ Forall (fun row => length row
                    = length (all_columns "daily"
                                (daily_records (WeatherData.get_all_records three_scopes))))
            rows.
Proof.
  apply (export_success_file three_scopes
           (daily_records (WeatherData.get_all_records three_scopes))
           (mk_Path "." "out.csv") "daily" empty_fs).
  vm_compute. reflexivity.
Defined.


(** The export of [overflow_hour_record] in hourly mode raises
    [OverflowError], and leaves the file with its header only. *)
Example export_overflow_hour :
  let run := _export_records_to_csv
               (WeatherData.mk [WeatherProvider.mk (VStr "cimis") (VStr "station")
                                  (VStr "") [overflow_hour_record]])
               [overflow_hour_record] (mk_Path "." "out.csv") "hourly" empty_fs in
  snd run = raise_ OverflowError
  /\ files (fst run) !! "out.csv"
     = Some [map VStr (all_columns "hourly" [overflow_hour_record])].
Proof. split; vm_compute; reflexivity. Qed.

(** * Properties of the projector: the cells of a row *)

Lemma str_drop_app (a b : string) : str_drop (String.length a) (a ++ b) = b.
Proof. induction a as [|x a IH]; [now destruct b | exact IH]. Qed.

Lemma str_take_app (a b : string) : str_take (String.length a) (a ++ b) = a.
Proof.
  induction a as [|x a IH]; [now destruct b|].
  change (String x (str_take (String.length a) (a ++ b)) = String x a). now rewrite IH.
Qed.

(** A text that ends in [sfx] has [sfx] as its last characters. *)
Lemma str_app_ends (c sfx n : string) :
  c ++ sfx = n -> str_drop (String.length n - String.length sfx) n = sfx.
Proof.
  intros <-. rewrite str_length_app.
  replace (String.length c + String.length sfx - String.length sfx)%nat
    with (String.length c) by lia.
  apply str_drop_app.
Qed.

Lemma str_app_inv_tail (a b sfx : string) : a ++ sfx = b ++ sfx -> a = b.
Proof.
  intros E. assert (Hlen : String.length a = String.length b).
  { apply (f_equal String.length) in E. rewrite !str_length_app in E. lia. }
  rewrite <- (str_take_app a sfx), <- (str_take_app b sfx), E, Hlen. reflexivity.
Qed.

(** The column of a cleaned name and a suffix gives both back. *)
Lemma item_column_inj (c1 c2 sfx1 sfx2 : string) :
  sfx1 = "_Value" \/ sfx1 = "_QC" \/ sfx1 = "_Unit" ->
  sfx2 = "_Value" \/ sfx2 = "_QC" \/ sfx2 = "_Unit" ->
  c1 ++ sfx1 = c2 ++ sfx2 -> c1 = c2 /\ sfx1 = sfx2.
Proof.
  intros H1 H2 E.
  assert (Hs : sfx1 = sfx2).
  { pose proof (f_equal str_last E) as L.
    destruct H1 as [->|[->| ->]], H2 as [->|[->| ->]];
      rewrite !str_last_app in L by discriminate;
      first [reflexivity | discriminate L]. }
  subst sfx2. split; [|reflexivity]. exact (str_app_inv_tail _ _ _ E).
Qed.

Lemma item_column_not_fixed (c sfx n : string) :
  sfx = "_Value" \/ sfx = "_QC" \/ sfx = "_Unit" -> In n fixed_names ->
  c ++ sfx <> n.
Proof.
  intros Hs Hn E. apply str_app_ends in E.
  unfold fixed_names in Hn. cbn [In] in Hn.
  repeat (destruct Hn as [<- | Hn];
          [destruct Hs as [->|[->| ->]]; vm_compute in E; discriminate E|]).
  destruct Hn.
Qed.

Lemma set_item_cells_fixed (record : WeatherRecord.t) (row : gmap string pyval)
    (item n : string) :
  In n fixed_names -> set_item_cells record row item !! n = row !! n.
Proof.
  intros Hn. unfold set_item_cells.
  destruct (WeatherRecord.data_values record !! item);
    rewrite !lookup_insert_ne by (apply item_column_not_fixed; auto);
    reflexivity.
Qed.

Lemma foldl_set_item_cells_fixed (record : WeatherRecord.t) (items : list string)
    (row : gmap string pyval) (n : string) :
  In n fixed_names -> foldl (set_item_cells record) row items !! n = row !! n.
Proof.
  intros Hn. revert row. induction items as [|item items IH]; intros row; [reflexivity|].
  cbn [foldl]. rewrite IH. now apply set_item_cells_fixed.
Qed.

(** The cells of an item with another cleaned name are not touched. *)
Lemma set_item_cells_other (record : WeatherRecord.t) (row : gmap string pyval)
    (item c sfx : string) :
  sfx = "_Value" \/ sfx = "_QC" \/ sfx = "_Unit" ->
  clean_item_name item <> c ->
  set_item_cells record row item !! (c ++ sfx) = row !! (c ++ sfx).
Proof.
  intros Hs Hc. unfold set_item_cells.
  destruct (WeatherRecord.data_values record !! item);
    rewrite !lookup_insert_ne
      by (intros E; apply item_column_inj in E as [E _]; auto);
    reflexivity.
Qed.

Lemma set_item_cells_own (record : WeatherRecord.t) (row : gmap string pyval)
    (item sfx : string) :
  sfx = "_Value" \/ sfx = "_QC" \/ sfx = "_Unit" ->
  set_item_cells record row item !! (clean_item_name item ++ sfx)
  = Some (item_cell record item sfx).
Proof.
  intros Hs. unfold set_item_cells, item_cell.
  destruct (column_names_distinct (clean_item_name item)) as (H1 & H2 & H3).
  destruct (WeatherRecord.data_values record !! item);
    destruct Hs as [->|[->| ->]]; cbn [String.eqb Ascii.eqb Bool.eqb];
    first [ now rewrite lookup_insert_eq
          | rewrite lookup_insert_ne, lookup_insert_eq by congruence; reflexivity
          | rewrite lookup_insert_ne, lookup_insert_ne, lookup_insert_eq by congruence;
            reflexivity ].
Qed.

Lemma foldl_set_item_cells_own (record : WeatherRecord.t) (items : list string)
    (item sfx : string) :
  sfx = "_Value" \/ sfx = "_QC" \/ sfx = "_Unit" ->
  (forall other, other ∈ items ->
     clean_item_name other = clean_item_name item -> other = item) ->
  item ∈ items ->
  forall row,
    foldl (set_item_cells record) row items !! (clean_item_name item ++ sfx)
    = Some (item_cell record item sfx).
Proof.
  intros Hs. induction items as [|x items IH] using rev_ind; intros Huniq Hin row.
  - now apply elem_of_nil in Hin.
  - rewrite foldl_app. cbn [foldl].
    destruct (decide (x = item)) as [-> | Hx].
    + now apply set_item_cells_own.
    + rewrite set_item_cells_other; auto.
      * apply IH.
        -- intros other Ho. apply Huniq. apply elem_of_app. now left.
        -- apply elem_of_app in Hin as [Hin | Hin]; [exact Hin|].
           apply list_elem_of_singleton in Hin. congruence.
      * intros E. apply Hx. apply Huniq; [|exact E].
        apply elem_of_app. right. now apply list_elem_of_singleton.
Qed.

(** X7. The data cells of a row. For a retained item key whose cleaned name
    no other retained key shares, the row of a record holds under
    [<name>_Value] the item's value, or [''] when that value is false (such
    as [None], [0] or ['']), under [<name>_QC] and [<name>_Unit] its flag
    and unit; all three are [''] when the record has no such item. *)
Theorem item_cells_of_row (scope_type : string) (records : list WeatherRecord.t)
    (provider : WeatherProvider.t) (record : WeatherRecord.t)
    (row : gmap string pyval) (item : string) :
  build_row (all_columns scope_type records) (sorted_data_items scope_type records)
    provider record = Ok row ->
  item ∈ filtered_data_items scope_type records ->
  (forall other, other ∈ filtered_data_items scope_type records ->
     clean_item_name other = clean_item_name item -> other = item) ->
  match WeatherRecord.data_values record !! item with
  | Some data_value =>
      row !! (clean_item_name item ++ "_Value")
        = Some (py_or (DataValue.value data_value) (VStr ""))
      /\ row !! (clean_item_name item ++ "_QC") = Some (DataValue.qc data_value)
      /\ row !! (clean_item_name item ++ "_Unit") = Some (DataValue.unit data_value)
  | None =>
      row !! (clean_item_name item ++ "_Value") = Some (VStr "")
      /\ row !! (clean_item_name item ++ "_QC") = Some (VStr "")
      /\ row !! (clean_item_name item ++ "_Unit") = Some (VStr "")
  end.
Proof.
  intros Hrow Hin Huniq.
  apply build_row_cells in Hrow as [row0 ->].
  assert (Hcell : forall sfx, sfx = "_Value" \/ sfx = "_QC" \/ sfx = "_Unit" ->
            foldl (set_item_cells record) row0 (sorted_data_items scope_type records)
              !! (clean_item_name item ++ sfx) = Some (item_cell record item sfx)).
  { intros sfx Hs. apply foldl_set_item_cells_own; [exact Hs | |].
    - intros other Ho. apply Huniq. now apply elem_of_sorted_data_items.
    - now apply elem_of_sorted_data_items. }
  pose proof (Hcell "_Value" (or_introl eq_refl)) as Hv.
  pose proof (Hcell "_QC" (or_intror (or_introl eq_refl))) as Hq.
  pose proof (Hcell "_Unit" (or_intror (or_intror eq_refl))) as Hu.
  unfold item_cell in Hv, Hq, Hu.
  destruct (WeatherRecord.data_values record !! item); auto.
Qed.

Lemma item_cells_of_row_witness :
  match WeatherRecord.data_values daily_record !! "DayAirTmpAvg" with
  | Some data_value =>
      match build_row (all_columns "daily" [daily_record])
              (sorted_data_items "daily" [daily_record]) sample_provider daily_record with
      | Ok row => row
      | Raise _ => ∅
      end !! (clean_item_name "DayAirTmpAvg" ++ "_Value")
        = Some (py_or (DataValue.value data_value) (VStr ""))
      /\ match build_row (all_columns "daily" [daily_record])
                 (sorted_data_items "daily" [daily_record]) sample_provider daily_record with
         | Ok row => row
         | Raise _ => ∅
         end !! (clean_item_name "DayAirTmpAvg" ++ "_QC") = Some (DataValue.qc data_value)
      /\ match build_row (all_columns "daily" [daily_record])
                 (sorted_data_items "daily" [daily_record]) sample_provider daily_record with
         | Ok row => row
         | Raise _ => ∅
         end !! (clean_item_name "DayAirTmpAvg" ++ "_Unit") = Some (DataValue.unit data_value)
  | None => True
  end.
Proof.
  pose proof (item_cells_of_row "daily" [daily_record] sample_provider daily_record
                (match build_row (all_columns "daily" [daily_record])
                         (sorted_data_items "daily" [daily_record])
                         sample_provider daily_record with
                 | Ok row => row
                 | Raise _ => ∅
                 end) "DayAirTmpAvg") as H.
  destruct (WeatherRecord.data_values daily_record !! "DayAirTmpAvg") eqn:E;
    [|exact I].
  apply H.
  - vm_compute. reflexivity.
  - apply elem_of_filtered_data_items. split; [|reflexivity].
    apply elem_of_all_data_items. exists daily_record. split; [now left|].
    apply elem_of_dom. rewrite E. eauto.
  - intros other Ho _. apply elem_of_filtered_data_items in Ho as [Ho _].
    apply elem_of_all_data_items in Ho as (r & [<- | []] & Hr).
    apply elem_of_dom in Hr as [v Hr]. unfold daily_record in Hr.
    cbn [WeatherRecord.data_values] in Hr.
    apply lookup_singleton_Some in Hr as [<- _]. reflexivity.
Defined.

(** X9. The fixed cells of a row. However the data items are named, the
    row of a record holds the provider's name and type, the record's date,
    Julian day, standard, ZIP codes and scope as they are, the station or
    [''] when it is false, and under [DateTime_Object] the cell computed
    from the date; [Hour] holds the hour, or [''] when it is false, exactly
    when it is a column. *)
Theorem fixed_cells_of_row (columns items : list string)
    (provider : WeatherProvider.t) (record : WeatherRecord.t)
    (row : gmap string pyval) :
  build_row columns items provider record = Ok row ->
  row !! "Provider_Name" = Some (WeatherProvider.name provider)
  /\ row !! "Provider_Type" = Some (WeatherProvider.type provider)
  /\ row !! "Date" = Some (WeatherRecord.date record)
  /\ row !! "Julian" = Some (WeatherRecord.julian record)
  /\ row !! "Station" = Some (py_or (WeatherRecord.station record) (VStr ""))
  /\ row !! "Standard" = Some (WeatherRecord.standard record)
  /\ row !! "ZipCodes" = Some (WeatherRecord.zip_codes record)
  /\ row !! "Scope" = Some (WeatherRecord.scope record)
  /\ Some <$> datetime_object (WeatherRecord.date record)
     = Ok (row !! "DateTime_Object")
  /\ row !! "Hour"
     = (if bool_decide ("Hour" ∈ columns)
        then Some (py_or (WeatherRecord.hour record) (VStr "")) else None).
Proof.
  unfold build_row. intros H.
  apply bind_Ok in H as (dt & Hdt & H). apply bind_Ok in H as (row0 & Hrow0 & [= <-]).
  rewrite Hdt.
  assert (Hfixed : forall n, In n fixed_names ->
            foldl (set_item_cells record) row0 items !! n = row0 !! n)
    by (intros n Hn; now apply foldl_set_item_cells_fixed).
  assert (Hrow : forall n, In n fixed_names -> n <> "Hour" ->
            row0 !! n
            = (<["DateTime_Object" := dt]>
                 (<["Scope" := WeatherRecord.scope record]>
                    (<["ZipCodes" := WeatherRecord.zip_codes record]>
                       (<["Standard" := WeatherRecord.standard record]>
                          (<["Station" := py_or (WeatherRecord.station record) (VStr "")]>
                             (<["Julian" := WeatherRecord.julian record]>
                                (<["Date" := WeatherRecord.date record]>
                                   (<["Provider_Type" := WeatherProvider.type provider]>
                                      (<["Provider_Name" := WeatherProvider.name provider]>
                                         (∅ : gmap string pyval)))))))))) !! n).
  { intros n Hn Hne.
    destruct (bool_decide ("Hour" ∈ columns)).
    - destruct (bool_decide ("DateTime_Full" ∈ columns)).
      + apply bind_Ok in Hrow0 as (full & _ & [= <-]).
        rewrite lookup_insert_ne, lookup_insert_ne; [reflexivity | congruence |].
        intros <-. unfold fixed_names in Hn. cbn [In] in Hn.
        repeat (destruct Hn as [Hn | Hn]; [discriminate Hn|]). destruct Hn.
      + injection Hrow0 as <-. rewrite lookup_insert_ne by congruence. reflexivity.
    - injection Hrow0 as <-. reflexivity. }
  assert (Hhour : row0 !! "Hour"
                  = if bool_decide ("Hour" ∈ columns)
                    then Some (py_or (WeatherRecord.hour record) (VStr "")) else None).
  { destruct (bool_decide ("Hour" ∈ columns)).
    - destruct (bool_decide ("DateTime_Full" ∈ columns)).
      + apply bind_Ok in Hrow0 as (full & _ & [= <-]).
        rewrite lookup_insert_ne by discriminate. now rewrite lookup_insert_eq.
      + injection Hrow0 as <-. now rewrite lookup_insert_eq.
    - injection Hrow0 as <-. reflexivity. }
  repeat split;
    try (rewrite Hfixed, Hrow by (first [discriminate | unfold fixed_names; cbn [In]; tauto]);
         reflexivity).
  rewrite Hfixed by (unfold fixed_names; cbn [In]; tauto). exact Hhour.
Qed.

Lemma fixed_cells_of_row_witness :
  colliding_row !! "Provider_Name" = Some (WeatherProvider.name sample_provider)
  /\ colliding_row !! "Provider_Type" = Some (WeatherProvider.type sample_provider)
  /\ colliding_row !! "Date" = Some (WeatherRecord.date colliding_record)
  /\ colliding_row !! "Julian" = Some (WeatherRecord.julian colliding_record)
  /\ colliding_row !! "Station"
     = Some (py_or (WeatherRecord.station colliding_record) (VStr ""))
  /\ colliding_row !! "Standard" = Some (WeatherRecord.standard colliding_record)
  /\ colliding_row !! "ZipCodes" = Some (WeatherRecord.zip_codes colliding_record)
  /\ colliding_row !! "Scope" = Some (WeatherRecord.scope colliding_record)
  /\ Some <$> datetime_object (WeatherRecord.date colliding_record)
     = Ok (colliding_row !! "DateTime_Object")
  /\ colliding_row !! "Hour"
     = (if bool_decide ("Hour" ∈ all_columns "mixed" [colliding_record])
        then Some (py_or (WeatherRecord.hour colliding_record) (VStr "")) else None).
Proof.
  apply (fixed_cells_of_row (all_columns "mixed" [colliding_record])
           (sorted_data_items "mixed" [colliding_record]) sample_provider colliding_record).
  vm_compute. reflexivity.
Defined.

(** * Properties of the station and ZIP-code parsers *)

(** A loop whose body either returns [f x] or raises [e]. *)
Lemma for_each_all_or_raise {A B : Type} (body : A -> result B) (ok : A -> bool)
    (f : A -> B) (e : exn) (l : list A) :
  (forall x, body x = if ok x then Ok (f x) else Raise e) ->
  for_each body l = if forallb ok l then Ok (map f l) else Raise e.
Proof.
  intros Hbody. induction l as [|x l IH]; [reflexivity|].
  cbn [for_each forallb map]. rewrite Hbody, IH.
  destruct (ok x); [|reflexivity]. cbn. now destruct (forallb ok l).
Qed.

Lemma lower_char_true (c : ascii) :
  (lower_char c = "t"%char <-> c = "t"%char \/ c = "T"%char)
  /\ (lower_char c = "r"%char <-> c = "r"%char \/ c = "R"%char)
  /\ (lower_char c = "u"%char <-> c = "u"%char \/ c = "U"%char)
  /\ (lower_char c = "e"%char <-> c = "e"%char \/ c = "E"%char).
Proof.
  destruct c as [[] [] [] [] [] [] [] []]; vm_compute;
    repeat split; intros H; try discriminate H; auto;
    destruct H as [H | H]; discriminate H.
Qed.

(** The texts that [lower] turns into ['true']. *)
Lemma str_lower_true (s : string) :
  str_lower s = "true" <->
  exists a b c e, s = String a (String b (String c (String e "")))
    /\ (a = "t" \/ a = "T")%char /\ (b = "r" \/ b = "R")%char
    /\ (c = "u" \/ c = "U")%char /\ (e = "e" \/ e = "E")%char.
Proof.
  split.
  - destruct s as [|a [|b [|c [|e [|x s]]]]]; try discriminate.
    cbn [str_lower]. intros [= Ha Hb Hc He]. exists a, b, c, e.
    split; [reflexivity|].
    apply (proj1 (lower_char_true a)) in Ha.
    apply (proj1 (proj2 (lower_char_true b))) in Hb.
    apply (proj1 (proj2 (proj2 (lower_char_true c)))) in Hc.
    apply (proj2 (proj2 (proj2 (lower_char_true e)))) in He. auto.
  - intros (a & b & c & e & -> & Ha & Hb & Hc & He). cbn [str_lower].
    apply (proj1 (lower_char_true a)) in Ha.
    apply (proj1 (proj2 (lower_char_true b))) in Hb.
    apply (proj1 (proj2 (proj2 (lower_char_true c)))) in Hc.
    apply (proj2 (proj2 (proj2 (lower_char_true e)))) in He.
    now rewrite Ha, Hb, Hc, He.
Qed.

Lemma flag_dict (d : list (string * pyval)) (key : string) :
  flag (VDict d) key
  = match dict_get key d with
    | None => Ok true
    | Some (VStr s) => Ok (String.eqb (str_lower s) "true")
    | Some _ => raise_ AttributeError
    end.
Proof.
  unfold flag. cbn [py_get mbind result_bind].
  destruct (dict_get key d) as [[]|]; reflexivity.
Qed.

Lemma flag_not_dict (v : pyval) (key : string) :
  (forall d, v <> VDict d) -> flag v key = raise_ AttributeError.
Proof. intros H. destruct v; try reflexivity. now destruct (H d). Qed.

(** X10. A flag of a response object ([IsActive], [IsEtoStation]) is read
    as true exactly when the key is absent or holds one of the spellings of
    ['true'] in any mix of cases; any other text is read as false; and a
    value that is no [str], such as the JSON [true], raises
    [AttributeError]. *)
Theorem flag_outcome (d : list (string * pyval)) (key : string) :
  (flag (VDict d) key = Ok true <->
   dict_get key d = None
   \/ exists a b c e,
        dict_get key d = Some (VStr (String a (String b (String c (String e "")))))
        /\ (a = "t" \/ a = "T")%char /\ (b = "r" \/ b = "R")%char
        /\ (c = "u" \/ c = "U")%char /\ (e = "e" \/ e = "E")%char)
  /\ ((exists b, flag (VDict d) key = Ok b) <->
      dict_get key d = None \/ exists s, dict_get key d = Some (VStr s))
  /\ (flag (VDict d) key = raise_ AttributeError <->
      exists v, dict_get key d = Some v /\ forall s, v <> VStr s).
Proof.
  rewrite flag_dict. split; [|split].
  - destruct (dict_get key d) as [v|]; [|split; auto].
    split.
    + intros H. right. destruct v; try discriminate H.
      injection H as H. apply String.eqb_eq, str_lower_true in H
        as (a & b & c & e & -> & H). exists a, b, c, e. auto.
    + intros [H | (a & b & c & e & [= ->] & H)]; [discriminate H|].
      f_equal. apply String.eqb_eq, str_lower_true. exists a, b, c, e. auto.
  - destruct (dict_get key d) as [[]|]; split;
      try (intros [? H]; discriminate H);
      try (intros [H | [? H]]; discriminate H); eauto.
  - destruct (dict_get key d) as [v|].
    + destruct v; split; try discriminate; try reflexivity;
        try (intros _; eexists; split; [reflexivity | discriminate]).
      intros (v & [= <-] & H). now destruct (H s).
    + split; [discriminate|]. intros (v & H & _). discriminate H.
Qed.

Lemma flag_of_text (keys : list string) (d : list (string * pyval)) (key : string) :
  text_flags keys (VDict d) = true -> In key keys ->
  flag (VDict d) key = Ok (flag_of d key).
Proof.
  cbn [text_flags]. rewrite forallb_forall. intros H Hin. specialize (H key Hin).
  rewrite flag_dict. unfold flag_of.
  destruct (dict_get key d) as [[]|]; first [reflexivity | discriminate H].
Qed.

Lemma flag_not_text (d : list (string * pyval)) (key : string) :
  text_flags [key] (VDict d) = false -> flag (VDict d) key = raise_ AttributeError.
Proof.
  cbn [text_flags forallb]. rewrite flag_dict.
  destruct (dict_get key d) as [[]|]; first [reflexivity | discriminate].
Qed.

Lemma parse_station_outcome (item : pyval) :
  parse_station item
  = if text_flags ["IsActive"; "IsEtoStation"] item then Ok (station_of item)
    else raise_ AttributeError.
Proof.
  destruct item as [| | | | |d]; try reflexivity.
  unfold parse_station. cbn [py_get mbind result_bind].
  destruct (text_flags ["IsActive"; "IsEtoStation"] (VDict d)) eqn:E.
  - rewrite (flag_of_text ["IsActive"; "IsEtoStation"] d "IsActive") by (auto; cbn; auto).
    rewrite (flag_of_text ["IsActive"; "IsEtoStation"] d "IsEtoStation")
      by (auto; cbn; auto).
    reflexivity.
  - cbn [text_flags forallb] in E. rewrite andb_true_r in E.
    apply andb_false_iff in E as [E | E].
    + rewrite (flag_not_text d "IsActive")
        by (cbn [text_flags forallb]; now rewrite andb_true_r).
      reflexivity.
    + rewrite (flag_not_text d "IsEtoStation")
        by (cbn [text_flags forallb]; now rewrite andb_true_r).
      rewrite flag_dict.
      destruct (dict_get "IsActive" d) as [[]|]; reflexivity.
Qed.

Lemma parse_zip_code_outcome (item : pyval) :
  parse_zip_code item
  = if text_flags ["IsActive"] item then Ok (zip_code_of item)
    else raise_ AttributeError.
Proof.
  destruct item as [| | | | |d]; try reflexivity.
  unfold parse_zip_code. cbn [py_get mbind result_bind].
  destruct (text_flags ["IsActive"] (VDict d)) eqn:E.
  - rewrite (flag_of_text ["IsActive"] d "IsActive") by (auto; cbn; auto). reflexivity.
  - now rewrite (flag_not_text d "IsActive").
Qed.

Lemma parse_spatial_zip_code_outcome (item : pyval) :
  parse_spatial_zip_code item
  = if text_flags ["IsActive"] item then Ok (spatial_zip_code_of item)
    else raise_ AttributeError.
Proof.
  destruct item as [| | | | |d]; try reflexivity.
  unfold parse_spatial_zip_code. cbn [py_get mbind result_bind].
  destruct (text_flags ["IsActive"] (VDict d)) eqn:E.
  - rewrite (flag_of_text ["IsActive"] d "IsActive") by (auto; cbn; auto). reflexivity.
  - now rewrite (flag_not_text d "IsActive").
Qed.

Lemma py_iter_raises (v : pyval) (e : exn) :
  py_iter v = Raise e -> e = mk_exn TypeError "".
Proof. destruct v; cbn; intros [= <-]; reflexivity. Qed.

(** X11. The stations of a response. Without the key [Stations] the list
    is empty. Otherwise the value is iterated ([TypeError] when it cannot
    be), and there is one station for each element, in order, with the
    defaults for the missing keys, provided that every element is an object
    whose [IsActive] and [IsEtoStation] are absent or [str]; if one element
    is not, [AttributeError] is raised and no station is returned. A
    response that is no object raises [AttributeError]. *)
Theorem parse_stations_response_outcome (d : list (string * pyval)) :
  parse_stations_response (VDict d)
  = match dict_get "Stations" d with
    | None => Ok []
    | Some v =>
        match py_iter v with
        | Ok items =>
            if forallb (text_flags ["IsActive"; "IsEtoStation"]) items
            then Ok (map station_of items) else raise_ AttributeError
        | Raise _ => raise_ TypeError
        end
    end
  /\ (forall v, (forall d', v <> VDict d') ->
        parse_stations_response v = raise_ AttributeError).
Proof.
  split.
  - unfold parse_stations_response. cbn [py_get mbind result_bind].
    destruct (dict_get "Stations" d) as [v|]; [|reflexivity].
    cbn [from_option id]. destruct (py_iter v) as [items|e] eqn:E.
    + apply for_each_all_or_raise. apply parse_station_outcome.
    + now rewrite (py_iter_raises v e E).
  - intros v Hv. destruct v; try reflexivity. now destruct (Hv d0).
Qed.

(** X12. The ZIP codes of a response. Whenever the parser returns, its
    result has one entry for each element of the [ZipCodes] array, in
    order, and the [station_nbr] of every entry is a [str]: the text of the
    value under [StationNbr] (a number is written out), or [''] when the
    key is missing. *)
Theorem parse_zip_codes_station_nbr (data : pyval) (zip_codes : list ZipCode.t) :
  parse_zip_codes_response data = Ok zip_codes ->
  exists d items,
    data = VDict d
    /\ py_iter (from_option id (VList []) (dict_get "ZipCodes" d)) = Ok items
    /\ Forall2 (fun item zip_code =>
          exists fields,
            item = VDict fields
            /\ ZipCode.station_nbr zip_code
               = VStr (py_str (from_option id (VStr "") (dict_get "StationNbr" fields)))
            /\ ZipCode.zip_code zip_code
               = from_option id (VStr "") (dict_get "ZipCode" fields)
            /\ ZipCode.is_active zip_code = flag_of fields "IsActive")
         items zip_codes
    /\ Forall (fun zip_code => exists s, ZipCode.station_nbr zip_code = VStr s) zip_codes.
Proof.
  unfold parse_zip_codes_response. intros H.
  destruct data as [| | | | |d]; try discriminate H.
  cbn [py_get mbind result_bind] in H.
  destruct (py_iter (from_option id (VList []) (dict_get "ZipCodes" d)))
    as [items|e] eqn:E; [|discriminate H].
  exists d, items. split; [reflexivity|]. split; [exact E|].
  cbn [mbind result_bind] in H.
  rewrite (for_each_all_or_raise parse_zip_code (text_flags ["IsActive"]) zip_code_of
             (mk_exn AttributeError "") items parse_zip_code_outcome) in H.
  destruct (forallb (text_flags ["IsActive"]) items) eqn:Hall; [|discriminate H].
  injection H as <-. rewrite forallb_forall in Hall.
  assert (Hitems : forall item, In item items -> text_flags ["IsActive"] item = true)
    by exact Hall.
  clear Hall E. induction items as [|item items IH]; cbn [map].
  - split; constructor.
  - destruct IH as [IH1 IH2]; [intros i Hi; apply Hitems; now right|].
    pose proof (Hitems item (or_introl eq_refl)) as Hitem.
    destruct item as [| | | | |fields]; try discriminate Hitem.
    split; constructor; auto.
    + exists fields. repeat split; reflexivity.
    + cbn [zip_code_of ZipCode.station_nbr]. eauto.
Qed.

Lemma parse_zip_codes_station_nbr_witness :
  exists d items,
    sample_zip_codes = VDict d
    /\ py_iter (from_option id (VList []) (dict_get "ZipCodes" d)) = Ok items
    /\ Forall2 (fun item zip_code =>
          exists fields,
            item = VDict fields
            /\ ZipCode.station_nbr zip_code
               = VStr (py_str (from_option id (VStr "") (dict_get "StationNbr" fields)))
            /\ ZipCode.zip_code zip_code
               = from_option id (VStr "") (dict_get "ZipCode" fields)
            /\ ZipCode.is_active zip_code = flag_of fields "IsActive")
         items
         [ZipCode.mk (VStr "93624") (VStr "2") (VStr "") (VStr "") true;
          ZipCode.mk (VStr "95616") (VStr "") (VStr "") (VStr "") false]
    /\ Forall (fun zip_code => exists s, ZipCode.station_nbr zip_code = VStr s)
         [ZipCode.mk (VStr "93624") (VStr "2") (VStr "") (VStr "") true;
          ZipCode.mk (VStr "95616") (VStr "") (VStr "") (VStr "") false].
Proof.
  apply (parse_zip_codes_station_nbr sample_zip_codes).
  vm_compute. reflexivity.
Defined.

(** X13. The two ZIP-code parsers read the same array [ZipCodes] and fail
    on the same responses: one returns exactly when the other does, and
    then their results have the same length and, entry by entry, the same
    ZIP code and the same [is_active]. *)
Theorem zip_code_parsers_agree (data : pyval) :
  match parse_zip_codes_response data, parse_spatial_zip_codes_response data with
  | Ok zip_codes, Ok spatial =>
      Forall2 (fun z s => ZipCode.zip_code z = SpatialZipCode.zip_code s
                          /\ ZipCode.is_active z = SpatialZipCode.is_active s
                          /\ ZipCode.connect_date z = SpatialZipCode.connect_date s
                          /\ ZipCode.disconnect_date z = SpatialZipCode.disconnect_date s)
        zip_codes spatial
  | Raise e, Raise e' => e = e'
  | _, _ => False
  end.
Proof.
  unfold parse_zip_codes_response, parse_spatial_zip_codes_response.
  destruct data as [| | | | |d]; try reflexivity.
  cbn [py_get mbind result_bind].
  destruct (py_iter (from_option id (VList []) (dict_get "ZipCodes" d)))
    as [items|e]; [|reflexivity].
  cbn [mbind result_bind].
  rewrite (for_each_all_or_raise parse_zip_code (text_flags ["IsActive"]) zip_code_of
             (mk_exn AttributeError "") items parse_zip_code_outcome).
  rewrite (for_each_all_or_raise parse_spatial_zip_code (text_flags ["IsActive"])
             spatial_zip_code_of (mk_exn AttributeError "") items
             parse_spatial_zip_code_outcome).
  destruct (forallb (text_flags ["IsActive"]) items) eqn:Hall; [|reflexivity].
  rewrite forallb_forall in Hall.
  induction items as [|item items IH]; cbn [map]; constructor.
  - pose proof (Hall item (or_introl eq_refl)) as Hitem.
    destruct item; try discriminate Hitem. repeat split; reflexivity.
  - apply IH. intros i Hi. apply Hall. now right.
Qed.

(** * Properties of the endpoint table *)

Lemma str_app_nil_r (s : string) : s ++ "" = s.
Proof.
  induction s as [|c s IH]; [reflexivity|].
  change (String c (s ++ "") = String c s). now rewrite IH.
Qed.

Lemma prefix_app (a b : string) : String.prefix a (a ++ b) = true.
Proof.
  induction a as [|c a IH]; [now destruct b|].
  change (String c a ++ b) with (String c (a ++ b)). cbn [String.prefix].
  now destruct (ascii_dec c c).
Qed.

(** Inside a field, the name is read up to the closing brace. *)
Lemma format_fields_name (kwargs : gmap string pyval) (name rest : string) :
  has_char "}" name = false ->
  forall acc,
    format_fields kwargs (Some acc) (name ++ String "}" rest)
    = match kwargs !! (acc ++ name) with
      | Some v => tail ← format_fields kwargs None rest; Ok (py_str v ++ tail)
      | None => raise_ KeyError
      end.
Proof.
  induction name as [|c name IH]; intros Hname acc.
  - rewrite str_app_nil_r. reflexivity.
  - cbn [has_char] in Hname. apply orb_false_iff in Hname as [Hc Hname].
    change (String c name ++ String "}" rest)
      with (String c (name ++ String "}" rest)).
    cbn [format_fields]. rewrite Ascii.eqb_sym, Hc, (IH Hname).
    now rewrite str_app_assoc.
Qed.

(** Text without braces is copied. *)
Lemma format_fields_text (kwargs : gmap string pyval) (text rest : string) :
  has_char "{" text = false -> has_char "}" text = false ->
  format_fields kwargs None (text ++ rest)
  = tail ← format_fields kwargs None rest; Ok (text ++ tail).
Proof.
  induction text as [|c text IH]; intros Ho Hc.
  - change ("" ++ rest) with rest. now destruct (format_fields kwargs None rest).
  - cbn [has_char] in Ho, Hc.
    apply orb_false_iff in Ho as [Ho1 Ho], Hc as [Hc1 Hc].
    change (String c text ++ rest) with (String c (text ++ rest)).
    cbn [format_fields]. rewrite Ascii.eqb_sym, Ho1, Ascii.eqb_sym, Hc1, (IH Ho Hc).
    now destruct (format_fields kwargs None rest).
Qed.

(** A template [text{name}]: the text, then the argument [name]. *)
Lemma format_fields_one (kwargs : gmap string pyval) (text name : string) :
  has_char "{" text = false -> has_char "}" text = false ->
  has_char "}" name = false ->
  format_fields kwargs None (text ++ String "{" (name ++ String "}" ""))
  = match kwargs !! name with
    | Some v => Ok (text ++ py_str v)
    | None => raise_ KeyError
    end.
Proof.
  intros Ho Hc Hn. rewrite (format_fields_text kwargs text _ Ho Hc).
  cbn [format_fields Ascii.eqb Bool.eqb]. rewrite (format_fields_name kwargs name "" Hn "").
  change ("" ++ name) with name.
  destruct (kwargs !! name) as [v|]; [|reflexivity].
  cbn [format_fields mbind result_bind].
  now rewrite str_app_nil_r.
Qed.

(** An endpoint whose template is a text followed by one field. *)
Lemma get_url_field (kwargs : gmap string pyval) (key text name : string) :
  dict_get key ENDPOINTS = Some (text ++ String "{" (name ++ String "}" "")) ->
  has_char "{" text = false -> has_char "}" text = false ->
  has_char "}" name = false -> text <> "" ->
  get_url (VStr key) kwargs
  = match kwargs !! name with
    | Some v => Ok (BASE_URL ++ "/" ++ text ++ py_str v)
    | None => raise_ KeyError
    end.
Proof.
  intros Hk Ho Hc Hn Ht. unfold get_url. cbn [endpoints_get mbind result_bind].
  rewrite Hk. destruct text as [|c text]; [congruence|].
  change (String c text ++ String "{" (name ++ String "}" ""))
    with (String c (text ++ String "{" (name ++ String "}" ""))).
  cbn [String.eqb].
  change (String c (text ++ String "{" (name ++ String "}" "")))
    with (String c text ++ String "{" (name ++ String "}" "")).
  rewrite (format_fields_one kwargs (String c text) name Ho Hc Hn).
  now destruct (kwargs !! name).
Qed.

(** X14. The URL of an endpoint. A name that is no key of the table raises
    [ValueError] with the name in the message. The four endpoints without
    a field give their fixed URL whatever keyword arguments are passed.
    The three endpoints with a field give the URL ending in the text of
    the argument, and raise [KeyError] when that argument is not passed.
    Every URL returned starts with the base URL and a slash. *)
Theorem get_url_outcome (kwargs : gmap string pyval) :
  (forall key, dict_get key ENDPOINTS = None ->
     get_url (VStr key) kwargs
     = Raise (mk_exn ValueError ("Unknown endpoint: " ++ key)))
  /\ get_url (VStr "data") kwargs = Ok (BASE_URL ++ "/data")
  /\ get_url (VStr "stations") kwargs = Ok (BASE_URL ++ "/station")
  /\ get_url (VStr "zip_codes") kwargs = Ok (BASE_URL ++ "/stationzipcode")
  /\ get_url (VStr "spatial_zip_codes") kwargs = Ok (BASE_URL ++ "/spatialzipcode")
  /\ get_url (VStr "station") kwargs
     = match kwargs !! "station_id" with
       | Some v => Ok (BASE_URL ++ "/station/" ++ py_str v)
       | None => raise_ KeyError
       end
  /\ get_url (VStr "zip_code") kwargs
     = match kwargs !! "zip_code" with
       | Some v => Ok (BASE_URL ++ "/stationzipcode/" ++ py_str v)
       | None => raise_ KeyError
       end
  /\ get_url (VStr "spatial_zip_code") kwargs
     = match kwargs !! "zip_code" with
       | Some v => Ok (BASE_URL ++ "/spatialzipcode/" ++ py_str v)
       | None => raise_ KeyError
       end
  /\ (forall endpoint url, get_url endpoint kwargs = Ok url ->
        String.prefix (BASE_URL ++ "/") url = true).
Proof.
  repeat split.
  - intros key Hk. unfold get_url. cbn [endpoints_get mbind result_bind]. now rewrite Hk.
  - exact (get_url_field kwargs "station" "station/" "station_id" eq_refl eq_refl eq_refl eq_refl
             ltac:(discriminate)).
  - exact (get_url_field kwargs "zip_code" "stationzipcode/" "zip_code" eq_refl eq_refl eq_refl eq_refl
             ltac:(discriminate)).
  - exact (get_url_field kwargs "spatial_zip_code" "spatialzipcode/" "zip_code" eq_refl eq_refl eq_refl
             eq_refl ltac:(discriminate)).
  - intros endpoint url H. unfold get_url in H.
    apply bind_Ok in H as (template & _ & H).
    destruct template as [template|]; [|discriminate H].
    destruct (String.eqb template ""); [discriminate H|].
    apply bind_Ok in H as (formatted & _ & [= <-]).
    rewrite <- str_app_assoc. apply prefix_app.
Qed.

(** X15. The module-level helpers. [get_data_endpoint] returns the URL of
    the data endpoint. The three others ask for keys that the table does
    not have, or leave out the argument of the field: whatever their
    argument is, they raise and return no URL. *)
Theorem endpoint_helpers_raise (arg : pyval) :
  get_data_endpoint = Ok "https://et.water.ca.gov/api/data"
  /\ get_station_endpoint arg
     = (if py_truthy arg
        then Raise (mk_exn ValueError "Unknown endpoint: station_by_id")
        else raise_ KeyError)
  /\ get_station_zipcode_endpoint arg
     = Raise (mk_exn ValueError
                (if py_truthy arg then "Unknown endpoint: station_zipcode_by_id"
                 else "Unknown endpoint: station_zipcode"))
  /\ get_spatial_zipcode_endpoint arg
     = Raise (mk_exn ValueError
                (if py_truthy arg then "Unknown endpoint: spatial_zipcode_by_id"
                 else "Unknown endpoint: spatial_zipcode")).
Proof.
  unfold get_data_endpoint, get_station_endpoint, get_station_zipcode_endpoint,
    get_spatial_zipcode_endpoint.
  split; [reflexivity|].
  destruct (py_truthy arg); repeat split; reflexivity.
Qed.

(** * Properties of the requests *)

Lemma handle_response_fails (f : request_failure) :
  exists text, handle_response (Fails f) = Raise (mk_exn CimisConnectionError text).
Proof. destruct f; eexists; reflexivity. Qed.

(** What [handle_response] does with a response, by status code. *)
Lemma handle_response_responds (r : Response.t) :
  handle_response (Responds r)
  = if Response.status_code r =? 403 then
      Raise (mk_exn CimisAuthenticationError "[ERR1006] HTTP 403: Invalid API key")
    else if Response.status_code r =? 404 then
      match Response.json r with
      | Ok (VDict d) =>
          Raise (mk_exn CimisAPIError
                   (py_str (from_option id (VStr "Resource not found")
                              (dict_get "Message" d))))
      | Ok _ => raise_ AttributeError
      | Raise e =>
          if caught_by ValueError e
          then Raise (mk_exn CimisAPIError "Resource not found") else Raise e
      end
    else if negb (Response.status_code r =? 200) then
      Raise (mk_exn CimisAPIError
               ("HTTP " ++ int_str (Response.status_code r) ++ ": "
                ++ py_str (Response.reason r)))
    else
      match Response.json r with
      | Ok v => Ok v
      | Raise e =>
          if caught_by ValueError e
          then Raise (mk_exn CimisDataError ("Invalid JSON response: " ++ exn_msg e))
          else Raise e
      end.
Proof.
  unfold handle_response. cbn [mbind result_bind].
  destruct (Response.status_code r =? 403); [reflexivity|].
  destruct (Response.status_code r =? 404); [|reflexivity].
  destruct (Response.json r) as [[]|e]; reflexivity.
Qed.

(** X16. The outcome of a request. A failure to build the URL is raised
    as it is. Otherwise the request is sent with [appKey] set to the key of
    the client, and the decoded JSON is returned exactly when the response
    has status 200 and its body can be decoded. Status 403 always raises
    [CimisAuthenticationError]. Every exception raised is a [CimisError],
    with two exceptions: a 404 response whose body is JSON but no object
    raises [AttributeError], and an exception of [response.json()] that is
    no [ValueError] is raised as it is. *)
Theorem _make_request_outcome (session_get : session) (app_key endpoint_key : pyval)
    (params endpoint_kwargs : gmap string pyval) :
  (forall e, get_url endpoint_key endpoint_kwargs = Raise e ->
     _make_request session_get app_key endpoint_key params endpoint_kwargs = Raise e)
  /\ (forall url, get_url endpoint_key endpoint_kwargs = Ok url ->
      (forall v,
         _make_request session_get app_key endpoint_key params endpoint_kwargs = Ok v
         <-> exists r, session_get url (<["appKey" := app_key]> params) = Responds r
                       /\ Response.status_code r = 200 /\ Response.json r = Ok v)
      /\ (forall r, session_get url (<["appKey" := app_key]> params) = Responds r ->
            Response.status_code r = 403 ->
            _make_request session_get app_key endpoint_key params endpoint_kwargs
            = Raise (mk_exn CimisAuthenticationError
                       "[ERR1006] HTTP 403: Invalid API key"))
      /\ (forall e,
            _make_request session_get app_key endpoint_key params endpoint_kwargs = Raise e ->
            caught_by CimisError e = true
            \/ (exists r v,
                  session_get url (<["appKey" := app_key]> params) = Responds r
                  /\ Response.status_code r = 404 /\ Response.json r = Ok v
                  /\ (forall d, v <> VDict d) /\ e = mk_exn AttributeError "")
            \/ (exists r,
                  session_get url (<["appKey" := app_key]> params) = Responds r
                  /\ Response.json r = Raise e /\ caught_by ValueError e = false))).
Proof.
  split.
  - intros e H. unfold _make_request. now rewrite H.
  - intros url Hurl. unfold _make_request. rewrite Hurl. cbn [mbind result_bind].
    destruct (session_get url (<["appKey" := app_key]> params)) as [r|f] eqn:Hget.
    + rewrite handle_response_responds. repeat split.
      * intros H. exists r. split; [reflexivity|].
        destruct (Response.status_code r =? 403) eqn:E403; [discriminate H|].
        destruct (Response.status_code r =? 404) eqn:E404.
        { destruct (Response.json r) as [[]|e]; try discriminate H.
          destruct (caught_by ValueError e); discriminate H. }
        destruct (Response.status_code r =? 200) eqn:E200; [|discriminate H].
        apply Z.eqb_eq in E200. split; [exact E200|].
        cbn [negb] in H. destruct (Response.json r) as [v'|e]; [exact H|].
        destruct (caught_by ValueError e); discriminate H.
      * intros (r' & [= <-] & Hs & Hj). rewrite Hs, Hj. reflexivity.
      * intros r' [= <-] Hs. now rewrite Hs.
      * intros e H.
        destruct (Response.status_code r =? 403) eqn:E403;
          [injection H as <-; now left|].
        destruct (Response.status_code r =? 404) eqn:E404.
        { apply Z.eqb_eq in E404.
          destruct (Response.json r) as [v|e'] eqn:Hj.
          - destruct v; try (injection H as <-; right; left; exists r; eexists;
                             repeat split; eauto; discriminate).
            injection H as <-. now left.
          - destruct (caught_by ValueError e') eqn:Hc; injection H as <-;
              [now left|]. right. right. exists r. auto. }
        destruct (Response.status_code r =? 200) eqn:E200; cbn [negb] in H;
          [|injection H as <-; now left].
        destruct (Response.json r) as [v|e'] eqn:Hj; [discriminate H|].
        destruct (caught_by ValueError e') eqn:Hc; injection H as <-; [now left|].
        right. right. exists r. auto.
    + destruct (handle_response_fails f) as [text Hf]. rewrite Hf. repeat split.
      * discriminate.
      * intros (r & H & _). discriminate H.
      * intros r H. discriminate H.
      * intros e [= <-]. now left.
Qed.

Lemma make_request_plain (session_get : session) (app_key : pyval) (key path : string) :
  dict_get key ENDPOINTS = Some path ->
  has_char "{" path = false -> has_char "}" path = false -> path <> "" ->
  forall params kwargs,
    _make_request session_get app_key (VStr key) params kwargs
    = handle_response (session_get (BASE_URL ++ "/" ++ path) (<["appKey" := app_key]> params)).
Proof.
  intros Hk Ho Hc Hp params kwargs. unfold _make_request, get_url.
  cbn [endpoints_get mbind result_bind]. rewrite Hk.
  destruct (String.eqb_spec path ""); [congruence|].
  rewrite <- (str_app_nil_r path) at 1.
  rewrite (format_fields_text kwargs path "" Ho Hc). cbn [format_fields mbind result_bind].
  now rewrite str_app_nil_r.
Qed.

Lemma make_request_field (session_get : session) (app_key : pyval)
    (key text name : string) (v : pyval) :
  dict_get key ENDPOINTS = Some (text ++ String "{" (name ++ String "}" "")) ->
  has_char "{" text = false -> has_char "}" text = false ->
  has_char "}" name = false -> text <> "" ->
  forall params,
    _make_request session_get app_key (VStr key) params {[ name := v ]}
    = handle_response (session_get (BASE_URL ++ "/" ++ text ++ py_str v)
                         (<["appKey" := app_key]> params)).
Proof.
  intros Hk Ho Hc Hn Ht params. unfold _make_request.
  rewrite (get_url_field _ key text name Hk Ho Hc Hn Ht), lookup_singleton_eq.
  reflexivity.
Qed.

(** X17. The requests for stations and ZIP codes. With a true argument
    the request goes to the URL of the endpoint followed by a slash and the
    text of the argument; with a false one ([None], [''], [0]) to the URL
    of the whole list. The only parameter sent is [appKey], building the
    URL never fails, and the result is that of the parser on the decoded
    response. *)
Theorem station_requests (session_get : session) (app_key arg : pyval) :
  get_stations session_get app_key arg
  = (response_data ←
       handle_response
         (session_get (BASE_URL ++ "/station"
                       ++ (if py_truthy arg then "/" ++ py_str arg else ""))
            {[ "appKey" := app_key ]});
     parse_stations_response response_data)
  /\ get_station_zip_codes session_get app_key arg
     = (response_data ←
          handle_response
            (session_get (BASE_URL ++ "/stationzipcode"
                          ++ (if py_truthy arg then "/" ++ py_str arg else ""))
               {[ "appKey" := app_key ]});
        parse_zip_codes_response response_data)
  /\ get_spatial_zip_codes session_get app_key arg
     = (response_data ←
          handle_response
            (session_get (BASE_URL ++ "/spatialzipcode"
                          ++ (if py_truthy arg then "/" ++ py_str arg else ""))
               {[ "appKey" := app_key ]});
        parse_spatial_zip_codes_response response_data).
Proof.
  unfold get_stations, get_station_zip_codes, get_spatial_zip_codes.
  destruct (py_truthy arg).
  - rewrite (make_request_field session_get app_key "station" "station/" "station_id")
      by (reflexivity || discriminate).
    rewrite (make_request_field session_get app_key "zip_code" "stationzipcode/" "zip_code")
      by (reflexivity || discriminate).
    rewrite (make_request_field session_get app_key "spatial_zip_code" "spatialzipcode/"
               "zip_code") by (reflexivity || discriminate).
    repeat split; reflexivity.
  - rewrite (make_request_plain session_get app_key "stations" "station")
      by (reflexivity || discriminate).
    rewrite (make_request_plain session_get app_key "zip_codes" "stationzipcode")
      by (reflexivity || discriminate).
    rewrite (make_request_plain session_get app_key "spatial_zip_codes" "spatialzipcode")
      by (reflexivity || discriminate).
    repeat split; reflexivity.
Qed.

(** ** The parameters of a data request *)

Lemma for_each_strs (l : list string) :
  for_each (fun element => match element with
                           | VStr s => Ok s
                           | _ => raise_ TypeError
                           end) (map VStr l) = Ok l.
Proof. induction l as [|x l IH]; [reflexivity|]. cbn [map for_each]. now rewrite IH. Qed.

Lemma py_join_strs (sep : string) (l : list string) :
  py_join sep (VList (map VStr l)) = Ok (str_join sep l).
Proof. unfold py_join. cbn [py_iter mbind result_bind]. now rewrite for_each_strs. Qed.

Lemma for_each_not_str (l : list pyval) :
  (exists v, In v l /\ forall s, v <> VStr s) ->
  for_each (fun element => match element with
                           | VStr s => Ok s
                           | _ => raise_ TypeError
                           end) l = raise_ TypeError.
Proof.
  intros (v & Hin & Hv). induction l as [|x l IH]; [destruct Hin|].
  cbn [for_each]. destruct Hin as [-> | Hin].
  - destruct v; try reflexivity. now destruct (Hv s).
  - destruct x; try reflexivity. cbn [mbind result_bind]. now rewrite (IH Hin).
Qed.

Lemma py_join_not_str (sep : string) (l : list pyval) :
  (exists v, In v l /\ forall s, v <> VStr s) ->
  py_join sep (VList l) = raise_ TypeError.
Proof.
  intros H. unfold py_join. cbn [py_iter mbind result_bind].
  now rewrite (for_each_not_str l H).
Qed.

(** The items of a request, for a list of names or for [None]. *)
Lemma request_items (items : pyval) (names : list string) :
  items = VNone /\ names = [] \/ items = VList (map VStr names) ->
  (items' ← match items with
            | VNone => Ok (VList (map VStr get_all_data_items))
            | _ => n ← py_len items;
                   Ok (if (n =? 0)%nat then VList (map VStr get_all_data_items)
                       else items)
            end;
   py_join "," items') = Ok (str_join "," (chosen_items names)).
Proof.
  intros [[-> ->] | ->].
  - cbn [mbind result_bind]. apply py_join_strs.
  - destruct names as [|x names].
    + cbn [map py_len length Nat.eqb mbind result_bind]. apply py_join_strs.
    + cbn [map py_len length Nat.eqb mbind result_bind chosen_items].
      apply (py_join_strs "," (x :: names)).
Qed.

(** X18. How the targets are written. A target that is no list is sent as
    its text. A list in which no element mentions coordinates or an address
    is sent as the texts of its elements separated by commas, whatever the
    elements are. As soon as one element mentions both [lat=] and [lng=],
    or both [addr-name=] and [addr=], the whole list is joined with
    semicolons, and an element that is no [str] then raises [TypeError]. *)
Theorem prepare_data_params_targets (targets start_date end_date measure_unit
    prioritize_sri prioritize_scs : pyval) (names : list string) :
  match targets with
  | VList l =>
      if _is_coordinate_list l || _is_address_list l then
        ((exists v, In v l /\ forall s, v <> VStr s) ->
         prepare_data_params targets start_date end_date (VList (map VStr names))
           measure_unit prioritize_sri prioritize_scs ∅ = raise_ TypeError)
        /\ (forall texts, l = map VStr texts ->
              exists params,
                prepare_data_params targets start_date end_date (VList (map VStr names))
                  measure_unit prioritize_sri prioritize_scs ∅ = Ok params
                /\ params !! "targets" = Some (VStr (str_join ";" texts)))
      else
        exists params,
          prepare_data_params targets start_date end_date (VList (map VStr names))
            measure_unit prioritize_sri prioritize_scs ∅ = Ok params
          /\ params !! "targets" = Some (VStr (str_join "," (map py_str l)))
  | _ =>
      exists params,
        prepare_data_params targets start_date end_date (VList (map VStr names))
          measure_unit prioritize_sri prioritize_scs ∅ = Ok params
        /\ params !! "targets" = Some (VStr (py_str targets))
  end.
Proof.
  assert (Hrest : forall targets_str,
            exists params,
              (items ← (n ← py_len (VList (map VStr names));
                        Ok (if (n =? 0)%nat then VList (map VStr get_all_data_items)
                            else VList (map VStr names)));
               data_items ← py_join "," items;
               Ok (∅ ∪ <["prioritizeSCS" := VStr (if py_truthy prioritize_scs
                                                   then "Y" else "N")]>
                         (<["prioritizeSri" := VStr (if py_truthy prioritize_sri
                                                     then "true" else "false")]>
                            (<["unitOfMeasure" := measure_unit]>
                               (<["dataItems" := VStr data_items]>
                                  (<["endDate" := end_date]>
                                     (<["startDate" := start_date]>
                                        (<["targets" := VStr targets_str]>
                                           (∅ : gmap string pyval)))))))))
              = Ok params
              /\ params !! "targets" = Some (VStr targets_str)).
  { intros targets_str.
    pose proof (request_items (VList (map VStr names)) names (or_intror eq_refl)) as H.
    apply bind_Ok in H as (items & Hitems & Hjoin).
    rewrite Hitems. cbn [mbind result_bind]. rewrite Hjoin. eexists. split; [reflexivity|].
    rewrite (left_id_L ∅ (∪)). rewrite !lookup_insert_ne by discriminate.
    apply lookup_insert_eq. }
  unfold prepare_data_params.
  destruct targets as [| | | |l|]; try (cbn [mbind result_bind]; apply Hrest).
  destruct (_is_coordinate_list l) eqn:Hc; cbn [orb].
  - split.
    + intros H. now rewrite (py_join_not_str ";" l H).
    + intros texts ->. rewrite py_join_strs. cbn [mbind result_bind]. apply Hrest.
  - destruct (_is_address_list l) eqn:Ha.
    + split.
      * intros H. now rewrite (py_join_not_str ";" l H).
      * intros texts ->. rewrite py_join_strs. cbn [mbind result_bind]. apply Hrest.
    + cbn [mbind result_bind]. apply Hrest.
Qed.

(** The request of [get_data] for a list of targets without coordinates
    and addresses. *)
Lemma get_data_request (session_get : session) (app_key : pyval) (l : list pyval)
    (start_date end_date items unit_of_measure prioritize_scs : pyval)
    (names : list string) :
  _is_coordinate_list l = false -> _is_address_list l = false ->
  items = VNone /\ names = [] \/ items = VList (map VStr names) ->
  get_data session_get app_key (VList l) start_date end_date items unit_of_measure
    prioritize_scs
  = (response_data ←
       handle_response
         (session_get (BASE_URL ++ "/data")
            (sent_params app_key (str_join "," (map py_str l)) start_date end_date
               (chosen_items names) unit_of_measure prioritize_scs));
     parse_data_response response_data).
Proof.
  intros Hc Ha Hitems. unfold get_data, prepare_data_params. rewrite Hc, Ha.
  cbn [mbind result_bind].
  assert (Hlist : match items with VNone => VList [] | _ => items end
                  = VList (map VStr names)).
  { destruct Hitems as [[-> ->] | ->]; reflexivity. }
  rewrite Hlist.
  pose proof (request_items (VList (map VStr names)) names (or_intror eq_refl)) as H.
  apply bind_Ok in H as (items' & Hitems' & Hjoin).
  rewrite Hitems'. cbn [mbind result_bind]. rewrite Hjoin. cbn [mbind result_bind].
  rewrite (left_id_L ∅ (∪)).
  rewrite (make_request_plain session_get app_key "data" "data")
    by (reflexivity || discriminate).
  reflexivity.
Qed.

(** X19. The request of [get_data]. For a list of targets without
    coordinates and addresses, the request goes to the data endpoint with
    exactly the parameters [appKey], [targets] (the texts of the targets
    separated by commas), [startDate], [endDate], [dataItems],
    [unitOfMeasure], [prioritizeSri] (['true'] exactly when the unit equals
    ['M']) and [prioritizeSCS]; when no data item is named ([None] or an
    empty list), [dataItems] names all the forty-one default items. The
    result is that of the mapper on the decoded response. *)
Theorem get_data_sends (session_get : session) (app_key : pyval) (l : list pyval)
    (start_date end_date items unit_of_measure prioritize_scs : pyval)
    (names : list string) :
  _is_coordinate_list l = false -> _is_address_list l = false ->
  items = VNone /\ names = [] \/ items = VList (map VStr names) ->
  get_data session_get app_key (VList l) start_date end_date items unit_of_measure
    prioritize_scs
  = (response_data ←
       handle_response
         (session_get (BASE_URL ++ "/data")
            (sent_params app_key (str_join "," (map py_str l)) start_date end_date
               (chosen_items names) unit_of_measure prioritize_scs));
     parse_data_response response_data)
  /\ dom (sent_params app_key (str_join "," (map py_str l)) start_date end_date
            (chosen_items names) unit_of_measure prioritize_scs)
     = list_to_set ["appKey"; "targets"; "startDate"; "endDate"; "dataItems";
                    "unitOfMeasure"; "prioritizeSri"; "prioritizeSCS"]
  /\ (names = [] -> length (chosen_items names) = 41%nat)
  /\ chosen_items names <> [].
Proof.
  intros Hc Ha Hitems. split; [now apply get_data_request|]. split; [|split].
  - unfold sent_params. rewrite !dom_insert_L, dom_empty_L. cbn [list_to_set].
    apply set_eq. intros k. rewrite !elem_of_union, !elem_of_singleton, elem_of_empty.
    tauto.
  - intros ->. reflexivity.
  - destruct names; discriminate.
Qed.

Lemma get_data_sends_witness :
  get_data sample_session (VStr "key") (VList [VInt 2; VStr "8"]) (VStr "2023-01-01")
    (VStr "2023-01-02") VNone (VStr "M") (VBool true)
  = (response_data ←
       handle_response
         (sample_session (BASE_URL ++ "/data")
            (sent_params (VStr "key") (str_join "," (map py_str [VInt 2; VStr "8"]))
               (VStr "2023-01-01") (VStr "2023-01-02") (chosen_items [])
               (VStr "M") (VBool true)));
     parse_data_response response_data)
  /\ dom (sent_params (VStr "key") (str_join "," (map py_str [VInt 2; VStr "8"]))
            (VStr "2023-01-01") (VStr "2023-01-02") (chosen_items [])
            (VStr "M") (VBool true))
     = list_to_set ["appKey"; "targets"; "startDate"; "endDate"; "dataItems";
                    "unitOfMeasure"; "prioritizeSri"; "prioritizeSCS"]
  /\ (@nil string = [] -> length (chosen_items []) = 41%nat)
  /\ chosen_items [] <> [].
Proof.
  apply (get_data_sends sample_session (VStr "key") [VInt 2; VStr "8"]).
  - reflexivity.
  - reflexivity.
  - left. split; reflexivity.
Defined.

(** X20. The requests of [get_daily_data] and [get_hourly_data]. The unit
    sent is ['E'] exactly when the unit given reads [english] in any mix
    of cases, and ['M'] for every other text, ['E'] included; a unit that
    is no [str] raises [AttributeError]. When no data item is named,
    [get_daily_data] asks for the twenty-seven daily items, and
    [get_hourly_data] for all the default items, the daily ones included,
    with [prioritizeSCS] set to ['N']; the records of the other scope are
    then dropped from the answer. *)
Theorem daily_hourly_requests (session_get : session) (app_key : pyval)
    (l : list pyval) (start_date end_date prioritize_scs : pyval) (unit : string) :
  _is_coordinate_list l = false -> _is_address_list l = false ->
  get_daily_data session_get app_key (VList l) start_date end_date VNone (VStr unit)
    prioritize_scs
  = (response_data ←
       handle_response
         (session_get (BASE_URL ++ "/data")
            (sent_params app_key (str_join "," (map py_str l)) start_date end_date
               DEFAULT_DAILY_DATA_ITEMS
               (VStr (if String.eqb (str_lower unit) "english" then "E" else "M"))
               prioritize_scs));
     weather_data ← parse_data_response response_data;
     Ok (_filter_daily_only weather_data))
  /\ get_hourly_data session_get app_key (VList l) start_date end_date VNone (VStr unit)
     = (response_data ←
          handle_response
            (session_get (BASE_URL ++ "/data")
               (sent_params app_key (str_join "," (map py_str l)) start_date end_date
                  (DEFAULT_DAILY_DATA_ITEMS ++ DEFAULT_HOURLY_DATA_ITEMS)%list
                  (VStr (if String.eqb (str_lower unit) "english" then "E" else "M"))
                  (VBool false)));
        weather_data ← parse_data_response response_data;
        Ok (_filter_hourly_only weather_data))
  /\ (forall v items, (forall s, v <> VStr s) ->
        get_daily_data session_get app_key (VList l) start_date end_date items v
          prioritize_scs = raise_ AttributeError
        /\ get_hourly_data session_get app_key (VList l) start_date end_date items v
           = raise_ AttributeError).
Proof.
  intros Hc Ha. split; [|split].
  - unfold get_daily_data, unit_code. cbn [py_lower mbind result_bind].
    rewrite (get_data_request session_get app_key l start_date end_date _ _ _
               get_daily_data_items Hc Ha (or_intror eq_refl)).
    now destruct (handle_response _).
  - unfold get_hourly_data, unit_code. cbn [py_lower mbind result_bind].
    rewrite (get_data_request session_get app_key l start_date end_date _ _ _
               [] Hc Ha (or_intror eq_refl)).
    now destruct (handle_response _).
  - intros v items Hv. unfold get_daily_data, get_hourly_data, unit_code.
    destruct v; try (split; reflexivity). now destruct (Hv s).
Qed.

Lemma daily_hourly_requests_witness :
  get_daily_data sample_session (VStr "key") (VList [VInt 2]) (VStr "2023-01-01")
    (VStr "2023-01-02") VNone (VStr "E") (VBool true)
  = (response_data ←
       handle_response
         (sample_session (BASE_URL ++ "/data")
            (sent_params (VStr "key") (str_join "," (map py_str [VInt 2]))
               (VStr "2023-01-01") (VStr "2023-01-02") DEFAULT_DAILY_DATA_ITEMS
               (VStr (if String.eqb (str_lower "E") "english" then "E" else "M"))
               (VBool true)));
     weather_data ← parse_data_response response_data;
     Ok (_filter_daily_only weather_data))
  /\ get_hourly_data sample_session (VStr "key") (VList [VInt 2]) (VStr "2023-01-01")
       (VStr "2023-01-02") VNone (VStr "E")
     = (response_data ←
          handle_response
            (sample_session (BASE_URL ++ "/data")
               (sent_params (VStr "key") (str_join "," (map py_str [VInt 2]))
                  (VStr "2023-01-01") (VStr "2023-01-02")
                  (DEFAULT_DAILY_DATA_ITEMS ++ DEFAULT_HOURLY_DATA_ITEMS)%list
                  (VStr (if String.eqb (str_lower "E") "english" then "E" else "M"))
                  (VBool false)));
        weather_data ← parse_data_response response_data;
        Ok (_filter_hourly_only weather_data))
  /\ (forall v items, (forall s, v <> VStr s) ->
        get_daily_data sample_session (VStr "key") (VList [VInt 2]) (VStr "2023-01-01")
          (VStr "2023-01-02") items v (VBool true) = raise_ AttributeError
        /\ get_hourly_data sample_session (VStr "key") (VList [VInt 2])
             (VStr "2023-01-01") (VStr "2023-01-02") items v = raise_ AttributeError).
Proof.
  apply (daily_hourly_requests sample_session (VStr "key") [VInt 2]); reflexivity.
Defined.

(** * Properties of the dates *)

(** ** The digits of a number *)

Lemma nat_digits_step (fuel n : nat) (acc : string) :
  (0 < fuel)%nat ->
  nat_digits fuel n acc
  = if (n <? 10)%nat then String (ascii_of_nat (48 + n mod 10)) acc
    else nat_digits (fuel - 1) (n / 10) (String (ascii_of_nat (48 + n mod 10)) acc).
Proof.
  intros H. destruct fuel as [|fuel]; [lia|].
  replace (S fuel - 1)%nat with fuel by lia. reflexivity.
Qed.

Lemma digit_char (k : nat) :
  (k < 10)%nat ->
  is_digit (ascii_of_nat (48 + k)) = true
  /\ digit_value (ascii_of_nat (48 + k)) = Z.of_nat k.
Proof.
  intros H.
  do 10 (destruct k as [|k]; [split; reflexivity|]). lia.
Qed.

(** The four characters of a year. *)
Lemma zero_padded_year (y : Z) :
  1 <= y <= 9999 ->
  exists a b c e : nat,
    (a < 10 /\ b < 10 /\ c < 10 /\ e < 10)%nat
    /\ y = 1000 * Z.of_nat a + 100 * Z.of_nat b + 10 * Z.of_nat c + Z.of_nat e
    /\ zero_padded 4 y
       = String (ascii_of_nat (48 + a)) (String (ascii_of_nat (48 + b))
           (String (ascii_of_nat (48 + c)) (String (ascii_of_nat (48 + e)) ""))).
Proof.
  intros Hy. unfold zero_padded, int_str.
  replace (y <? 0) with false by lia.
  replace (Z.abs y) with y by lia.
  remember (Z.to_nat y) as n eqn:Hn.
  assert (Hy' : y = Z.of_nat n) by lia.
  assert (Hrange : 1 <= Z.of_nat n <= 9999) by lia.
  clear Hn Hy. subst y.
  pose proof (Nat.div_mod_eq n 10) as D1.
  pose proof (Nat.mod_upper_bound n 10 ltac:(lia)) as M1.
  pose proof (Nat.div_mod_eq (n / 10) 10) as D2.
  pose proof (Nat.mod_upper_bound (n / 10) 10 ltac:(lia)) as M2.
  pose proof (Nat.div_mod_eq (n / 10 / 10) 10) as D3.
  pose proof (Nat.mod_upper_bound (n / 10 / 10) 10 ltac:(lia)) as M3.
  pose proof (Nat.div_mod_eq (n / 10 / 10 / 10) 10) as D4.
  pose proof (Nat.mod_upper_bound (n / 10 / 10 / 10) 10 ltac:(lia)) as M4.
  remember (n mod 10)%nat as e eqn:He.
  remember (n / 10)%nat as q1 eqn:Hq1.
  remember (q1 mod 10)%nat as c eqn:Hc.
  remember (q1 / 10)%nat as q2 eqn:Hq2.
  remember (q2 mod 10)%nat as b eqn:Hb.
  remember (q2 / 10)%nat as q3 eqn:Hq3.
  remember (q3 mod 10)%nat as a eqn:Ha.
  remember (q3 / 10)%nat as q4 eqn:Hq4.
  rewrite (nat_digits_step (S n) n) by lia. rewrite <- He, <- Hq1.
  destruct (Nat.ltb_spec n 10).
  { exists 0%nat, 0%nat, 0%nat, e. split; [lia|]. split; [lia|]. reflexivity. }
  rewrite (nat_digits_step (S n - 1) q1) by lia. rewrite <- Hc, <- Hq2.
  destruct (Nat.ltb_spec q1 10).
  { exists 0%nat, 0%nat, c, e. split; [lia|]. split; [lia|]. reflexivity. }
  rewrite (nat_digits_step (S n - 1 - 1) q2) by lia. rewrite <- Hb, <- Hq3.
  destruct (Nat.ltb_spec q2 10).
  { exists 0%nat, b, c, e. split; [lia|]. split; [lia|]. reflexivity. }
  rewrite (nat_digits_step (S n - 1 - 1 - 1) q3) by lia. rewrite <- Ha, <- Hq4.
  destruct (Nat.ltb_spec q3 10).
  { exists a, b, c, e. split; [lia|]. split; [lia|]. reflexivity. }
  lia.
Qed.

Lemma match_month_padded (m : Z) (rest : string) :
  1 <= m <= 12 ->
  datetime.match_month (zero_padded 2 m ++ "-" ++ rest) = Some (m, rest).
Proof.
  intros H.
  assert (Hm : m = 1 \/ m = 2 \/ m = 3 \/ m = 4 \/ m = 5 \/ m = 6 \/ m = 7 \/ m = 8
               \/ m = 9 \/ m = 10 \/ m = 11 \/ m = 12) by lia.
  repeat (destruct Hm as [-> | Hm]; [reflexivity|]). subst m. reflexivity.
Qed.

Lemma match_day_padded (d : Z) :
  1 <= d <= 31 -> datetime.match_day (zero_padded 2 d) = Some (d, "").
Proof.
  intros H.
  assert (Hd : forallb (fun d => match datetime.match_day (zero_padded 2 d) with
                                 | Some (d', "") => d' =? d
                                 | _ => false
                                 end) (seqZ 1 31) = true) by (vm_compute; reflexivity).
  rewrite forallb_forall in Hd. specialize (Hd d).
  destruct (datetime.match_day (zero_padded 2 d)) as [[d' [|]]|];
    try (discriminate Hd; apply list_elem_of_In, elem_of_seqZ; lia).
  f_equal. f_equal. apply Z.eqb_eq, Hd.
  apply list_elem_of_In, elem_of_seqZ. lia.
Qed.

Lemma days_in_month_le (y m : Z) : 28 <= datetime.days_in_month y m <= 31.
Proof.
  unfold datetime.days_in_month.
  destruct (m =? 2); [destruct (datetime.is_leap y); lia|].
  destruct ((m =? 4) || (m =? 6) || (m =? 9) || (m =? 11)); lia.
Qed.

(** The text of a calendar date is read back as that date. *)
Lemma strptime_iso_date (y m d : Z) :
  1 <= y <= 9999 -> 1 <= m <= 12 -> 1 <= d <= datetime.days_in_month y m ->
  datetime.strptime_ymd (iso_date (datetime.mk y m d 0 0 0))
  = Ok (datetime.mk y m d 0 0 0).
Proof.
  intros Hy Hm Hd. unfold iso_date.
  cbn [datetime.year datetime.month datetime.day].
  destruct (zero_padded_year y Hy) as (a & b & c & e & (Ha & Hb & Hc & He) & Hval & ->).
  unfold datetime.strptime_ymd, datetime.match_ymd.
  change (String (ascii_of_nat (48 + a))
            (String (ascii_of_nat (48 + b))
               (String (ascii_of_nat (48 + c)) (String (ascii_of_nat (48 + e)) "")))
          ++ "-" ++ zero_padded 2 m ++ "-" ++ zero_padded 2 d)
    with (String (ascii_of_nat (48 + a))
            (String (ascii_of_nat (48 + b))
               (String (ascii_of_nat (48 + c))
                  (String (ascii_of_nat (48 + e))
                     (String "-" (zero_padded 2 m ++ "-" ++ zero_padded 2 d)))))).
  destruct (digit_char a Ha) as [Da Va], (digit_char b Hb) as [Db Vb],
    (digit_char c Hc) as [Dc Vc], (digit_char e He) as [De Ve].
  rewrite Da, Db, Dc, De, Va, Vb, Vc, Ve. cbn [andb Ascii.eqb Bool.eqb].
  rewrite (match_month_padded m _ Hm).
  pose proof (days_in_month_le y m) as Hdays.
  rewrite (match_day_padded d ltac:(lia)). cbn [String.eqb].
  rewrite <- Hval.
  replace (1 <=? y) with true by lia.
  replace (d <=? datetime.days_in_month y m) with true by lia.
  reflexivity.
Qed.

(** ** What a parsed date is *)

Lemma match_month_range (s rest : string) (m : Z) :
  datetime.match_month s = Some (m, rest) -> 1 <= m <= 12.
Proof.
  unfold datetime.match_month. intros H.
  destruct s as [|a [|b s]]; try discriminate H.
  assert (Hone : (if Ascii.eqb b "-" && is_digit a && (1 <=? digit_value a)
                  then Some (digit_value a, s) else None) = Some (m, rest) ->
                 1 <= m <= 12).
  { destruct (Ascii.eqb b "-"); [|discriminate].
    destruct (is_digit a) eqn:Da; [|discriminate].
    destruct (1 <=? digit_value a) eqn:La; [|discriminate]. intros [= <- _].
    apply is_digit_range in Da. lia. }
  destruct s as [|c s]; [exact (Hone H)|].
  destruct (negb (Ascii.eqb c "-")); [exact (Hone H)|].
  destruct (Ascii.eqb a "1" && is_digit b && (digit_value b <=? 2)) eqn:E1.
  { injection H as <- _. apply andb_true_iff in E1 as [E1 L].
    apply andb_true_iff in E1 as [_ D]. apply is_digit_range in D. lia. }
  destruct (Ascii.eqb a "0" && is_digit b && (1 <=? digit_value b)) eqn:E2.
  { injection H as <- _. apply andb_true_iff in E2 as [E2 L].
    apply andb_true_iff in E2 as [_ D]. apply is_digit_range in D. lia. }
  exact (Hone H).
Qed.

Lemma match_day_range (s rest : string) (d : Z) :
  datetime.match_day s = Some (d, rest) -> 1 <= d <= 31.
Proof.
  unfold datetime.match_day. intros H.
  destruct s as [|a s]; [discriminate H|].
  assert (Hone : (if is_digit a && (1 <=? digit_value a) then Some (digit_value a, s)
                  else match s with
                       | String b rest' =>
                           if Ascii.eqb a " " && is_digit b && (1 <=? digit_value b)
                           then Some (digit_value b, rest') else None
                       | EmptyString => None
                       end) = Some (d, rest) -> 1 <= d <= 31).
  { destruct (is_digit a && (1 <=? digit_value a)) eqn:E.
    - intros [= <- _]. apply andb_true_iff in E as [D L].
      apply is_digit_range in D. lia.
    - destruct s as [|b s']; [discriminate|].
      destruct (Ascii.eqb a " " && is_digit b && (1 <=? digit_value b)) eqn:E';
        [|discriminate].
      intros [= <- _]. apply andb_true_iff in E' as [E' L].
      apply andb_true_iff in E' as [_ D]. apply is_digit_range in D. lia. }
  destruct s as [|b s]; [exact (Hone H)|].
  destruct (Ascii.eqb a "3" && is_digit b && (digit_value b <=? 1)) eqn:E1.
  { injection H as <- _. apply andb_true_iff in E1 as [E1 L].
    apply andb_true_iff in E1 as [_ D]. apply is_digit_range in D. lia. }
  destruct ((Ascii.eqb a "1" || Ascii.eqb a "2") && is_digit b) eqn:E2.
  { injection H as <- _. apply andb_true_iff in E2 as [E2 D].
    apply is_digit_range in D.
    apply orb_true_iff in E2 as [E2 | E2]; apply Ascii.eqb_eq in E2; subst a;
      change (digit_value "1") with 1; change (digit_value "2") with 2; lia. }
  destruct (Ascii.eqb a "0" && is_digit b && (1 <=? digit_value b)) eqn:E3.
  { injection H as <- _. apply andb_true_iff in E3 as [E3 L].
    apply andb_true_iff in E3 as [_ D]. apply is_digit_range in D. lia. }
  exact (Hone H).
Qed.

(** A date that [strptime] returns is a day of the calendar, at midnight. *)
Lemma strptime_ymd_calendar (s : string) (date : datetime.t) :
  datetime.strptime_ymd s = Ok date ->
  1 <= datetime.year date <= 9999 /\ 1 <= datetime.month date <= 12
  /\ 1 <= datetime.day date <= datetime.days_in_month (datetime.year date)
                                 (datetime.month date)
  /\ datetime.hour date = 0 /\ datetime.minute date = 0 /\ datetime.second date = 0.
Proof.
  unfold datetime.strptime_ymd. intros H.
  destruct (datetime.match_ymd s) as [[[y m] d]|] eqn:E; [|discriminate H].
  destruct ((1 <=? y) && (d <=? datetime.days_in_month y m)) eqn:Hc; [|discriminate H].
  injection H as <-. cbn [datetime.year datetime.month datetime.day datetime.hour
                            datetime.minute datetime.second].
  apply andb_true_iff in Hc as [Hy Hd]. apply Z.leb_le in Hy, Hd.
  unfold datetime.match_ymd in E.
  destruct s as [|y1 [|y2 [|y3 [|y4 [|c rest]]]]]; try discriminate E.
  destruct (is_digit y1 && is_digit y2 && is_digit y3 && is_digit y4 && Ascii.eqb c "-")
    eqn:Hdigits; [|discriminate E].
  destruct (datetime.match_month rest) as [[m' rest']|] eqn:Em; [|discriminate E].
  destruct (datetime.match_day rest') as [[d' left_over]|] eqn:Ed; [|discriminate E].
  destruct (String.eqb left_over ""); [|discriminate E].
  injection E as <- <- <-.
  apply match_month_range in Em. apply match_day_range in Ed.
  apply andb_true_iff in Hdigits as [Hdigits _].
  apply andb_true_iff in Hdigits as [Hdigits D4].
  apply andb_true_iff in Hdigits as [Hdigits D3].
  apply andb_true_iff in Hdigits as [D1 D2].
  apply is_digit_range in D1, D2, D3, D4.
  repeat split; lia.
Qed.

(** X21. Dates go round. The text [YYYY-MM-DD] of every day of the
    calendar, years 1 to 9999, is read back by [strptime] as that day, is
    accepted by [validate_date_format], and gives the [DateTime_Object]
    cell [YYYY-MM-DDT00:00:00]. *)
Theorem date_round_trip (y m d : Z) :
  1 <= y <= 9999 -> 1 <= m <= 12 -> 1 <= d <= datetime.days_in_month y m ->
  datetime.strptime (VStr (iso_date (datetime.mk y m d 0 0 0)))
  = Ok (datetime.mk y m d 0 0 0)
  /\ validate_date_format (VStr (iso_date (datetime.mk y m d 0 0 0))) = Ok true
  /\ datetime_object (VStr (iso_date (datetime.mk y m d 0 0 0)))
     = Ok (VStr (iso_date (datetime.mk y m d 0 0 0) ++ "T00:00:00")).
Proof.
  intros Hy Hm Hd. pose proof (strptime_iso_date y m d Hy Hm Hd) as H.
  split; [exact H|]. split.
  - unfold validate_date_format. cbn [datetime.strptime]. now rewrite H.
  - unfold datetime_object. cbn [py_truthy datetime.strptime]. rewrite H.
    destruct (String.eqb_spec (iso_date (datetime.mk y m d 0 0 0)) "") as [E|_].
    + apply (f_equal datetime.strptime_ymd) in E. rewrite H in E. discriminate E.
    + cbn [negb mbind result_bind]. unfold datetime.isoformat, iso_date.
      cbn [datetime.year datetime.month datetime.day datetime.hour datetime.minute
             datetime.second].
      rewrite !str_app_assoc. reflexivity.
Qed.

Lemma date_round_trip_witness :
  datetime.strptime (VStr (iso_date (datetime.mk 2024 2 29 0 0 0)))
  = Ok (datetime.mk 2024 2 29 0 0 0)
  /\ validate_date_format (VStr (iso_date (datetime.mk 2024 2 29 0 0 0))) = Ok true
  /\ datetime_object (VStr (iso_date (datetime.mk 2024 2 29 0 0 0)))
     = Ok (VStr (iso_date (datetime.mk 2024 2 29 0 0 0) ++ "T00:00:00")).
Proof.
  apply (date_round_trip 2024 2 29); [lia | lia | vm_compute; split; discriminate].
Defined.

(** X22. [validate_date_format] never raises on a [str]: it answers
    [True] exactly when [strptime] reads the text, and then the text names
    a day of the calendar (year 1 to 9999, month 1 to 12, a day of that
    month, leap years counted); it answers [False] for every other text.
    An argument that is no [str] raises [TypeError]. *)
Theorem validate_date_format_outcome (date_str : pyval) :
  match date_str with
  | VStr s =>
      (exists b, validate_date_format date_str = Ok b)
      /\ (validate_date_format date_str = Ok true <->
          exists y m d,
            datetime.strptime_ymd s = Ok (datetime.mk y m d 0 0 0)
            /\ 1 <= y <= 9999 /\ 1 <= m <= 12
            /\ 1 <= d <= datetime.days_in_month y m)
  | _ => validate_date_format date_str = raise_ TypeError
  end.
Proof.
  destruct date_str as [| | |s| |]; try reflexivity.
  unfold validate_date_format. cbn [datetime.strptime].
  destruct (datetime.strptime_ymd s) as [date|e] eqn:E.
  - split; [eauto|]. split; [intros _|reflexivity].
    pose proof (strptime_ymd_calendar s date E) as (Hy & Hm & Hd & Hh & Hmi & Hs).
    destruct date as [y m d h mi sec].
    cbn [datetime.year datetime.month datetime.day datetime.hour datetime.minute
           datetime.second] in *. subst h mi sec. exists y, m, d. auto.
  - rewrite (strptime_ymd_raises s e E). split; [eauto|].
    split; [discriminate|]. intros (y & m & d & H & _). discriminate H.
Qed.

(** * What the mapper raises *)

Lemma for_each_raises {A B : Type} (P : exn -> Prop) (body : A -> result B)
    (l : list A) (e : exn) :
  (forall x e', body x = Raise e' -> P e') -> for_each body l = Raise e -> P e.
Proof.
  intros Hbody. induction l as [|x l IH]; [discriminate|].
  cbn [for_each]. intros H. apply bind_Raise in H as [H | (y & _ & H)].
  - exact (Hbody x e H).
  - apply bind_Raise in H as [H | (ys & _ & H)]; [exact (IH H) | discriminate H].
Qed.

Lemma py_get_raises (v : pyval) (k : string) (default : pyval) (e : exn) :
  py_get v k default = Raise e -> e = mk_exn AttributeError "".
Proof. destruct v; cbn; intros [= <-]; reflexivity. Qed.

Lemma py_contains_raises (k : string) (v : pyval) (e : exn) :
  py_contains k v = Raise e -> e = mk_exn TypeError "".
Proof. destruct v; cbn; intros [= <-]; reflexivity. Qed.

(** After [k in v] has answered [True], [v[k]] raises no [KeyError]. *)
Lemma py_getitem_after_contains (v : pyval) (k : string) (e : exn) :
  py_contains k v = Ok true -> py_getitem v k = Raise e -> e = mk_exn TypeError "".
Proof.
  destruct v; cbn; try (intros _ [= <-]; reflexivity).
  intros [= H]. apply bool_decide_eq_true in H as [x Hx]. rewrite Hx. discriminate.
Qed.

Lemma parse_record_raises (record_data : pyval) (e : exn) :
  parse_record record_data = Raise e -> e = mk_exn AttributeError "".
Proof.
  destruct record_data; cbn; intros [= <-]; reflexivity.
Qed.

Lemma parse_provider_raises (provider_data : pyval) (e : exn) :
  parse_provider provider_data = Raise e ->
  e = mk_exn TypeError "" \/ e = mk_exn AttributeError "".
Proof.
  destruct provider_data as [| | | | |d]; cbn; try solve [intros [= <-]; auto].
  intros H. apply bind_Raise in H as [H | (records & _ & H)].
  - left. exact (py_iter_raises _ _ H).
  - apply bind_Raise in H as [H | (rs & _ & H)]; [|discriminate H].
    right.
    exact (for_each_raises (fun e => e = mk_exn AttributeError "") parse_record _ e
             parse_record_raises H).
Qed.

(** X23. What the mapper raises. Whatever the payload is, the mapper
    raises nothing but [TypeError] and [AttributeError]: a key is looked up
    by subscript only after the test [in] has found it, so there is no
    [KeyError]. A payload that is a list or a text without ['Data'] in it
    is not rejected: it gives data without providers. *)
Theorem parse_data_response_raises (data : pyval) :
  (forall e, parse_data_response data = Raise e ->
     e = mk_exn TypeError "" \/ e = mk_exn AttributeError "")
  /\ (forall e, _parse_data_response data = Raise e ->
        e = mk_exn TypeError "" \/ e = mk_exn AttributeError "")
  /\ (forall l, data = VList l -> existsb (py_eq (VStr "Data")) l = false ->
        parse_data_response data = Ok (WeatherData.mk []))
  /\ (forall s, data = VStr s -> str_contains "Data" s = false ->
        parse_data_response data = Ok (WeatherData.mk [])).
Proof.
  assert (Hraises : forall e, parse_data_response data = Raise e ->
            e = mk_exn TypeError "" \/ e = mk_exn AttributeError "").
  { intros e H. unfold parse_data_response, lacks_providers in H.
    apply bind_Raise in H as [H | (early & Hearly & H)].
    - left. apply bind_Raise in H as [H | (has_data & Hdata & H)];
        [exact (py_contains_raises _ _ _ H)|].
      destruct has_data; cbn [negb] in H; [|discriminate H].
      apply bind_Raise in H as [H | (inner & Hinner & H)];
        [exact (py_getitem_after_contains _ _ _ Hdata H)|].
      apply bind_Raise in H as [H | (has_providers & _ & H)];
        [exact (py_contains_raises _ _ _ H) | discriminate H].
    - destruct early; [discriminate H|].
      apply bind_Ok in Hearly as (has_data & Hdata & Hearly).
      destruct has_data; cbn [negb] in Hearly; [|discriminate Hearly].
      apply bind_Ok in Hearly as (inner & Hinner & Hearly).
      apply bind_Ok in Hearly as (has_providers & Hproviders & Hearly).
      injection Hearly as Hearly. destruct has_providers; [|discriminate Hearly].
      rewrite Hinner in H. cbn [mbind result_bind] in H.
      apply bind_Raise in H as [H | (providers_data & _ & H)];
        [left; exact (py_getitem_after_contains _ _ _ Hproviders H)|].
      apply bind_Raise in H as [H | (provider_list & _ & H)];
        [left; exact (py_iter_raises _ _ H)|].
      apply bind_Raise in H as [H | (providers & _ & H)]; [|discriminate H].
      exact (for_each_raises
               (fun e => e = mk_exn TypeError "" \/ e = mk_exn AttributeError "")
               parse_provider _ e parse_provider_raises H). }
  split; [exact Hraises|]. split; [exact Hraises|]. split.
  - intros l -> H. unfold parse_data_response, lacks_providers.
    cbn [py_contains mbind result_bind]. now rewrite H.
  - intros s -> H. unfold parse_data_response, lacks_providers.
    cbn [py_contains mbind result_bind]. now rewrite H.
Qed.

(** * Properties of the queries on [WeatherData] *)

Lemma filter_comm {A : Type} (p q : A -> bool) (l : list A) :
  List.filter p (List.filter q l) = List.filter q (List.filter p l).
Proof.
  induction l as [|x l IH]; [reflexivity|]. cbn [List.filter].
  destruct (p x) eqn:Ep, (q x) eqn:Eq; cbn [List.filter];
    rewrite ?Ep, ?Eq, IH; reflexivity.
Qed.

(** X24. The queries by station and by date. A query compares with [==],
    so a station number given as an [int] finds no record when the stations
    of the records are [str], as they are in the answers of the API; a
    query for a text returns records with exactly that text. The queries
    commute with each other and with the scope filters: asking the filtered
    data is filtering the answer. *)
Theorem records_queries (self : WeatherData.t) (station date : pyval) :
  get_records_by_station (_filter_daily_only self) station
  = daily_records (get_records_by_station self station)
  /\ get_records_by_date (_filter_hourly_only self) date
     = hourly_records (get_records_by_date self date)
  /\ List.filter (fun record => py_eq (WeatherRecord.date record) date)
       (get_records_by_station self station)
     = List.filter (fun record => py_eq (WeatherRecord.station record) station)
         (get_records_by_date self date)
  /\ (forall n,
        Forall (fun record => exists s, WeatherRecord.station record = VStr s)
          (WeatherData.get_all_records self) ->
        get_records_by_station self (VInt n) = [])
  /\ (forall text,
        Forall (fun record => WeatherRecord.station record = VStr text)
          (get_records_by_station self (VStr text))
        /\ Forall (fun record => WeatherRecord.date record = VStr text)
             (get_records_by_date self (VStr text))).
Proof.
  unfold get_records_by_station, get_records_by_date. repeat split.
  - unfold _filter_daily_only, WeatherData.get_all_records at 1.
    cbn [WeatherData.providers]. rewrite flat_map_records_filtered.
    unfold daily_records. apply filter_comm.
  - unfold _filter_hourly_only, WeatherData.get_all_records at 1.
    cbn [WeatherData.providers]. rewrite flat_map_records_filtered.
    rewrite hourly_records_filter. apply filter_comm.
  - apply filter_comm.
  - intros n H. apply filter_all_false. eapply Forall_impl; [exact H|].
    cbn beta. intros record [s ->]. reflexivity.
  - apply Forall_forall. intros record Hin%list_elem_of_In.
    apply filter_In in Hin as [_ H]. now apply py_eq_VStr_r.
  - apply Forall_forall. intros record Hin%list_elem_of_In.
    apply filter_In in Hin as [_ H]. now apply py_eq_VStr_r.
Qed.

(** * Properties of the file names *)

Lemma has_char_app (c : ascii) (a b : string) :
  has_char c (a ++ b) = has_char c a || has_char c b.
Proof.
  induction a as [|x a IH]; [reflexivity|].
  change (String x a ++ b) with (String x (a ++ b)). cbn [has_char].
  now rewrite IH, orb_assoc.
Qed.

Lemma has_char_take (c : ascii) (n : nat) (s : string) :
  has_char c (str_take n s) = true -> has_char c s = true.
Proof.
  revert n. induction s as [|x s IH]; intros [|n]; cbn [str_take has_char];
    try discriminate.
  intros H. apply orb_true_iff in H as [H | H]; [now rewrite H|].
  rewrite (IH n H). apply orb_true_r.
Qed.

Lemma has_char_drop (c : ascii) (n : nat) (s : string) :
  has_char c (str_drop n s) = true -> has_char c s = true.
Proof.
  revert n. induction s as [|x s IH]; intros [|n]; cbn [str_drop]; try discriminate;
    [auto|].
  intros H. cbn [has_char]. rewrite (IH n H). apply orb_true_r.
Qed.

Lemma has_char_filter (c : ascii) (keep : ascii -> bool) (s : string) :
  has_char c (str_filter keep s) = has_char c s && keep c.
Proof.
  induction s as [|x s IH]; [reflexivity|]. cbn [str_filter has_char].
  destruct (Ascii.eqb_spec c x) as [-> | Hne].
  - destruct (keep x) eqn:Hk; cbn [has_char orb andb].
    + now rewrite Ascii.eqb_refl.
    + rewrite IH. now rewrite !andb_false_r.
  - destruct (keep x); cbn [has_char orb]; [|exact IH].
    destruct (Ascii.eqb_spec c x); [congruence | exact IH].
Qed.

Lemma str_filter_filter (p q : ascii -> bool) (s : string) :
  str_filter q (str_filter p s) = str_filter (fun c => p c && q c) s.
Proof.
  induction s as [|x s IH]; [reflexivity|]. cbn [str_filter].
  destruct (p x); cbn [str_filter andb]; [|exact IH]. now rewrite IH.
Qed.

Lemma str_filter_ext (p q : ascii -> bool) (s : string) :
  (forall c, p c = q c) -> str_filter p s = str_filter q s.
Proof.
  intros H. induction s as [|x s IH]; [reflexivity|]. cbn [str_filter].
  now rewrite H, IH.
Qed.

(** Among the characters kept by the first replacement, the second one
    leaves the word characters. *)
Lemma word_chars_kept (c : ascii) :
  (is_word c || is_space c || Ascii.eqb c "-") && negb (Ascii.eqb c "-" || is_space c)
  = is_word c.
Proof. destruct c as [[] [] [] [] [] [] [] []]; reflexivity. Qed.

Lemma _sanitize_name_filter (name : string) :
  _sanitize_name name
  = if String.eqb name "" then "unnamed" else str_take 50 (str_filter is_word name).
Proof.
  unfold _sanitize_name. destruct (String.eqb name ""); [reflexivity|].
  rewrite str_filter_filter. f_equal. apply str_filter_ext. exact word_chars_kept.
Qed.

Lemma _sanitize_name_word (name : string) (c : ascii) :
  has_char c (_sanitize_name name) = true -> is_word c = true.
Proof.
  rewrite _sanitize_name_filter. destruct (String.eqb name "").
  - cbn [has_char]. rewrite !orb_true_iff.
    intros H. repeat (destruct H as [H | H]; [apply Ascii.eqb_eq in H; now subst c|]).
    discriminate H.
  - intros H. apply has_char_take in H. rewrite has_char_filter in H.
    now apply andb_true_iff in H as [_ H].
Qed.

Lemma nat_digits_word (fuel n : nat) (acc : string) (c : ascii) :
  (forall c, has_char c acc = true -> is_word c = true) ->
  has_char c (nat_digits fuel n acc) = true -> is_word c = true.
Proof.
  revert n acc. induction fuel as [|fuel IH]; intros n acc Hacc; [apply Hacc|].
  cbn [nat_digits].
  assert (Hacc' : forall c, has_char c (String (ascii_of_nat (48 + n mod 10)) acc) = true ->
                            is_word c = true).
  { intros c'. cbn [has_char]. intros H. apply orb_true_iff in H as [H | H]; [|now apply Hacc].
    apply Ascii.eqb_eq in H. subst c'.
    pose proof (Nat.mod_upper_bound n 10 ltac:(lia)) as Hlt.
    destruct (n mod 10)%nat as [|[|[|[|[|[|[|[|[|[|k]]]]]]]]]]; try reflexivity. lia. }
  destruct (n <? 10)%nat; [apply Hacc' | apply IH, Hacc'].
Qed.

Lemma str_join_word (l : list string) (c : ascii) :
  Forall (fun s => forall c, has_char c s = true -> is_word c = true) l ->
  has_char c (str_join "_" l) = true -> is_word c = true.
Proof.
  induction 1 as [|x l Hx Hl IH]; [discriminate|].
  cbn [str_join]. destruct l as [|y l]; [apply Hx|].
  rewrite !has_char_app. intros H.
  apply orb_true_iff in H as [H | H]; [now apply Hx|].
  apply orb_true_iff in H as [H | H]; [|now apply IH].
  cbn [has_char] in H. rewrite orb_false_r in H. apply Ascii.eqb_eq in H. now subst c.
Qed.

(** X25. The station part of a file name. [_sanitize_name] keeps the word
    characters of a name, at most fifty of them, and nothing else; the name
    ['unnamed'] stands for the empty name only, so a name without any word
    character gives the empty text. Every character of what
    [_format_station_names] returns is a word character: the station part
    never holds a separator of paths, a dot or a space. *)
Theorem station_part_word_chars (stations : list string) (name : string) :
  _sanitize_name name
    = (if String.eqb name "" then "unnamed" else str_take 50 (str_filter is_word name))
  /\ (String.length (_sanitize_name name) <= 50)%nat
  /\ (forall c, has_char c (_sanitize_name name) = true -> is_word c = true)
  /\ (name <> "" -> (forall c, has_char c name = true -> is_word c = false) ->
      _sanitize_name name = "")
  /\ (forall c, has_char c (_format_station_names stations) = true -> is_word c = true).
Proof.
  split; [apply _sanitize_name_filter|]. split; [|split; [|split]].
  - rewrite _sanitize_name_filter. destruct (String.eqb name "");
      [cbn; lia | apply str_take_length].
  - apply _sanitize_name_word.
  - intros Hne Hnone. rewrite _sanitize_name_filter.
    destruct (String.eqb_spec name ""); [congruence|].
    assert (Hempty : str_filter is_word name = "").
    { clear n Hne. induction name as [|x name IH]; [reflexivity|].
      cbn [str_filter]. rewrite (Hnone x) by (cbn [has_char]; now rewrite Ascii.eqb_refl).
      apply IH. intros c Hc. apply Hnone. cbn [has_char]. rewrite Hc. apply orb_true_r. }
    now rewrite Hempty.
  - intros c. unfold _format_station_names.
    destruct stations as [|s stations]; [|].
    { cbn [has_char]. rewrite !orb_true_iff. intros H.
      repeat (destruct H as [H | H]; [apply Ascii.eqb_eq in H; now subst c|]).
      discriminate H. }
    assert (Hclean : Forall (fun s => forall c, has_char c s = true -> is_word c = true)
                       (map _sanitize_name (firstn 5 (s :: stations)))).
    { apply Forall_forall. intros x Hx%list_elem_of_In. apply in_map_iff in Hx as (y & <- & _).
      apply _sanitize_name_word. }
    assert (Hfirst : forall c, has_char c (nth 0 (map _sanitize_name (firstn 5 (s :: stations))) "")
                               = true -> is_word c = true).
    { cbn [firstn map nth]. apply _sanitize_name_word. }
    destruct (length (s :: stations) =? 1)%nat; [apply Hfirst|].
    destruct (length (s :: stations) <=? 3)%nat; [now apply str_join_word|].
    rewrite !has_char_app. intros H.
    apply orb_true_iff in H as [H | H]; [now apply Hfirst|].
    apply orb_true_iff in H as [H | H].
    { cbn [has_char] in H. rewrite !orb_true_iff in H.
      repeat (destruct H as [H | H]; [apply Ascii.eqb_eq in H; now subst c|]).
      discriminate H. }
    apply orb_true_iff in H as [H | H].
    { unfold int_str in H.
      assert (Hpos : (Z.of_nat (length (s :: stations)) - 1 <? 0) = false)
        by (apply Z.ltb_ge; cbn [length]; lia).
      rewrite Hpos in H. revert H. apply nat_digits_word. discriminate. }
    cbn [has_char] in H. rewrite !orb_true_iff in H.
    repeat (destruct H as [H | H]; [apply Ascii.eqb_eq in H; now subst c|]).
    discriminate H.
Qed.

(** ** [_sanitize_filename] *)

Lemma has_char_replace_old (old new : ascii) (s : string) :
  old <> new -> has_char old (replace_char old new s) = false.
Proof.
  intros Hne. induction s as [|x s IH]; [reflexivity|]. cbn [replace_char has_char].
  rewrite IH, orb_false_r. destruct (Ascii.eqb_spec x old) as [-> | Hx].
  - now apply Ascii.eqb_neq.
  - apply Ascii.eqb_neq. congruence.
Qed.

Lemma has_char_replace_other (c old new : ascii) (s : string) :
  c <> new -> has_char c (replace_char old new s) = true -> has_char c s = true.
Proof.
  intros Hne. induction s as [|x s IH]; [discriminate|]. cbn [replace_char has_char].
  intros H. apply orb_true_iff in H as [H | H].
  - apply Ascii.eqb_eq in H. destruct (Ascii.eqb x old); [congruence|].
    subst x. now rewrite Ascii.eqb_refl.
  - rewrite (IH H). apply orb_true_r.
Qed.

Lemma replace_char_absent (old new : ascii) (s : string) :
  has_char old s = false -> replace_char old new s = s.
Proof.
  induction s as [|x s IH]; [reflexivity|]. cbn [replace_char has_char].
  intros H. apply orb_false_iff in H as [Hx Hs]. rewrite (IH Hs).
  rewrite Ascii.eqb_sym, Hx. reflexivity.
Qed.

Lemma absent_after_replacements (c : ascii) (chars : list ascii) (s : string) :
  c <> "_"%char -> has_char c s = false ->
  has_char c (fold_left (fun name char => replace_char char "_" name) chars s) = false.
Proof.
  intros Hne. revert s. induction chars as [|ch chars IH]; intros s Hs; [exact Hs|].
  cbn [fold_left]. apply IH.
  destruct (has_char c (replace_char ch "_" s)) eqn:E; [|reflexivity].
  apply has_char_replace_other in E; [congruence | exact Hne].
Qed.

Lemma replaced_chars_absent (c : ascii) (chars : list ascii) (s : string) :
  c <> "_"%char -> In c chars ->
  has_char c (fold_left (fun name char => replace_char char "_" name) chars s) = false.
Proof.
  intros Hne. revert s. induction chars as [|ch chars IH]; intros s Hin; [destruct Hin|].
  cbn [fold_left]. destruct (ascii_dec ch c) as [-> | Hch].
  - apply absent_after_replacements; [exact Hne|]. now apply has_char_replace_old.
  - destruct Hin as [Hin | Hin]; [congruence|]. now apply IH.
Qed.

Lemma replacements_absent (chars : list ascii) (s : string) :
  free_of chars s = true ->
  fold_left (fun name char => replace_char char "_" name) chars s = s.
Proof.
  unfold free_of. induction chars as [|ch chars IH]; [reflexivity|].
  cbn [forallb fold_left]. intros H. apply andb_true_iff in H as [Hch Hrest].
  apply negb_true_iff in Hch. rewrite (replace_char_absent ch "_" s Hch). now apply IH.
Qed.

Lemma replacements_not_empty (chars : list ascii) (s : string) :
  s <> "" -> fold_left (fun name char => replace_char char "_" name) chars s <> "".
Proof.
  revert s. induction chars as [|ch chars IH]; intros s Hs; [exact Hs|].
  cbn [fold_left]. apply IH. destruct s; [congruence | discriminate].
Qed.

Lemma has_char_collapse (c : ascii) (s : string) :
  has_char c (collapse_underscores s) = true -> has_char c s = true.
Proof.
  induction s as [|x s IH]; [discriminate|]. cbn [collapse_underscores].
  destruct (Ascii.eqb x "_") eqn:Ex.
  - destruct s as [|y s]; [auto|].
    destruct (Ascii.eqb y "_") eqn:Ey.
    + intros H. cbn [has_char]. cbn [has_char] in IH. rewrite (IH H). apply orb_true_r.
    + cbn [has_char]. cbn [has_char] in IH. intros H.
      apply orb_true_iff in H as [H | H]; [now rewrite H|].
      rewrite (IH H). apply orb_true_r.
  - cbn [has_char]. intros H. apply orb_true_iff in H as [H | H]; [now rewrite H|].
    rewrite (IH H). apply orb_true_r.
Qed.

(** The first character of the collapsed text is that of the text. *)
Lemma collapse_head (s : string) :
  match collapse_underscores s with
  | String a _ => exists t, s = String a t
  | EmptyString => s = ""
  end.
Proof.
  induction s as [|x s IH]; [reflexivity|]. cbn [collapse_underscores].
  destruct (Ascii.eqb x "_") eqn:Ex; [|eauto].
  destruct s as [|y s]; [eauto|].
  destruct (Ascii.eqb y "_") eqn:Ey; [|eauto].
  apply Ascii.eqb_eq in Ex, Ey. subst x y.
  destruct (collapse_underscores (String "_" s)) as [|a r]; [discriminate IH|].
  destruct IH as [t [= <- _]]. eauto.
Qed.

Lemma prefix_two (a b : ascii) (s : string) :
  String.prefix "__" (String a (String b s)) = Ascii.eqb a "_" && Ascii.eqb b "_".
Proof.
  cbn [String.prefix].
  destruct (ascii_dec "_" a) as [<- | Ha].
  - destruct (ascii_dec "_" b) as [<- | Hb]; [now destruct s|].
    cbn [andb Ascii.eqb Bool.eqb]. symmetry. apply Ascii.eqb_neq. congruence.
  - replace (Ascii.eqb a "_") with false; [reflexivity|].
    symmetry. apply Ascii.eqb_neq. congruence.
Qed.

Lemma collapse_no_run (s : string) :
  str_contains "__" (collapse_underscores s) = false.
Proof.
  induction s as [|x s IH]; [reflexivity|]. cbn [collapse_underscores].
  destruct (Ascii.eqb x "_") eqn:Ex.
  - destruct s as [|y s];
      [cbn [str_contains String.prefix]; now destruct (ascii_dec "_" x)|].
    destruct (Ascii.eqb y "_") eqn:Ey; [exact IH|].
    cbn [str_contains]. rewrite IH, orb_false_r.
    cbn [collapse_underscores]. rewrite Ey.
    rewrite prefix_two, Ey. apply andb_false_r.
  - cbn [str_contains]. rewrite IH, orb_false_r.
    destruct (collapse_underscores s) as [|a r];
      [cbn [String.prefix]; now destruct (ascii_dec "_" x)|].
    rewrite prefix_two, Ex. reflexivity.
Qed.

Lemma collapse_fixed (s : string) :
  str_contains "__" s = false -> collapse_underscores s = s.
Proof.
  induction s as [|x s IH]; [reflexivity|]. cbn [str_contains collapse_underscores].
  intros H. apply orb_false_iff in H as [Hp Hs]. rewrite (IH Hs).
  destruct (Ascii.eqb x "_") eqn:Ex; [|reflexivity].
  destruct s as [|y s]; [reflexivity|].
  rewrite prefix_two, Ex in Hp. cbn [andb] in Hp. now rewrite Hp.
Qed.

Lemma rfind_dot_None (s : string) (k : nat) :
  rfind_dot s k = None <-> has_char "." s = false.
Proof.
  revert k. induction s as [|x s IH]; intros k; [split; reflexivity|].
  cbn [rfind_dot has_char]. rewrite (Ascii.eqb_sym "." x).
  destruct (rfind_dot s (S k)) as [j|] eqn:E.
  - split; [discriminate|]. intros H. apply orb_false_iff in H as [_ H].
    apply (IH (S k)) in H. congruence.
  - apply (IH (S k)) in E. rewrite E, orb_false_r.
    destruct (Ascii.eqb x "."); split; congruence.
Qed.

Lemma rfind_dot_Some (s : string) (k i : nat) :
  rfind_dot s k = Some i ->
  exists j, i = (k + j)%nat
    /\ s = str_take j s ++ String "." (str_drop (S j) s)
    /\ has_char "." (str_drop (S j) s) = false.
Proof.
  revert k i. induction s as [|x s IH]; intros k i; [discriminate|].
  cbn [rfind_dot]. destruct (rfind_dot s (S k)) as [j'|] eqn:E.
  - intros [= <-]. destruct (IH (S k) j' E) as (j & -> & Hs & Hno).
    exists (S j). split; [lia|]. split; [|exact Hno].
    change (String x s = String x (str_take j s ++ String "." (str_drop (S j) s))).
    f_equal. exact Hs.
  - destruct (Ascii.eqb_spec x ".") as [-> | Hx]; [|discriminate].
    intros [= <-]. exists 0%nat. split; [lia|]. split; [reflexivity|].
    cbn [str_drop]. now apply (rfind_dot_None s (S k)).
Qed.

Lemma clean_filename_free (filename : string) :
  free_of invalid_chars (clean_filename filename) = true.
Proof.
  unfold free_of. apply forallb_forall. intros c Hc. apply negb_true_iff.
  destruct (has_char c (clean_filename filename)) eqn:E; [|reflexivity].
  unfold clean_filename in E. apply has_char_collapse in E.
  rewrite replaced_chars_absent in E; [discriminate E| |exact Hc].
  unfold invalid_chars in Hc. cbn [In] in Hc.
  repeat (destruct Hc as [<- | Hc]; [discriminate|]). destruct Hc.
Qed.

Lemma clean_filename_fixed (filename : string) :
  clean_filename (clean_filename filename) = clean_filename filename.
Proof.
  unfold clean_filename at 1.
  rewrite (replacements_absent _ _ (clean_filename_free filename)).
  apply collapse_fixed. apply collapse_no_run.
Qed.

Lemma clean_filename_not_empty (filename : string) :
  filename <> "" -> clean_filename filename <> "".
Proof.
  intros H E. unfold clean_filename in E.
  pose proof (collapse_head
                (fold_left (fun name char => replace_char char "_" name)
                   invalid_chars filename)) as Hh.
  rewrite E in Hh. now apply (replacements_not_empty invalid_chars filename H).
Qed.

(** X26. A sanitized file name. For a name that is not empty, the name
    after the two replacements holds none of the seven invalid characters
    and no two underscores in a row. When it is at most 200 characters long
    it is the result, and sanitizing the result again changes nothing. A
    longer name without a dot raises [ValueError]; a longer name with a dot
    is cut to the first 190 characters of what precedes the last dot,
    followed by an underscore, the time of the clock, a dot and the
    extension: with a six-digit time and a base of 190 characters or more
    the result is 198 characters and the extension long, so 201 for
    [csv]. *)
Theorem sanitize_filename_outcome (now_stamp now_time filename : string) :
  filename <> "" ->
  free_of invalid_chars (clean_filename filename) = true
  /\ str_contains "__" (clean_filename filename) = false
  /\ ((String.length (clean_filename filename) <= 200)%nat ->
      _sanitize_filename now_stamp now_time filename = Ok (clean_filename filename)
      /\ _sanitize_filename now_stamp now_time (clean_filename filename)
         = Ok (clean_filename filename))
  /\ ((200 < String.length (clean_filename filename))%nat ->
      if has_char "." (clean_filename filename) then
        exists base ext,
          clean_filename filename = base ++ "." ++ ext
          /\ has_char "." ext = false
          /\ _sanitize_filename now_stamp now_time filename
             = Ok (str_take 190 base ++ "_" ++ now_time ++ "." ++ ext)
          /\ ((190 <= String.length base)%nat ->
              String.length (str_take 190 base ++ "_" ++ now_time ++ "." ++ ext)
              = (192 + String.length now_time + String.length ext)%nat)
      else _sanitize_filename now_stamp now_time filename = raise_ ValueError).
Proof.
  intros Hne. split; [apply clean_filename_free|].
  split; [apply collapse_no_run|].
  assert (Hrun : forall name, name <> "" ->
            _sanitize_filename now_stamp now_time name
            = if (200 <? String.length (clean_filename name))%nat then
                match rsplit_dot (clean_filename name) with
                | Some (base, ext) =>
                    Ok (str_take 190 base ++ "_" ++ now_time ++ "." ++ ext)
                | None => raise_ ValueError
                end
              else Ok (clean_filename name)).
  { intros name Hname. unfold _sanitize_filename.
    destruct (String.eqb_spec name ""); [congruence | reflexivity]. }
  split.
  - intros Hlen. rewrite (Hrun filename Hne).
    rewrite (Hrun (clean_filename filename) (clean_filename_not_empty filename Hne)).
    rewrite clean_filename_fixed.
    destruct (Nat.ltb_spec 200 (String.length (clean_filename filename))); [lia|].
    split; reflexivity.
  - intros Hlen. rewrite (Hrun filename Hne).
    destruct (Nat.ltb_spec 200 (String.length (clean_filename filename))); [|lia].
    unfold rsplit_dot.
    destruct (rfind_dot (clean_filename filename) 0) as [i|] eqn:E.
    + destruct (rfind_dot_Some _ _ _ E) as (j & -> & Hsplit & Hno).
      cbn [Nat.add].
      assert (Hdot : has_char "." (clean_filename filename) = true).
      { rewrite Hsplit, has_char_app. cbn [has_char Ascii.eqb Bool.eqb].
        apply orb_true_r. }
      rewrite Hdot.
      exists (str_take j (clean_filename filename)),
        (str_drop (S j) (clean_filename filename)).
      split; [exact Hsplit|]. split; [exact Hno|]. split; [reflexivity|].
      intros Hbase. rewrite !str_length_app. cbn [String.length].
      assert (Htake : forall n s, (n <= String.length s)%nat ->
                String.length (str_take n s) = n).
      { clear. intros n s. revert n. induction s as [|x s IH]; intros [|n];
          cbn [str_take String.length]; try lia.
        intros H. rewrite IH; lia. }
      rewrite (Htake 190%nat _ Hbase). lia.
    + apply rfind_dot_None in E. now rewrite E.
Qed.

Lemma sanitize_filename_outcome_witness :
  free_of invalid_chars (clean_filename long_name) = true
  /\ str_contains "__" (clean_filename long_name) = false
  /\ ((String.length (clean_filename long_name) <= 200)%nat ->
      _sanitize_filename "20240101_101500" "101500" long_name
      = Ok (clean_filename long_name)
      /\ _sanitize_filename "20240101_101500" "101500" (clean_filename long_name)
         = Ok (clean_filename long_name))
  /\ ((200 < String.length (clean_filename long_name))%nat ->
      if has_char "." (clean_filename long_name) then
        exists base ext,
          clean_filename long_name = base ++ "." ++ ext
          /\ has_char "." ext = false
          /\ _sanitize_filename "20240101_101500" "101500" long_name
             = Ok (str_take 190 base ++ "_" ++ "101500" ++ "." ++ ext)
          /\ ((190 <= String.length base)%nat ->
              String.length (str_take 190 base ++ "_" ++ "101500" ++ "." ++ ext)
              = (192 + String.length "101500" + String.length ext)%nat)
      else _sanitize_filename "20240101_101500" "101500" long_name = raise_ ValueError).
Proof.
  apply (sanitize_filename_outcome "20240101_101500" "101500" long_name).
  discriminate.
Defined.

(** The sanitized long name is one character longer than the limit. *)
Example long_name_sanitized :
  (String.length <$> _sanitize_filename "20240101_101500" "101500" long_name)
  = Ok 201%nat.
Proof. vm_compute. reflexivity. Qed.

(** * The two files of a separated export *)

Lemma str_take_drop (n : nat) (s : string) : str_take n s ++ str_drop n s = s.
Proof.
  revert n. induction s as [|x s IH]; intros [|n]; try reflexivity.
  cbn [str_take str_drop].
  change (String x (str_take n s ++ str_drop n s) = String x s). now rewrite IH.
Qed.

(** A name is its stem followed by its suffix. *)
Lemma stem_suffix (p : Path) : stem p ++ suffix p = name p.
Proof.
  unfold stem, suffix. destruct (rfind_dot (name p) 0) as [i|]; [|apply str_app_nil_r].
  destruct ((0 <? i)%nat && (i <? String.length (name p) - 1)%nat);
    [apply str_take_drop | apply str_app_nil_r].
Qed.

Lemma str_app_inv_head (a b c : string) : a ++ b = a ++ c -> b = c.
Proof.
  induction a as [|x a IH]; [auto|]. intros H. apply IH.
  change (String x (a ++ b) = String x (a ++ c)) in H. congruence.
Qed.

(** Two paths of the same directory are equal only if their names are. *)
Lemma path_str_name (dir n1 n2 : string) :
  path_str (mk_Path dir n1) = path_str (mk_Path dir n2) -> n1 = n2.
Proof.
  unfold path_str. cbn [parent name].
  destruct (String.eqb dir "."); [auto|].
  destruct (String.eqb (str_drop (String.length dir - 1) dir) "/").
  - apply str_app_inv_head.
  - intros H. apply str_app_inv_head in H. now apply str_app_inv_head in H.
Qed.

Lemma path_str_names (p : Path) (tag1 tag2 : string) :
  tag1 <> tag2 ->
  path_str (mk_Path (parent p) (stem p ++ tag1 ++ suffix p))
  <> path_str (mk_Path (parent p) (stem p ++ tag2 ++ suffix p)).
Proof.
  intros Hne H. apply path_str_name, str_app_inv_head in H.
  apply Hne. apply (str_app_inv_tail _ _ (suffix p)). exact H.
Qed.

Lemma path_str_tagged (p : Path) (tag : string) :
  tag <> "" ->
  path_str (mk_Path (parent p) (stem p ++ tag ++ suffix p)) <> path_str p.
Proof.
  intros Hne H. destruct p as [dir n]. cbn [parent] in H.
  apply path_str_name in H. rewrite <- (stem_suffix (mk_Path dir n)) in H at 3.
  apply str_app_inv_head in H.
  apply (str_app_inv_tail tag "" (suffix (mk_Path dir n))) in H. congruence.
Qed.

(** What a returning export has done. *)
Lemma export_returns (weather_data : WeatherData.t) (records : list WeatherRecord.t)
    (filename : Path) (scope_type : string) (s s' : fs) (r : string) :
  _export_records_to_csv weather_data records filename scope_type s = (s', Ok r) ->
  r = path_str filename
  /\ denied s' = denied s
  /\ (forall q, q <> path_str filename -> files s' !! q = files s !! q)
  /\ exists rows,
       files s' !! path_str filename
       = Some (map VStr (all_columns scope_type records) :: rows)
       /\ length rows
          = length (included records (WeatherData.get_all_records weather_data)).
Proof.
  intros Hrun.
  destruct (decide (parent filename ∈ denied s)) as [Hp | Hp].
  { rewrite export_denied in Hrun by now left. discriminate. }
  destruct (decide (path_str filename ∈ denied s)) as [Hf | Hf].
  { rewrite export_denied in Hrun by now right. discriminate. }
  destruct (export_run weather_data records filename scope_type s Hp Hf)
    as (s1 & res & rows & Hrun1 & Hd & Hfile & Hother & Hwide & Hres).
  rewrite Hrun in Hrun1. injection Hrun1 as <- <-.
  destruct Hres as (-> & Hn & _). repeat split; auto. exists rows. auto.
Qed.

Section two_files.
Variable generate_for_weather_data : WeatherData.t -> result Path.

(** X27. A separated export of data with daily and with hourly records.
    When [export_to_csv] returns in that case, it has written two files,
    [<stem>_daily<suffix>] with the daily header and one row for each daily
    record, and [<stem>_hourly<suffix>] with the hourly header and one row
    for each hourly record, in the directory of the file name given. The
    two paths differ from each other and from the path given: no file is
    written under the name asked for, no other file is changed, and the
    value returned is the text ['Daily: ..., Hourly: ...'], not a path. *)
Theorem export_two_files (weather_data : WeatherData.t) (filename : Path)
    (include_all_columns : bool) (s s' : fs) (r : string) :
  daily_records (WeatherData.get_all_records weather_data) <> [] ->
  hourly_records (WeatherData.get_all_records weather_data) <> [] ->
  export_to_csv generate_for_weather_data weather_data (Some filename)
    include_all_columns true s = (s', Ok r) ->
  let daily := path_str (mk_Path (parent filename)
                           (stem filename ++ "_daily" ++ suffix filename)) in
  let hourly := path_str (mk_Path (parent filename)
                            (stem filename ++ "_hourly" ++ suffix filename)) in
  r = "Daily: " ++ daily ++ ", Hourly: " ++ hourly
  /\ daily <> hourly /\ daily <> path_str filename /\ hourly <> path_str filename
  /\ (exists rows,
        files s' !! daily
        = Some (map VStr (all_columns "daily"
                            (daily_records (WeatherData.get_all_records weather_data)))
                :: rows)
        /\ length rows
           = length (included (daily_records (WeatherData.get_all_records weather_data))
                       (WeatherData.get_all_records weather_data)))
  /\ (exists rows,
        files s' !! hourly
        = Some (map VStr (all_columns "hourly"
                            (hourly_records (WeatherData.get_all_records weather_data)))
                :: rows)
        /\ length rows
           = length (included (hourly_records (WeatherData.get_all_records weather_data))
                       (WeatherData.get_all_records weather_data)))
  /\ (forall q, q <> daily -> q <> hourly -> files s' !! q = files s !! q).
Proof.
  intros Hd Hh Hrun daily hourly.
  assert (Hdh : daily <> hourly) by (apply path_str_names; discriminate).
  assert (Hdf : daily <> path_str filename) by (apply path_str_tagged; discriminate).
  assert (Hhf : hourly <> path_str filename) by (apply path_str_tagged; discriminate).
  unfold export_to_csv in Hrun.
  destruct (WeatherData.get_all_records weather_data) as [|record0 records0] eqn:Hall;
    [now destruct Hd|].
  rewrite <- Hall in *.
  destruct (daily_records (WeatherData.get_all_records weather_data))
    as [|d0 ds] eqn:Ed; [now destruct Hd|].
  destruct (hourly_records (WeatherData.get_all_records weather_data))
    as [|h0 hs] eqn:Eh; [now destruct Hh|].
  unfold with_name, mbind, io_bind, io_lift, mret, io_ret in Hrun.
  cbv beta iota in Hrun.
  destruct (String.eqb (name filename) ""); [discriminate Hrun|].
  cbv beta iota in Hrun.
  destruct (_export_records_to_csv weather_data (d0 :: ds)
              (mk_Path (parent filename) (stem filename ++ "_daily" ++ suffix filename))
              "daily" s) as [s1 [r1|e1]] eqn:E1; [|discriminate Hrun].
  destruct (_export_records_to_csv weather_data (h0 :: hs)
              (mk_Path (parent filename) (stem filename ++ "_hourly" ++ suffix filename))
              "hourly" s1) as [s2 [r2|e2]] eqn:E2; [|discriminate Hrun].
  injection Hrun as <- <-.
  apply export_returns in E1 as (_ & _ & Ho1 & rows1 & Hf1 & Hn1).
  apply export_returns in E2 as (_ & _ & Ho2 & rows2 & Hf2 & Hn2).
  fold daily in Ho1, Hf1. fold hourly in Ho2, Hf2.
  split; [reflexivity|]. split; [exact Hdh|]. split; [exact Hdf|].
  split; [exact Hhf|]. split; [|split].
  - exists rows1. split; [|exact Hn1]. exact (eq_trans (Ho2 daily Hdh) Hf1).
  - exists rows2. split; [exact Hf2 | exact Hn2].
  - intros q Hq1 Hq2. exact (eq_trans (Ho2 q Hq2) (Ho1 q Hq1)).
Qed.

End two_files.

Lemma export_two_files_witness :
  let s' := fst (export_to_csv no_generator three_scopes (Some (mk_Path "." "out.csv"))
                   true true empty_fs) in
  let daily := path_str (mk_Path (parent (mk_Path "." "out.csv"))
                           (stem (mk_Path "." "out.csv") ++ "_daily"
                            ++ suffix (mk_Path "." "out.csv"))) in
  let hourly := path_str (mk_Path (parent (mk_Path "." "out.csv"))
                            (stem (mk_Path "." "out.csv") ++ "_hourly"
                             ++ suffix (mk_Path "." "out.csv"))) in
  "Daily: out_daily.csv, Hourly: out_hourly.csv"
  = "Daily: " ++ daily ++ ", Hourly: " ++ hourly
  /\ daily <> hourly /\ daily <> path_str (mk_Path "." "out.csv")
  /\ hourly <> path_str (mk_Path "." "out.csv")
  /\ (exists rows,
        files s' !! daily
        = Some (map VStr (all_columns "daily"
                            (daily_records (WeatherData.get_all_records three_scopes)))
                :: rows)
        /\ length rows
           = length (included (daily_records (WeatherData.get_all_records three_scopes))
                       (WeatherData.get_all_records three_scopes)))
  /\ (exists rows,
        files s' !! hourly
        = Some (map VStr (all_columns "hourly"
                            (hourly_records (WeatherData.get_all_records three_scopes)))
                :: rows)
        /\ length rows
           = length (included (hourly_records (WeatherData.get_all_records three_scopes))
                       (WeatherData.get_all_records three_scopes)))
  /\ (forall q, q <> daily -> q <> hourly -> files s' !! q = files empty_fs !! q).
Proof.
  apply (export_two_files no_generator three_scopes (mk_Path "." "out.csv") true
           empty_fs).
  - vm_compute. discriminate.
  - vm_compute. discriminate.
  - vm_compute. reflexivity.
Defined.
